(** * pyTektronix: the oscilloscope reader of [src/oscilloscope.py]

    A shallow embedding of the response parsing, the sample decoding and the
    [WaveformCollection] class, with the properties of the specification
    stated over it.

    Conventions of the embedding:
    - a Python [str] is a [string] whose characters are code points below 256;
    - a Python [float] is an IEEE 754 binary64 value, [spec_float] with
      precision 53 and maximal exponent 1024, computed by the operations of
      [SpecFloat] (round to nearest, ties to even);
    - a Python [dict] is an association list in insertion order with unique
      keys: assigning to a present key keeps its place, assigning to a new key
      appends;
    - a raised exception is the [Raise] result of an error monad; code that
      talks to the instrument or mutates objects threads a state;
    - Python objects that are mutated in place ([WaveformCollection]
      instances and header dictionaries) live in a store and are denoted by
      locations. *)

From Stdlib Require Import ZArith String Ascii List Lia QArith.
From Stdlib Require Import Strings.Byte Numbers.DecimalString.
From Stdlib Require Import Floats.SpecFloat.
From stdpp Require Import base tactics option strings functions list.

Open Scope Z_scope.

(** ** Exceptions and results *)

(** The exception classes the modelled code can raise. [VisaIOError] stands
    for any failure of the instrument transport. *)
Inductive exn : Type :=
| KeyError (key : string)
| ValueError (literal : string)
| IndexError
| AttributeError (msg : string)
| TypeError
| VisaIOError (msg : string).

Inductive result (A : Type) : Type :=
| Ok (a : A)
| Raise (e : exn).
Arguments Ok {A} a.
Arguments Raise {A} e.

#[global] Instance result_ret : MRet result := fun A a => Ok a.
#[global] Instance result_bind : MBind result := fun A B f m =>
  match m with Ok a => f a | Raise e => Raise e end.

(** State and error: a computation over a state [St] either raises or returns
    a value and the next state. *)
Definition M (St A : Type) : Type := St -> result (A * St).

#[global] Instance M_ret {St} : MRet (M St) := fun A a s => Ok (a, s).
#[global] Instance M_bind {St} : MBind (M St) := fun A B f m s =>
  match m s with Ok (a, s') => f a s' | Raise e => Raise e end.

Definition raise {St A} (e : exn) : M St A := fun _ => Raise e.
Definition lift_result {St A} (r : result A) : M St A := fun s =>
  match r with Ok a => Ok (a, s) | Raise e => Raise e end.

(** [for x in xs: body x], for a body that returns nothing. *)
Fixpoint for_each {St A} (body : A -> M St unit) (xs : list A) : M St unit :=
  match xs with
  | [] => mret tt
  | x :: xs' => body x ≫= fun _ => for_each body xs'
  end.

(** [[f(x) for x in xs]] for a function that may raise. *)
Fixpoint map_result {A B} (f : A -> result B) (xs : list A) : result (list B) :=
  match xs with
  | [] => Ok []
  | x :: xs' => y ← f x; ys ← map_result f xs'; mret (y :: ys)
  end.

(** ** Strings *)

Definition LF : ascii := "010"%char.

(** Characters that [str.strip] treats as white space. *)
Definition is_space (c : ascii) : bool :=
  let n := N_of_ascii c in
  ((9 <=? n) && (n <=? 13) || (28 <=? n) && (n <=? 32)
   || (n =? 133) || (n =? 160))%N.

Fixpoint lstrip (s : string) : string :=
  match s with
  | String c s' => if is_space c then lstrip s' else s
  | EmptyString => EmptyString
  end.

Fixpoint rstrip (s : string) : string :=
  match s with
  | String c s' =>
      let r := rstrip s' in
      if is_space c && String.eqb r "" then "" else String c r
  | EmptyString => EmptyString
  end.

(** [s.strip()] *)
Definition strip (s : string) : string := rstrip (lstrip s).

(** [s.split(sep)] for a separator of one character. *)
Fixpoint split (sep : ascii) (s : string) : list string :=
  match s with
  | EmptyString => [""]
  | String c s' =>
      if Ascii.eqb c sep then "" :: split sep s'
      else match split sep s' with
           | w :: ws => String c w :: ws
           | [] => [String c ""]
           end
  end.

(** [s.replace(old, new, 1)] *)
Fixpoint replace_first (old new s : string) : string :=
  if String.prefix old s
  then new +:+ String.substring (String.length old) (String.length s - String.length old) s
  else match s with
       | String c s' => String c (replace_first old new s')
       | EmptyString => EmptyString
       end.

(** [StringIO.readline]: the characters up to and including the next line
    feed, and the rest of the stream. At the end of the stream it returns the
    empty string. *)
Fixpoint readline (s : string) : string * string :=
  match s with
  | EmptyString => ("", "")
  | String c s' =>
      if Ascii.eqb c LF then (String c "", s')
      else let '(l, r) := readline s' in (String c l, r)
  end.

(** [s[0]]: the first character, [IndexError] on the empty string. *)
Definition first_char (s : string) : result ascii :=
  match s with
  | String c _ => Ok c
  | EmptyString => Raise IndexError
  end.

(** [str(n)] for an integer. *)
Definition str_of_int (n : Z) : string :=
  DecimalString.NilZero.string_of_int (Z.to_int n).

Definition lower_char (c : ascii) : ascii :=
  let n := N_of_ascii c in
  if ((65 <=? n) && (n <=? 90))%N then ascii_of_N (n + 32) else c.

Fixpoint lower (s : string) : string :=
  match s with
  | String c s' => String (lower_char c) (lower s')
  | EmptyString => EmptyString
  end.

(** ** Floating-point numbers *)

Definition float : Type := spec_float.
Definition prec : Z := 53.
Definition emax : Z := 1024.

Definition fadd : float -> float -> float := SFadd prec emax.
Definition fsub : float -> float -> float := SFsub prec emax.
Definition fmul : float -> float -> float := SFmul prec emax.

(** Conversion of a Python integer to float, correctly rounded. *)
Definition float_of_int (z : Z) : float := binary_normalize prec emax z 0 false.

(** The float nearest to [m * 10^e], with sign [neg]. *)
Definition float_of_decimal (neg : bool) (m : Z) (e : Z) : float :=
  match m with
  | Zpos p =>
      if 0 <=? e then binary_round prec emax neg (p * Z.to_pos (10 ^ e)) 0
      else
        let '(q, e', l) := SFdiv_core_binary prec emax (Zpos p) 0 (10 ^ (- e)) 0 in
        binary_round_aux prec emax neg q e' l
  | _ => S754_zero neg
  end.

(** The exact value of a finite float as a rational, for reading results. *)
Definition float_value (f : float) : option Q :=
  match f with
  | S754_zero _ => Some 0%Q
  | S754_finite s m e =>
      let n := if s then Zneg m else Zpos m in
      Some (Qred (if 0 <=? e then inject_Z (n * 2 ^ e) else Qmake n (Z.to_pos (2 ^ (- e)))))
  | _ => None
  end.

(** *** [float(str)]

    The grammar of the builtin: optional white space around an optional sign
    followed by [inf], [infinity] or [nan] in any case, or by a decimal number
    ([digits], [digits.], [.digits] or [digits.digits], with single
    underscores allowed between digits) and an optional exponent. *)

(** The white space that [float] removes at both ends: the six characters of
    C's [isspace], and the two characters above 127 that count as spaces
    (next line and no-break space). The separators 28 to 31, which
    [str.strip] removes, are not among them. *)
Definition is_float_space (c : ascii) : bool :=
  let n := N_of_ascii c in
  ((9 <=? n) && (n <=? 13) || (n =? 32) || (n =? 133) || (n =? 160))%N.

Fixpoint float_lstrip (s : string) : string :=
  match s with
  | String c s' => if is_float_space c then float_lstrip s' else s
  | EmptyString => EmptyString
  end.

Fixpoint float_rstrip (s : string) : string :=
  match s with
  | String c s' =>
      let r := float_rstrip s' in
      if is_float_space c && String.eqb r "" then "" else String c r
  | EmptyString => EmptyString
  end.

Definition is_digit (c : ascii) : bool :=
  ((48 <=? N_of_ascii c) && (N_of_ascii c <=? 57))%N.

Definition digit_val (c : ascii) : Z := Z.of_N (N_of_ascii c) - 48.

(** The rest of a digit part after its first digit: value so far, number of
    digits so far, input. *)
Fixpoint digits_tail (acc n : Z) (s : string) : Z * Z * string :=
  match s with
  | String c s' =>
      if is_digit c then digits_tail (10 * acc + digit_val c) (n + 1) s'
      else if Ascii.eqb c "_" then
        match s' with
        | String d s'' =>
            if is_digit d then digits_tail (10 * acc + digit_val d) (n + 1) s''
            else (acc, n, s)
        | EmptyString => (acc, n, s)
        end
      else (acc, n, s)
  | EmptyString => (acc, n, s)
  end.

Definition digitpart (acc : Z) (s : string) : option (Z * Z * string) :=
  match s with
  | String c s' =>
      if is_digit c then Some (digits_tail (10 * acc + digit_val c) 1 s') else None
  | EmptyString => None
  end.

(** Mantissa, number of fraction digits and the rest of the input. *)
Definition parse_number (s : string) : option (Z * Z * string) :=
  match digitpart 0 s with
  | Some (i, _, r) =>
      match r with
      | String "." r' =>
          match digitpart i r' with
          | Some (m, nfrac, r'') => Some (m, nfrac, r'')
          | None => Some (i, 0, r')
          end
      | _ => Some (i, 0, r)
      end
  | None =>
      match s with
      | String "." r' => digitpart 0 r'
      | _ => None
      end
  end.

Definition parse_exponent (s : string) : option Z :=
  match s with
  | EmptyString => Some 0
  | String c r =>
      if Ascii.eqb c "e" || Ascii.eqb c "E" then
        let '(neg, r') :=
          match r with
          | String "+" t => (false, t)
          | String "-" t => (true, t)
          | _ => (false, r)
          end in
        match digitpart 0 r' with
        | Some (x, _, EmptyString) => Some (if neg then - x else x)
        | _ => None
        end
      else None
  end.

Definition py_float (s : string) : result float :=
  let t := float_rstrip (float_lstrip s) in
  let '(neg, u) :=
    match t with
    | String "+" r => (false, r)
    | String "-" r => (true, r)
    | _ => (false, t)
    end in
  let l := lower u in
  if String.eqb l "inf" || String.eqb l "infinity" then Ok (S754_infinity neg)
  else if String.eqb l "nan" then Ok S754_nan
  else
    match parse_number u with
    | Some (m, nfrac, r) =>
        match parse_exponent r with
        | Some x => Ok (float_of_decimal neg m (x - nfrac))
        | None => Raise (ValueError s)
        end
    | None => Raise (ValueError s)
    end.

(** ** Dictionaries *)

(** A [dict] with string keys, in insertion order. *)
Definition pydict (V : Type) : Type := list (string * V).

Fixpoint dict_get {V} (k : string) (d : pydict V) : option V :=
  match d with
  | [] => None
  | (k', v) :: d' => if String.eqb k' k then Some v else dict_get k d'
  end.

(** [d[k]] *)
Definition getitem {V} (d : pydict V) (k : string) : result V :=
  match dict_get k d with
  | Some v => Ok v
  | None => Raise (KeyError k)
  end.

(** [d[k] = v] *)
Fixpoint dict_set {V} (k : string) (v : V) (d : pydict V) : pydict V :=
  match d with
  | [] => [(k, v)]
  | (k', v') :: d' =>
      if String.eqb k' k then (k', v) :: d' else (k', v') :: dict_set k v d'
  end.

(** [list(d.keys())] *)
Definition dict_keys {V} (d : pydict V) : list string := fst <$> d.

(** [d.update(other)] *)
Definition dict_update {V} (d other : pydict V) : pydict V :=
  fold_left (fun acc kv => dict_set (fst kv) (snd kv) acc) other d.

(** The representation invariant of a dictionary: keys are unique. *)
Definition dict_wf {V} (d : pydict V) : Prop := NoDup (dict_keys d).

(** ** Binary sample blocks *)

(** [FORMATTER_LOOKUP]: byte width, then number format, to the [struct]
    format character. *)
Definition FORMATTER_LOOKUP : pydict (pydict string) :=
  [ ("1", [("RI", "b"); ("RP", "B")]);
    ("2", [("RI", "h"); ("RP", "H")]);
    ("4", [("RI", "i"); ("RP", "I"); ("FP", "f")]);
    ("8", [("RI", "q"); ("RP", "Q"); ("FP", "d")]) ].

(** A value unpacked from a binary block: a Python [int] or [float]. *)
Inductive number : Type :=
| PyInt (z : Z)
| PyFloat (f : float).

(** The conversion Python applies to the left operand of [entry - y_offset]
    when [y_offset] is a float. *)
Definition to_float (x : number) : float :=
  match x with
  | PyInt z => float_of_int z
  | PyFloat f => f
  end.

Inductive elem_kind : Type := SignedInt | UnsignedInt | IeeeFloat.

(** The element size in bytes and kind of a [struct] format character, in
    the standard sizes that the byte-order prefixes [>] and [<] select. *)
Definition struct_format (datatype : string) : option (nat * elem_kind) :=
  if String.eqb datatype "b" then Some (1%nat, SignedInt)
  else if String.eqb datatype "B" then Some (1%nat, UnsignedInt)
  else if String.eqb datatype "h" then Some (2%nat, SignedInt)
  else if String.eqb datatype "H" then Some (2%nat, UnsignedInt)
  else if String.eqb datatype "i" then Some (4%nat, SignedInt)
  else if String.eqb datatype "I" then Some (4%nat, UnsignedInt)
  else if String.eqb datatype "q" then Some (8%nat, SignedInt)
  else if String.eqb datatype "Q" then Some (8%nat, UnsignedInt)
  else if String.eqb datatype "f" then Some (4%nat, IeeeFloat)
  else if String.eqb datatype "d" then Some (8%nat, IeeeFloat)
  else None.

(** The unsigned value of a byte sequence read most significant byte first. *)
Definition msb_first_value (bs : list byte) : Z :=
  fold_left (fun acc b => 256 * acc + Z.of_N (Byte.to_N b)) bs 0.

(** The unsigned value of a byte sequence read least significant byte
    first. *)
Definition lsb_first_value (bs : list byte) : Z :=
  fold_right (fun b acc => Z.of_N (Byte.to_N b) + 256 * acc) 0 bs.

Definition unsigned_value (is_big_endian : bool) (bs : list byte) : Z :=
  if is_big_endian then msb_first_value bs else lsb_first_value bs.

(** The float of an IEEE 754 bit pattern with [ew] exponent bits and [mw]
    fraction bits, as a binary64 value (exact for binary32 and binary64). *)
Definition float_of_bits (ew mw : Z) (u : Z) : float :=
  let sign := Z.testbit u (ew + mw) in
  let e := (u / 2 ^ mw) mod 2 ^ ew in
  let m := u mod 2 ^ mw in
  if e =? 0 then
    match m with
    | Zpos p => binary_round prec emax sign p (2 - 2 ^ (ew - 1) - mw)
    | _ => S754_zero sign
    end
  else if e =? 2 ^ ew - 1 then
    if m =? 0 then S754_infinity sign else S754_nan
  else binary_round prec emax sign (Z.to_pos (m + 2 ^ mw)) (e + 1 - 2 ^ (ew - 1) - mw).

(** The value of an element of [size] bytes whose bytes, read in the byte
    order of the block, make the unsigned number [u]. *)
Definition element_value (size : nat) (k : elem_kind) (u : Z) : number :=
  let bits := 8 * Z.of_nat size in
  match k with
  | UnsignedInt => PyInt u
  | SignedInt => PyInt (if u <? 2 ^ (bits - 1) then u else u - 2 ^ bits)
  | IeeeFloat =>
      PyFloat (if (size =? 4)%nat then float_of_bits 8 23 u else float_of_bits 11 52 u)
  end.

Definition decode_elem (size : nat) (k : elem_kind) (is_big_endian : bool)
    (bs : list byte) : number :=
  element_value size k (unsigned_value is_big_endian bs).

(** The complete elements of [size] bytes at the front of a block; [fuel]
    bounds the number of elements. *)
Fixpoint chunks (fuel size : nat) (bs : list byte) : list (list byte) :=
  match fuel with
  | O => []
  | S fuel' =>
      if (length bs <? size)%nat then []
      else take size bs :: chunks fuel' size (drop size bs)
  end.

(** The values the transport library unpacks from the payload of a binary
    block ([struct.unpack] in the given byte order over the complete
    elements of the payload); [ValueError] on an unknown format. *)
Definition unpack_values (datatype : string) (is_big_endian : bool)
    (payload : list byte) : result (list number) :=
  match struct_format datatype with
  | Some (size, k) =>
      Ok (map (decode_elem size k is_big_endian) (chunks (length payload) size payload))
  | None => Raise (ValueError datatype)
  end.

(** ** The object store *)

Definition loc : Type := nat.

(** The values this code stores in a collection: a list of samples, or a
    reference to a header dictionary. *)
Inductive pyval : Type :=
| PyList (samples : list float)
| PyDictRef (l : loc).

(** The values of a header dictionary: a string, or the list of column
    labels that [parse_response] stores under ["label"]. *)
Inductive hval : Type :=
| HStr (s : string)
| HList (labels : list string).

(** The attributes of a [WaveformCollection] instance. [_data] is created by
    the constructor and never handed out, so it is kept in the instance;
    [_header] is whatever [wf["header"] = value] last stored. *)
Record WaveformCollection : Type := mkWaveformCollection {
  idn : string;
  _data : pydict pyval;
  _header : pyval
}.

(** Every location denotes an object, as every Python reference does;
    [next_obj] and [next_dict] are the next locations to allocate. *)
Record heap : Type := mkHeap {
  objs : loc -> WaveformCollection;
  dicts : loc -> pydict hval;
  next_obj : loc;
  next_dict : loc
}.

Definition read_obj (l : loc) : M heap WaveformCollection :=
  fun h => Ok (objs h l, h).

Definition write_obj (l : loc) (w : WaveformCollection) : M heap unit :=
  fun h => Ok (tt, mkHeap (<[l := w]> (objs h)) (dicts h) (next_obj h) (next_dict h)).

Definition read_dict (l : loc) : M heap (pydict hval) :=
  fun h => Ok (dicts h l, h).

Definition write_dict (l : loc) (d : pydict hval) : M heap unit :=
  fun h => Ok (tt, mkHeap (objs h) (<[l := d]> (dicts h)) (next_obj h) (next_dict h)).

(** A new dictionary object holding [d]. *)
Definition new_dict (d : pydict hval) : M heap loc :=
  fun h => Ok (next_dict h,
               mkHeap (objs h) (<[next_dict h := d]> (dicts h)) (next_obj h) (S (next_dict h))).

(** A new instance with the attributes [w]. *)
Definition new_obj (w : WaveformCollection) : M heap loc :=
  fun h => Ok (next_obj h,
               mkHeap (<[next_obj h := w]> (objs h)) (dicts h) (S (next_obj h)) (next_dict h)).

(** ** class WaveformCollection *)

Module WaveformCollection.

(** [__init__]: [idn = ""], [_data = {}], [_header = {}]. *)
Definition __init__ : M heap loc :=
  hd ← new_dict []; new_obj (mkWaveformCollection "" [] (PyDictRef hd)).

(** [self.idn = value] *)
Definition set_idn (self : loc) (value : string) : M heap unit :=
  w ← read_obj self;
  write_obj self (mkWaveformCollection value (_data w) (_header w)).

(** The [sources] property. *)
Definition sources (self : loc) : M heap (list string) :=
  w ← read_obj self; mret (dict_keys (_data w)).

Definition header (self : loc) : M heap pyval :=
  w ← read_obj self; mret (_header w).

Definition __getitem__ (self : loc) (key : string) : M heap pyval :=
  w ← read_obj self; lift_result (getitem (_data w) key).

Definition __setitem__ (self : loc) (key : string) (value : pyval) : M heap unit :=
  w ← read_obj self;
  if String.eqb key "header"
  then write_obj self (mkWaveformCollection (idn w) (_data w) value)
  else write_obj self (mkWaveformCollection (idn w) (dict_set key value (_data w)) (_header w)).

Definition __len__ (self : loc) : M heap nat :=
  w ← read_obj self; mret (length (dict_keys (_data w))).

(** [target.update(arg)] on the values a header slot can hold: a list has no
    [update] method; a dictionary accepts a dictionary or an empty list and
    rejects a list of floats. *)
Definition update (target arg : pyval) : M heap unit :=
  match target with
  | PyList _ => raise (AttributeError "'list' object has no attribute 'update'")
  | PyDictRef lt =>
      match arg with
      | PyDictRef la =>
          dt ← read_dict lt; da ← read_dict la; write_dict lt (dict_update dt da)
      | PyList [] => mret tt
      | PyList (_ :: _) => raise TypeError
      end
  end.

Definition __add__ (self other : loc) : M heap loc :=
  ws ← read_obj self;
  wo ← read_obj other;
  if String.eqb (idn ws) (idn wo) then
    oh ← header other;
    update (_header ws) oh;;
    names ← sources other;
    for_each (fun name => v ← __getitem__ other name; __setitem__ self name v) names;;
    mret self
  else raise (AttributeError "Incompatible addition").

End WaveformCollection.

(** ** The instrument *)

(** The VISA session [self.scope], an external collaborator: writing a
    command, querying a text answer, and querying the payload of a binary
    block. Each may fail and each may change the state of the session. *)
Class Instrument (Sc : Type) : Type := {
  write : string -> M Sc unit;
  query : string -> M Sc string;
  query_block : string -> M Sc (list byte)
}.

(** [xs[i]] *)
Definition list_index {A} (xs : list A) (i : nat) : result A :=
  match xs !! i with
  | Some x => Ok x
  | None => Raise IndexError
  end.

Definition on_scope {Sc A} (m : M Sc A) : M (Sc * heap) A := fun '(s, h) =>
  match m s with
  | Ok (a, s') => Ok (a, (s', h))
  | Raise e => Raise e
  end.

Definition on_heap {Sc A} (m : M heap A) : M (Sc * heap) A := fun '(s, h) =>
  match m h with
  | Ok (a, h') => Ok (a, (s, h'))
  | Raise e => Raise e
  end.

(** [float(v)] on a header value. *)
Definition float_of_hval (v : hval) : result float :=
  match v with
  | HStr s => py_float s
  | HList _ => Raise TypeError
  end.

(** [v == s] for a header value and a string. *)
Definition hval_is (v : hval) (s : string) : bool :=
  match v with
  | HStr t => String.eqb t s
  | HList _ => false
  end.

(** [table[v]] for a header value used as a key: a list is not hashable. *)
Definition getitem_hval {V} (table : pydict V) (v : hval) : result V :=
  match v with
  | HStr k => getitem table k
  | HList _ => Raise TypeError
  end.

(** [((entry - y_offset) * y_mult) + y_zero] *)
Definition scale (y_mult y_offset y_zero : float) (entry : float) : float :=
  fadd (fmul (fsub entry y_offset) y_mult) y_zero.

(** What resuming the generator [_get_data_visa] produces for one source. *)
Inductive step : Type :=
| Yield (source : string) (ret_val : list float) (header : loc)
| Return.

Module Oscilloscope.

Section Visa.

Context {Sc : Type} `{Instrument Sc}.

(** [{x.split(" ")[0]: x.split(" ")[1] for x in segments}], added to [d]. *)
Fixpoint header_items (segments : list string) (d : pydict hval) : result (pydict hval) :=
  match segments with
  | [] => Ok d
  | x :: rest =>
      k ← list_index (split " " x) 0;
      v ← list_index (split " " x) 1;
      header_items rest (dict_set k (HStr v) d)
  end.

Definition _get_header (source : string) : M (Sc * heap) loc :=
  on_scope (write ("data:source " +:+ source));;
  on_scope (write "verbose ON;header ON");;
  result_string ← on_scope (query "wfmoutpre?");
  on_scope (write "verbose OFF;header OFF");;
  let result_string := replace_first ":WFMOUTPRE:" "" result_string in
  d ← lift_result (header_items (split ";" result_string) []);
  on_heap (new_dict d).

(** [self.scope.query_binary_values(message, datatype, is_big_endian)] *)
Definition query_binary_values (message datatype : string) (is_big_endian : bool)
  : M Sc (list number) :=
  payload ← query_block message;
  lift_result (unpack_values datatype is_big_endian payload).

(** The ASCII branch: the list comprehension over [read_string.split(",")]. *)
Definition ascii_samples (y_mult y_offset y_zero : float) (read_string : string)
  : result (list float) :=
  map_result (fun entry => raw ← py_float entry; mret (scale y_mult y_offset y_zero raw))
             (split "," read_string).

(** The BINARY branch, from the header dictionary [hd]. *)
Definition binary_samples (y_mult y_offset y_zero : float) (hd : pydict hval)
  : M (Sc * heap) (list float) :=
  format_string ← lift_result (
    width ← getitem hd "BYT_NR";
    row ← getitem_hval FORMATTER_LOOKUP width;
    fmt ← getitem hd "BN_FMT";
    getitem_hval row fmt);
  byt_or ← lift_result (getitem hd "BYT_OR");
  let is_big_endian := hval_is byt_or "MSB" in
  ret_val ← on_scope (query_binary_values "curv?" format_string is_big_endian);
  mret (map (fun entry => scale y_mult y_offset y_zero (to_float entry)) ret_val).

(** The first half of a turn of the loop of [_get_data_visa]: the source and
    the sample range are selected, the header is fetched and the channel
    selection is queried. Returns the header and the answer to that query. *)
Definition select_source (lower_bound upper_bound : option Z) (source : string)
  : M (Sc * heap) (loc * string) :=
  on_scope (write ("data:source " +:+ source));;
  on_scope (write ("data:start " +:+
                   match lower_bound with None => "1" | Some n => str_of_int n end));;
  length ← on_scope (query "horizontal:recordlength?");
  on_scope (write ("data:stop " +:+
                   match upper_bound with None => length | Some n => str_of_int n end));;
  header ← _get_header source;
  answer ← on_scope (query ("select:" +:+ source +:+ "?"));
  mret (header, answer).

(** [y_mult], [y_offset] and [y_zero] of a header dictionary. *)
Definition calibration (hd : pydict hval) : result (float * float * float) :=
  y_mult ← getitem hd "YMULT" ≫= float_of_hval;
  y_offset ← getitem hd "YOFF" ≫= float_of_hval;
  y_zero ← getitem hd "YZERO" ≫= float_of_hval;
  mret (y_mult, y_offset, y_zero).

(** The second half of the turn, for a channel that is on: the samples are
    read and scaled, and the triple is yielded. *)
Definition decode_source (source : string) (header : loc) : M (Sc * heap) step :=
  hd ← on_heap (read_dict header);
  '(y_mult, y_offset, y_zero) ← lift_result (calibration hd);
  encdg ← lift_result (getitem hd "ENCDG");
  ret_val ← (if hval_is encdg "ASCII" then
               read_string ← on_scope (query "curve?");
               lift_result (ascii_samples y_mult y_offset y_zero read_string)
             else if hval_is encdg "BINARY" then
               binary_samples y_mult y_offset y_zero hd
             else mret []);
  mret (Yield source ret_val header).

(** One turn of the loop of the generator [_get_data_visa], up to its
    [yield] or its [return]. *)
Definition _get_data_visa_body (lower_bound upper_bound : option Z) (source : string)
  : M (Sc * heap) step :=
  '(header, answer) ← select_source lower_bound upper_bound source;
  c ← lift_result (first_char answer);
  if Ascii.eqb c "0" then mret Return else decode_source source header.

(** The generator [_get_data_visa(sources, lower_bound, upper_bound)] run to
    its end: the triples it yields, in order. A [return] ends it. *)
Fixpoint _get_data_visa (sources : list string) (lower_bound upper_bound : option Z)
  : M (Sc * heap) (list (string * list float * loc)) :=
  match sources with
  | [] => mret []
  | source :: rest =>
      r ← _get_data_visa_body lower_bound upper_bound source;
      match r with
      | Return => mret []
      | Yield name ret_val header =>
          more ← _get_data_visa rest lower_bound upper_bound;
          mret ((name, ret_val, header) :: more)
      end
  end.

(** The [for] loop of [get_data_visa] over [self._get_data_visa(channels)],
    turn by turn: the body of the loop runs between two resumptions of the
    generator, whose bounds are left at their default [None]. *)
Fixpoint get_data_visa_loop (wf : loc) (channels : list string) : M (Sc * heap) unit :=
  match channels with
  | [] => mret tt
  | source :: rest =>
      r ← _get_data_visa_body None None source;
      match r with
      | Return => mret tt
      | Yield ch_name ch_data ch_header =>
          on_heap (WaveformCollection.__setitem__ wf ch_name (PyList ch_data));;
          on_heap (WaveformCollection.__setitem__ wf "header" (PyDictRef ch_header));;
          get_data_visa_loop wf rest
      end
  end.

Definition get_data_visa (channels : list string) : M (Sc * heap) loc :=
  wf ← on_heap WaveformCollection.__init__;
  answer ← on_scope (query "*IDN?");
  on_heap (WaveformCollection.set_idn wf answer);;
  match channels with
  | [] => mret tt
  | _ :: _ => get_data_visa_loop wf channels
  end;;
  mret wf.

End Visa.

(** *** The HTTP export *)

(** The loop [for _ in range(21)] of [parse_response], with [n] turns left:
    the header after the loop and the rest of the stream. *)
Fixpoint preamble (n : nat) (data_string : string) (header : pydict hval)
  : result (pydict hval * string) :=
  match n with
  | O => Ok (header, data_string)
  | S n' =>
      let '(line, rest) := readline data_string in
      let words := split "," (strip line) in
      w0 ← list_index words 0;
      if String.eqb w0 "Label" then Ok (header, rest)
      else if (length words =? 2)%nat && negb (String.eqb w0 "") then
        w1 ← list_index words 1;
        preamble n' rest (dict_set w0 (HStr w1) header)
      else preamble n' rest header
  end.

(** [parse_response] up to the label row: the header dictionary with its
    ["label"] entry, and the stream left for the table of values. *)
Definition parse_response_header (data_string : string) : result (pydict hval * string) :=
  '(header, rest) ← preamble 21 data_string [];
  let '(line, rest') := readline rest in
  mret (dict_set "label" (HList (split "," (strip line))) header, rest').

End Oscilloscope.

(** ** A simulated instrument

    A small oscilloscope for running the code on concrete inputs: it
    remembers the selected source and answers the queries of the reader from
    a table of channels. *)

Module Bench.

Record channel : Type := mkChannel {
  enabled : bool;
  wfmoutpre : string;
  curve : string;
  block : list byte
}.

Record bench : Type := mkBench {
  identity : string;
  selected : string;
  channels : pydict channel
}.

Definition timeout {A} : M bench A := raise (VisaIOError "timeout").

Definition bench_write (msg : string) : M bench unit := fun b =>
  if String.prefix "data:source " msg
  then Ok (tt, mkBench (identity b)
                       (String.substring 12 (String.length msg - 12) msg) (channels b))
  else Ok (tt, b).

Definition current : M bench channel := fun b =>
  match dict_get (selected b) (channels b) with
  | Some c => Ok (c, b)
  | None => Raise (VisaIOError "timeout")
  end.

Definition bench_query (msg : string) : M bench string :=
  if String.eqb msg "*IDN?" then fun b => Ok (identity b, b)
  else if String.eqb msg "horizontal:recordlength?" then mret "10000"
  else if String.eqb msg "wfmoutpre?" then c ← current; mret (wfmoutpre c)
  else if String.eqb msg "curve?" then c ← current; mret (curve c)
  else if String.prefix "select:" msg then
    fun b =>
      match dict_get (String.substring 7 (String.length msg - 8) msg) (channels b) with
      | Some c => Ok (if enabled c then "1" else "0", b)
      | None => Raise (VisaIOError "timeout")
      end
  else timeout.

Definition bench_query_block (msg : string) : M bench (list byte) :=
  if String.eqb msg "curv?" then c ← current; mret (block c) else timeout.

#[global] Instance bench_instrument : Instrument bench :=
  {| write := bench_write; query := bench_query; query_block := bench_query_block |}.

(** A store in which nothing has been allocated yet. *)
Definition empty_heap : heap :=
  mkHeap (fun _ => mkWaveformCollection "" [] (PyList [])) (fun _ => []) 0%nat 0%nat.

Definition ascii_channel : channel :=
  mkChannel true ":WFMOUTPRE:YMULT 2.0;YOFF 10;YZERO 1.0;ENCDG ASCII" "10,20,30" [].

Definition binary_channel : channel :=
  mkChannel true ":WFMOUTPRE:BYT_NR 2;BN_FMT RI;BYT_OR MSB;YMULT 1;YOFF 0;YZERO 0;ENCDG BINARY"
            "" [x00; x01; x00; x02].

Definition off_channel : channel :=
  mkChannel false ":WFMOUTPRE:YMULT 2.0;YOFF 10;YZERO 1.0;ENCDG ASCII" "" [].

(** An instrument with an ASCII channel, a binary channel, a channel that is
    off, a binary channel with a width and format that are not in the table,
    and a channel named like the header slot. *)
Definition scope0 : bench :=
  mkBench "TEKTRONIX,MDO3024" ""
          [ ("CH1", ascii_channel); ("CH2", binary_channel); ("CH3", off_channel);
            ("CH4", mkChannel true
                      ":WFMOUTPRE:BYT_NR 1;BN_FMT FP;BYT_OR MSB;YMULT 1;YOFF 0;YZERO 0;ENCDG BINARY"
                      "" [x00; x01]);
            ("header", ascii_channel) ].

(** [scope0] after the source [name] has been selected, and the empty store
    after one header dictionary has been created in it. *)
Definition selected_scope (name : string) : bench :=
  mkBench (identity scope0) name (channels scope0).

Definition heap_with_header (d : pydict hval) : heap :=
  mkHeap (objs empty_heap) (<[0%nat := d]> (dicts empty_heap)) 0%nat 1%nat.

Definition ascii_header : pydict hval :=
  [("YMULT", HStr "2.0"); ("YOFF", HStr "10"); ("YZERO", HStr "1.0"); ("ENCDG", HStr "ASCII")].

Definition binary_header : pydict hval :=
  [("BYT_NR", HStr "2"); ("BN_FMT", HStr "RI"); ("BYT_OR", HStr "MSB");
   ("YMULT", HStr "1"); ("YOFF", HStr "0"); ("YZERO", HStr "0"); ("ENCDG", HStr "BINARY")].

Definition unsupported_header : pydict hval :=
  [("BYT_NR", HStr "1"); ("BN_FMT", HStr "FP"); ("BYT_OR", HStr "MSB");
   ("YMULT", HStr "1"); ("YOFF", HStr "0"); ("YZERO", HStr "0"); ("ENCDG", HStr "BINARY")].

(** The text whose lines are [ls], each ended by a line feed. *)
Fixpoint unlines (ls : list string) : string :=
  match ls with
  | [] => ""
  | l :: ls' => l +:+ String LF (unlines ls')
  end.

(** The body of an HTTP export: four header lines, one of them blank, a line
    of three fields and a line with an empty first field, then the sentinel,
    the label row and the table. *)
Definition export_body : string :=
  unlines [ "Model,MDO3024"; "Firmware Version,1.26"; ""; "Waveform Type,ANALOG";
            "a,b,c"; ",x"; "Label,"; "TIME,CH1"; "-1.0e-3,0.02" ].

(** A collection as [parse_response] builds it: a new instance, a new header
    dictionary stored into it, then the samples of one channel. *)
Definition collection_of (name : string) (samples : list float) (fields : pydict hval)
  : M heap loc :=
  wf ← WaveformCollection.__init__;
  hd ← new_dict (dict_set "label" (HList [name]) fields);
  WaveformCollection.__setitem__ wf "header" (PyDictRef hd);;
  WaveformCollection.__setitem__ wf name (PyList samples);;
  mret wf.

(** The store a computation leaves when run from the empty store. *)
Definition heap_after {A} (m : M heap A) : heap :=
  match m empty_heap with
  | Ok (_, h) => h
  | Raise _ => empty_heap
  end.

(** Two collections with an empty [idn]: "CH1" at location 0 with its header
    at 1, and "CH2" at location 1 with its header at 3. *)
Definition two_channels : heap :=
  heap_after (collection_of "CH1" [float_of_int 1; float_of_int 2] [("Model", HStr "MDO3024")];;
              collection_of "CH2" [float_of_int 3] [("Model", HStr "MDO3024")]).

(** Two collections that both hold "CH1", with different samples and a
    different value under the header key "Vertical Scale". *)
Definition same_channel : heap :=
  heap_after (collection_of "CH1" [float_of_int 1] [("Vertical Scale", HStr "1.0")];;
              collection_of "CH1" [float_of_int 2] [("Vertical Scale", HStr "2.0")]).

(** Three collections, "CH1", "CH2" and again "CH1", at locations 0, 1 and 2
    with their headers at 1, 3 and 5. *)
Definition three_collections : heap :=
  heap_after (collection_of "CH1" [float_of_int 1] [("Vertical Scale", HStr "1.0")];;
              collection_of "CH2" [float_of_int 2] [("Vertical Scale", HStr "2.0")];;
              collection_of "CH1" [float_of_int 3] [("Vertical Scale", HStr "3.0")]).

(** The same two collections as [two_channels], the second with another
    [idn]. *)
Definition two_instruments : heap :=
  heap_after (collection_of "CH1" [float_of_int 1] [];;
              b ← collection_of "CH2" [float_of_int 3] [];
              WaveformCollection.set_idn b "TEKTRONIX,MDO3024").

End Bench.

(** ** Instruments with one channel

    For running one turn of the reader on a given header and a given
    curve. *)

Module Cases.

(** The instrument whose only channel, CH1, is on and answers [wfmoutpre?]
    with [wfmoutpre], [curve?] with [curve] and [curv?] with the block
    [payload]. *)
Definition scope (wfmoutpre curve : string) (payload : list byte) : Bench.bench :=
  Bench.mkBench "TEKTRONIX,MDO3024" ""
                [("CH1", Bench.mkChannel true wfmoutpre curve payload)].

Definition ascii (y_mult y_offset y_zero curve : string) : Bench.bench :=
  scope (":WFMOUTPRE:YMULT " +:+ y_mult +:+ ";YOFF " +:+ y_offset +:+ ";YZERO " +:+ y_zero
         +:+ ";ENCDG ASCII")
        curve [].

Definition binary (width fmt order : string) (payload : list byte) : Bench.bench :=
  scope (":WFMOUTPRE:BYT_NR " +:+ width +:+ ";BN_FMT " +:+ fmt +:+ ";BYT_OR " +:+ order
         +:+ ";YMULT 1;YOFF 0;YZERO 0;ENCDG BINARY")
        "" payload.

(** The samples that the generator yields for CH1 of [b], or the exception
    it raises. *)
Definition read (b : Bench.bench) : result (list float) :=
  match Oscilloscope._get_data_visa_body None None "CH1" (b, Bench.empty_heap) with
  | Ok (Yield _ ret_val _, _) => Ok ret_val
  | Ok (Return, _) => Ok []
  | Raise e => Raise e
  end.

(** The same with the exact value of each sample, [None] for an infinity or
    a NaN. *)
Definition read_values (b : Bench.bench) : result (list (option Q)) :=
  match read b with
  | Ok ret_val => Ok (map float_value ret_val)
  | Raise e => Raise e
  end.


End Cases.

(** ** Byte sequences, as the specification speaks of them *)

(** The byte with the value [z mod 256]. *)
Definition byte_of (z : Z) : byte :=
  default x00 (Byte.of_N (Z.to_N (z mod 256))).

(** The [size] bytes that hold the integer [v], in two's complement when [v]
    is negative, most significant byte first and least significant byte
    first. *)
Fixpoint msb_first_bytes (size : nat) (v : Z) : list byte :=
  match size with
  | O => []
  | S n => msb_first_bytes n (v / 256) ++ [byte_of v]
  end.

Definition lsb_first_bytes (size : nat) (v : Z) : list byte :=
  rev (msb_first_bytes size v).

(** The integers that an element of [size] bytes of kind [k] can hold. *)
Definition fits (size : nat) (k : elem_kind) (v : Z) : Prop :=
  match k with
  | SignedInt => - 2 ^ (8 * Z.of_nat size - 1) <= v < 2 ^ (8 * Z.of_nat size - 1)
  | UnsignedInt => 0 <= v < 2 ^ (8 * Z.of_nat size)
  | IeeeFloat => False
  end.

(** The block that holds the integers [vs], each in [size] bytes, in the
    byte order that the header names under BYT_OR. *)
Definition block_of (size : nat) (order : string) (vs : list Z) : list byte :=
  concat (map (if String.eqb order "MSB" then msb_first_bytes size else lsb_first_bytes size)
              vs).

(** ** Vocabulary of the statements *)

(** The attributes of the left operand after a successful merge with the
    attributes [wo] of the right operand. *)
Definition merged (ws wo : WaveformCollection) : WaveformCollection :=
  mkWaveformCollection (idn ws) (dict_update (_data ws) (_data wo)) (_header ws).

(** A collection as the class builds it: unique channel names, none of them
    ["header"] (which [__setitem__] routes to the header slot), and a header
    slot that holds a dictionary. *)
Definition collection_wf (h : heap) (l hd : loc) : Prop :=
  dict_wf (_data (objs h l)) /\
  ("header" ∉ dict_keys (_data (objs h l))) /\
  _header (objs h l) = PyDictRef hd /\
  dict_wf (dicts h hd).






(** *** The HTTP export, line by line

    The statement about [parse_response] reads the response body as the
    sequence of lines that [readline] returns from it. *)

(** The first [n] lines of a stream, and the stream after them. *)
Fixpoint first_lines (n : nat) (s : string) : list string :=
  match n with
  | O => []
  | S n' => fst (readline s) :: first_lines n' (snd (readline s))
  end.

Fixpoint skip_lines (n : nat) (s : string) : string :=
  match n with
  | O => s
  | S n' => skip_lines n' (snd (readline s))
  end.

(** Line number [n], counting from 0. *)
Definition nth_line (n : nat) (s : string) : string := fst (readline (skip_lines n s)).

(** The comma-separated fields of a line, white space around the line
    removed. *)
Definition fields (line : string) : list string := split "," (strip line).

(** A line whose first field is "Label". *)
Definition is_sentinel (line : string) : bool :=
  match fields line with
  | w0 :: _ => String.eqb w0 "Label"
  | [] => false
  end.

(** The header entry that a preamble line stands for: a line of two fields
    with a non-empty first field. *)
Definition entry_of (line : string) : option (string * string) :=
  match fields line with
  | [k; v] => if String.eqb k "" then None else Some (k, v)
  | _ => None
  end.

Definition add_entry (header : pydict hval) (line : string) : pydict hval :=
  match entry_of line with
  | Some (k, v) => dict_set k (HStr v) header
  | None => header
  end.

(** *** The instrument-control path *)

(** The format character that [FORMATTER_LOOKUP] gives to a byte width and a
    number format, if the pair is in the table. *)
Definition format_of (width fmt : string) : option string :=
  row ← dict_get width FORMATTER_LOOKUP; dict_get fmt row.

(** The triples a run of the generator yielded, each header read from the
    store the run left. *)
Definition yielded {Sc} (r : result (list (string * list float * loc) * (Sc * heap)))
  : option (list (string * list float * pydict hval)) :=
  match r with
  | Ok (triples, (_, h)) =>
      Some (map (fun '(name, samples, header) => (name, samples, dicts h header)) triples)
  | Raise _ => None
  end.

(** The collection that [get_data_visa] returned: its [idn], its channel
    map, and the header dictionary its header slot refers to. *)
Definition returned {Sc} (r : result (loc * (Sc * heap)))
  : option (string * pydict pyval * option (pydict hval)) :=
  match r with
  | Ok (wf, (_, h)) =>
      Some (idn (objs h wf), _data (objs h wf),
            match _header (objs h wf) with
            | PyDictRef hd => Some (dicts h hd)
            | PyList _ => None
            end)
  | Raise _ => None
  end.

(** What the two assignments of the loop of [get_data_visa] do to the
    attributes of the collection, for one yielded triple. *)
Definition store_triple (w : WaveformCollection) (t : string * list float * loc)
  : WaveformCollection :=
  let '(ch_name, ch_data, ch_header) := t in
  let w1 :=
    if String.eqb ch_name "header"
    then mkWaveformCollection (idn w) (_data w) (PyList ch_data)
    else mkWaveformCollection (idn w) (dict_set ch_name (PyList ch_data) (_data w)) (_header w) in
  mkWaveformCollection (idn w1) (_data w1) (PyDictRef ch_header).

(** The samples of the last triple that carries the channel name [name]. *)
Fixpoint last_samples (name : string) (triples : list (string * list float * loc))
  : option (list float) :=
  match triples with
  | [] => None
  | (n, samples, _) :: rest =>
      match last_samples name rest with
      | Some later => Some later
      | None => if String.eqb n name then Some samples else None
      end
  end.

(** The store in which the loop of [get_data_visa] starts: the collection
    has been created and its [idn] set to the answer of the instrument. *)
Definition started (answer : string) (h : heap) : heap :=
  match (wf ← WaveformCollection.__init__; WaveformCollection.set_idn wf answer) h with
  | Ok (_, h1) => h1
  | Raise _ => h
  end.

(** The store a run on the instrument left. *)
Definition final_heap {Sc A} (r : result (A * (Sc * heap))) (default : heap) : heap :=
  match r with
  | Ok (_, (_, h)) => h
  | Raise _ => default
  end.

(** Two stores with the same dictionaries. *)
Definition same_dicts (h1 h2 : heap) : Prop :=
  dicts h1 = dicts h2 /\ next_dict h1 = next_dict h2.

(** A store with the instances of another. *)
Definition keeps_objs (h h' : heap) : Prop :=
  objs h' = objs h /\ next_obj h' = next_obj h.

(** Two runs that raise the same exception, or return the same value and
    leave the same session and dictionaries, and the instances they found. *)
Definition agree {Sc A} (h1 h2 : heap) (r1 r2 : result (A * (Sc * heap))) : Prop :=
  match r1, r2 with
  | Ok (a1, (s1, k1)), Ok (a2, (s2, k2)) =>
      a1 = a2 /\ s1 = s2 /\ same_dicts k1 k2 /\ keeps_objs h1 k1 /\ keeps_objs h2 k2
  | Raise e1, Raise e2 => e1 = e2
  | _, _ => False
  end.

(** A computation that neither reads nor writes the instances of the
    store. *)
Definition oblivious {Sc A} (m : M (Sc * heap) A) : Prop :=
  forall sc h1 h2, same_dicts h1 h2 -> agree h1 h2 (m (sc, h1)) (m (sc, h2)).

(** ** Vocabulary of the further statements *)

(** [for key, value in items: self[key] = value] *)
Definition assign_all (self : loc) (items : list (string * pyval)) : M heap unit :=
  for_each (fun kv => WaveformCollection.__setitem__ self (fst kv) (snd kv)) items.

(** The value last assigned under [key] in a sequence of assignments. *)
Fixpoint last_assigned (key : string) (items : list (string * pyval)) : option pyval :=
  match items with
  | [] => None
  | (k, v) :: rest =>
      match last_assigned key rest with
      | Some later => Some later
      | None => if String.eqb k key then Some v else None
      end
  end.

(** What [self[key] = value] does to the attributes of the instance. *)
Definition assign (w : WaveformCollection) (kv : string * pyval) : WaveformCollection :=
  if String.eqb (fst kv) "header"
  then mkWaveformCollection (idn w) (_data w) (snd kv)
  else mkWaveformCollection (idn w) (dict_set (fst kv) (snd kv) (_data w)) (_header w).

(** The number of occurrences of a character in a string. *)
Fixpoint count_char (c : ascii) (s : string) : nat :=
  match s with
  | EmptyString => O
  | String c' s' => if Ascii.eqb c' c then S (count_char c s') else count_char c s'
  end.

Definition has_char (c : ascii) (s : string) : bool := negb (count_char c s =? 0)%nat.

(** What [_get_header] says to the instrument, and the answer to its
    query. *)
Definition ask_header {Sc} `{Instrument Sc} (source : string) : M Sc string :=
  write ("data:source " +:+ source);;
  write "verbose ON;header ON";;
  answer ← query "wfmoutpre?";
  write "verbose OFF;header OFF";;
  mret answer.

(** The second space-separated field of the last segment whose first field
    is [key]. *)
Fixpoint header_value (key : string) (segments : list string) : option string :=
  match segments with
  | [] => None
  | x :: rest =>
      match header_value key rest with
      | Some later => Some later
      | None =>
          match split " " x with
          | k :: v :: _ => if String.eqb k key then Some v else None
          | _ => None
          end
      end
  end.

(** The store after one header dictionary [d] has been created in [h]. *)
Definition with_new_dict (h : heap) (d : pydict hval) : heap :=
  mkHeap (objs h) (<[next_dict h := d]> (dicts h)) (next_obj h) (S (next_dict h)).

(** The names and the headers of yielded triples. *)
Definition triple_name (t : string * list float * loc) : string := fst (fst t).
Definition triple_header (t : string * list float * loc) : loc := snd t.

(** An entry that a preamble line of the export can have put into the
    header: a key that is neither empty nor "Label", a string value, and no
    comma in either. *)
Definition preamble_entry (kv : string * hval) : Prop :=
  fst kv <> "" /\ fst kv <> "Label" /\ has_char "," (fst kv) = false /\
  exists w, snd kv = HStr w /\ has_char "," w = false.

(** ** More concrete inputs *)

Module Lab.


(** An instrument that answers the header query in its short form, with a
    trailing semicolon, with a field missing, with a value of several words,
    and with a curve that is not a list of numbers. *)
Definition scope1 : Bench.bench :=
  Bench.mkBench "TEKTRONIX,MDO3024" ""
    [ ("CH1", Bench.mkChannel true ":WFMOUTPRE:YMULT 2.0;YOFF 10;YZERO 1.0;ENCDG ASC" "10,20,30" []);
      ("CH2", Bench.mkChannel true ":WFMOUTPRE:YMULT 2.0;YOFF 10;YZERO 1.0;ENCDG ASCII;" "10,20,30" []);
      ("CH3", Bench.mkChannel true ":WFMOUTPRE:YMULT 2.0;YZERO 1.0;ENCDG ASCII" "10,20,30" []);
      ("CH4", Bench.mkChannel true
                ":WFMOUTPRE:WFID Ch1, DC coupling;YMULT 2.0;YOFF 10;YZERO 1.0;ENCDG ASCII"
                "10,20,30" []);
      ("CH5", Bench.mkChannel true ":WFMOUTPRE:YMULT 2.0;YOFF 10;YZERO 1.0;ENCDG ASCII" "10,,30" []);
      ("CH6", Bench.ascii_channel) ].

Definition selected (name : string) : Bench.bench :=
  Bench.mkBench (Bench.identity scope1) name (Bench.channels scope1).

(** The store after [get_data_visa] has read CH1 and CH2 of [scope0]. *)
Definition two_channels_read : heap :=
  final_heap (Oscilloscope.get_data_visa ["CH1"; "CH2"] (Bench.scope0, Bench.empty_heap))
             Bench.empty_heap.

End Lab.

(** * Properties *)

(** ** Dictionaries *)

Section DictFacts.

Context {V : Type}.
Implicit Types (d o : pydict V) (k : string) (v : V).

Lemma dict_get_None k d : dict_get k d = None <-> k ∉ dict_keys d.
Proof.
  induction d as [|[k' v'] d IH]; simpl.
  - split; [intros _; apply not_elem_of_nil | done].
  - rewrite not_elem_of_cons. destruct (String.eqb_spec k' k) as [->|Hne].
    + split; [done | intros [? _]; done].
    + rewrite IH. split; [intros ?; split; [congruence | done] | intros [_ ?]; done].
Qed.

Lemma dict_get_Some_key k v d : dict_get k d = Some v -> k ∈ dict_keys d.
Proof.
  intros Hget. destruct (decide (k ∈ dict_keys d)) as [|Hn]; [done|].
  apply dict_get_None in Hn. congruence.
Qed.

Lemma dict_get_is_Some k d : k ∈ dict_keys d -> is_Some (dict_get k d).
Proof.
  intros Hin. destruct (dict_get k d) eqn:E; [eauto|].
  apply dict_get_None in E. done.
Qed.

Lemma dict_get_set k k' v d :
  dict_get k (dict_set k' v d) = if String.eqb k' k then Some v else dict_get k d.
Proof.
  induction d as [|[k1 v1] d IH]; simpl.
  - done.
  - destruct (String.eqb_spec k1 k') as [->|Hne]; simpl.
    + destruct (String.eqb_spec k' k); done.
    + rewrite IH. destruct (String.eqb_spec k1 k) as [->|]; [|done].
      destruct (String.eqb_spec k' k); [congruence | done].
Qed.

Lemma dict_set_same k v d : dict_get k d = Some v -> dict_set k v d = d.
Proof.
  induction d as [|[k1 v1] d IH]; simpl; [done|].
  destruct (String.eqb_spec k1 k) as [->|]; [congruence|].
  intros Hget. by rewrite IH.
Qed.

Lemma dict_keys_set k v d :
  dict_keys (dict_set k v d) =
  if decide (k ∈ dict_keys d) then dict_keys d else dict_keys d ++ [k].
Proof.
  induction d as [|[k1 v1] d IH].
  - case_decide as Hin; [by apply elem_of_nil in Hin | done].
  - cbn [dict_set]. destruct (String.eqb_spec k1 k) as [->|Hne].
    + rewrite decide_True; [done | apply list_elem_of_here].
    + change (dict_keys ((k1, v1) :: dict_set k v d)) with (k1 :: dict_keys (dict_set k v d)).
      change (dict_keys ((k1, v1) :: d)) with (k1 :: dict_keys d). rewrite IH.
      destruct (decide (k ∈ dict_keys d)) as [Hin|Hin].
      * rewrite decide_True; [done | by apply list_elem_of_further].
      * rewrite decide_False; [done|]. rewrite not_elem_of_cons. split; [congruence | done].
Qed.

Lemma dict_wf_set k v d : dict_wf d -> dict_wf (dict_set k v d).
Proof.
  unfold dict_wf. intros Hwf. rewrite dict_keys_set.
  destruct (decide (k ∈ dict_keys d)); [done|].
  apply NoDup_app. split_and!; [done | | apply NoDup_singleton].
  intros x Hx Hx'. apply list_elem_of_singleton in Hx'. by subst.
Qed.

Lemma dict_wf_update d o : dict_wf d -> dict_wf (dict_update d o).
Proof.
  unfold dict_update. revert d. induction o as [|[k v] o IH]; simpl; [done|].
  intros d Hwf. apply IH. by apply dict_wf_set.
Qed.

(** The entries of [d.update(o)]: those of [o], and those of [d] under the
    keys that [o] lacks. *)
Lemma dict_get_update k d o :
  dict_wf o ->
  dict_get k (dict_update d o) =
  match dict_get k o with Some v => Some v | None => dict_get k d end.
Proof.
  unfold dict_update, dict_wf. revert d.
  induction o as [|[k1 v1] o IH]; simpl; [done|].
  intros d Hwf. apply NoDup_cons in Hwf as [Hk1 Hwf].
  rewrite IH by done. rewrite dict_get_set.
  destruct (String.eqb_spec k1 k) as [->|]; [|done].
  apply dict_get_None in Hk1. by rewrite Hk1.
Qed.

(** The keys of [d.update(o)], in order: those of [d], then the new keys of
    [o]. *)
Lemma dict_keys_update d o :
  dict_wf o ->
  dict_keys (dict_update d o) =
  dict_keys d ++ filter (fun k => k ∉ dict_keys d) (dict_keys o).
Proof.
  unfold dict_update, dict_wf. revert d.
  induction o as [|[k1 v1] o IH]; simpl; intros d Hwf.
  - by rewrite app_nil_r.
  - apply NoDup_cons in Hwf as [Hk1 Hwf]. rewrite IH by done.
    rewrite dict_keys_set. rewrite filter_cons.
    destruct (decide (k1 ∈ dict_keys d)) as [Hin|Hin].
    + rewrite decide_False by (intros Hn; done). done.
    + rewrite decide_True by done. rewrite <- app_assoc. simpl. f_equal. f_equal.
      clear IH Hwf. induction (dict_keys o) as [|x xs IHxs]; [done|].
      apply not_elem_of_cons in Hk1 as [Hx Hxs]. rewrite !filter_cons.
      rewrite IHxs by done.
      destruct (decide (x ∉ dict_keys d ++ [k1])) as [Hy|Hy];
        destruct (decide (x ∉ dict_keys d)) as [Hz|Hz]; try done.
      * exfalso. apply Hz. intros Hxd. apply Hy, elem_of_app. by left.
      * exfalso. apply Hy. rewrite elem_of_app, list_elem_of_singleton.
        intros [?|?]; [done | congruence].
Qed.

(** Updating with entries the dictionary already has changes nothing. *)
Lemma dict_update_same d o :
  (forall k v, (k, v) ∈ o -> dict_get k d = Some v) -> dict_update d o = d.
Proof.
  unfold dict_update. induction o as [|[k v] o IH]; simpl; [done|].
  intros Hall. rewrite dict_set_same.
  - apply IH. intros k' v' Hin. apply Hall. by apply list_elem_of_further.
  - apply Hall. apply list_elem_of_here.
Qed.

Lemma dict_get_elem_of k v d : dict_wf d -> (k, v) ∈ d -> dict_get k d = Some v.
Proof.
  unfold dict_wf. induction d as [|[k1 v1] d IH]; simpl.
  - intros _ Hin. by apply elem_of_nil in Hin.
  - intros Hwf Hin. apply NoDup_cons in Hwf as [Hk1 Hwf].
    apply elem_of_cons in Hin as [Heq|Hin'].
    + injection Heq as -> ->. by rewrite String.eqb_refl.
    + destruct (String.eqb_spec k1 k) as [->|]; [|by apply IH].
      exfalso. apply Hk1. apply list_elem_of_fmap. by exists (k, v).
Qed.

Lemma dict_update_self d : dict_wf d -> dict_update d d = d.
Proof. intros Hwf. apply dict_update_same. intros k v. by apply dict_get_elem_of. Qed.

End DictFacts.

(** ** Running computations *)

Lemma bind_ok {St A B} (m : M St A) (f : A -> M St B) s a s' :
  m s = Ok (a, s') -> (m ≫= f) s = f a s'.
Proof. intros Hm. unfold mbind, M_bind. by rewrite Hm. Qed.

Lemma bind_raise {St A B} (m : M St A) (f : A -> M St B) s e :
  m s = Raise e -> (m ≫= f) s = Raise e.
Proof. intros Hm. unfold mbind, M_bind. by rewrite Hm. Qed.

Lemma bind_inv {St A B} (m : M St A) (f : A -> M St B) s b s2 :
  (m ≫= f) s = Ok (b, s2) -> exists a s1, m s = Ok (a, s1) /\ f a s1 = Ok (b, s2).
Proof.
  unfold mbind, M_bind. destruct (m s) as [[a s1]|e]; [|done]. intros Hf. by exists a, s1.
Qed.

(** ** Merging collections *)

Section MergeFacts.

Import WaveformCollection.

Lemma fold_keys_entries {V} (o l : pydict V) : forall d,
  (forall k v, (k, v) ∈ l -> dict_get k o = Some v) ->
  fold_left (fun acc n => match dict_get n o with Some v => dict_set n v acc | None => acc end)
            (dict_keys l) d
  = dict_update d l.
Proof.
  unfold dict_update. induction l as [|[k v] l IH]; intros d Hall; [reflexivity|].
  cbn. rewrite (Hall k v) by apply list_elem_of_here.
  apply IH. intros k' v' Hin. apply Hall. by apply list_elem_of_further.
Qed.

Lemma fold_keys_update {V} (o d : pydict V) :
  dict_wf o ->
  fold_left (fun acc n => match dict_get n o with Some v => dict_set n v acc | None => acc end)
            (dict_keys o) d
  = dict_update d o.
Proof.
  intros Hwf. apply fold_keys_entries. intros k v. by apply dict_get_elem_of.
Qed.

Lemma getitem_run (self : loc) (key : string) (h : heap) :
  __getitem__ self key h =
  match dict_get key (_data (objs h self)) with
  | Some v => Ok (v, h)
  | None => Raise (KeyError key)
  end.
Proof.
  unfold __getitem__, getitem, read_obj, lift_result, mbind, M_bind.
  by destruct (dict_get key (_data (objs h self))).
Qed.

Lemma setitem_channel_run (self : loc) (key : string) (v : pyval) (h : heap) :
  key <> "header" ->
  __setitem__ self key v h =
  Ok (tt, mkHeap (<[self := mkWaveformCollection (idn (objs h self))
                              (dict_set key v (_data (objs h self)))
                              (_header (objs h self))]> (objs h))
                 (dicts h) (next_obj h) (next_dict h)).
Proof.
  intros Hkey. unfold __setitem__, read_obj, mbind, M_bind.
  destruct (String.eqb_spec key "header"); [done | reflexivity].
Qed.

Lemma setitem_header_run (self : loc) (v : pyval) (h : heap) :
  __setitem__ self "header" v h =
  Ok (tt, mkHeap (<[self := mkWaveformCollection (idn (objs h self))
                              (_data (objs h self)) v]> (objs h))
                 (dicts h) (next_obj h) (next_dict h)).
Proof. reflexivity. Qed.

Lemma merge_loop (self other : loc) (names : list string) : forall h,
  "header" ∉ names ->
  (forall n, n ∈ names -> is_Some (dict_get n (_data (objs h other)))) ->
  exists h',
    for_each (fun name => v ← __getitem__ other name; __setitem__ self name v) names h
      = Ok (tt, h') /\
    objs h' self =
      mkWaveformCollection (idn (objs h self))
        (fold_left (fun acc n => match dict_get n (_data (objs h other)) with
                                 | Some v => dict_set n v acc
                                 | None => acc
                                 end) names (_data (objs h self)))
        (_header (objs h self)) /\
    (forall l, l <> self -> objs h' l = objs h l) /\
    dicts h' = dicts h /\ next_obj h' = next_obj h /\ next_dict h' = next_dict h.
Proof.
  induction names as [|n ns IH]; intros h Hhd Hsome.
  - exists h. cbn. split_and!; try done. by destruct (objs h self).
  - apply not_elem_of_cons in Hhd as [Hn Hns].
    destruct (Hsome n) as [v Hv]; [apply list_elem_of_here|].
    set (h1 := mkHeap (<[self := mkWaveformCollection (idn (objs h self))
                                 (dict_set n v (_data (objs h self)))
                                 (_header (objs h self))]> (objs h))
                      (dicts h) (next_obj h) (next_dict h)).
    assert (Hother : objs h1 other = objs h other).
    { unfold h1. cbn. destruct (decide (self = other)) as [->|Hne].
      - rewrite fn_lookup_insert. rewrite dict_set_same by done. by destruct (objs h other).
      - by rewrite fn_lookup_insert_ne. }
    destruct (IH h1) as (h' & Hrun & Hself & Hframe & Hd & Ho & Hdn); [done | |].
    { intros n' Hn'. rewrite Hother. apply Hsome. by apply list_elem_of_further. }
    exists h'. split_and!.
    + cbn [for_each]. erewrite bind_ok; [exact Hrun|].
      erewrite bind_ok; [|rewrite getitem_run, Hv; reflexivity].
      apply setitem_channel_run. congruence.
    + rewrite Hself, Hother. unfold h1. cbn. rewrite fn_lookup_insert. cbn. by rewrite Hv.
    + intros l Hl. rewrite Hframe by done. unfold h1. cbn. by rewrite fn_lookup_insert_ne.
    + by rewrite Hd.
    + by rewrite Ho.
    + by rewrite Hdn.
Qed.



Lemma add_run (self other ls lo : loc) (h : heap) :
  idn (objs h self) = idn (objs h other) ->
  _header (objs h self) = PyDictRef ls ->
  _header (objs h other) = PyDictRef lo ->
  dict_wf (_data (objs h other)) ->
  "header" ∉ dict_keys (_data (objs h other)) ->
  exists h',
    __add__ self other h = Ok (self, h') /\
    objs h' self = merged (objs h self) (objs h other) /\
    (forall l, l <> self -> objs h' l = objs h l) /\
    dicts h' ls = dict_update (dicts h ls) (dicts h lo) /\
    (forall l, l <> ls -> dicts h' l = dicts h l) /\
    next_obj h' = next_obj h /\ next_dict h' = next_dict h.
Proof.
  intros Hidn Hls Hlo Hwf Hhd.
  set (h1 := mkHeap (objs h) (<[ls := dict_update (dicts h ls) (dicts h lo)]> (dicts h))
                    (next_obj h) (next_dict h)).
  destruct (merge_loop self other (dict_keys (_data (objs h other))) h1)
    as (h' & Hrun & Hself & Hframe & Hd & Ho & Hdn); [done | |].
  { intros n Hn. by apply dict_get_is_Some. }
  exists h'. split_and!.
  - unfold __add__. erewrite bind_ok by reflexivity. erewrite bind_ok by reflexivity.
    rewrite Hidn, String.eqb_refl.
    erewrite bind_ok by reflexivity.
    erewrite (bind_ok _ _ h tt h1); [|by rewrite Hls, Hlo].
    erewrite bind_ok by reflexivity.
    erewrite bind_ok by exact Hrun. reflexivity.
  - rewrite Hself. unfold merged. cbn. by rewrite fold_keys_update.
  - intros l Hl. by rewrite Hframe.
  - rewrite Hd. unfold h1. cbn. apply fn_lookup_insert.
  - intros l Hl. rewrite Hd. unfold h1. cbn. by apply fn_lookup_insert_ne.
  - by rewrite Ho.
  - by rewrite Hdn.
Qed.

End MergeFacts.

Section MergeClaims.

Import WaveformCollection.

Lemma dict_keys_update_elem {V} (d o : pydict V) (k : string) :
  dict_wf o -> k ∈ dict_keys (dict_update d o) <-> k ∈ dict_keys d \/ k ∈ dict_keys o.
Proof.
  intros Hwf. rewrite dict_keys_update by done. rewrite elem_of_app, list_elem_of_filter.
  destruct (decide (k ∈ dict_keys d)); tauto.
Qed.

Lemma merged_self (w : WaveformCollection) : dict_wf (_data w) -> merged w w = w.
Proof. intros Hwf. unfold merged. rewrite dict_update_self by done. by destruct w. Qed.

(** A merge keeps the left operand well formed. *)
Lemma merged_wf (h h' : heap) (a b ha hb : loc) :
  collection_wf h a ha -> collection_wf h b hb ->
  objs h' a = merged (objs h a) (objs h b) ->
  dicts h' ha = dict_update (dicts h ha) (dicts h hb) ->
  collection_wf h' a ha.
Proof.
  intros (Hda & Hna & Hha & Hwa) (Hdb & Hnb & Hhb & Hwb) Hobj Hdict.
  unfold collection_wf. rewrite Hobj, Hdict. unfold merged. cbn [_data _header].
  split_and!; [by apply dict_wf_update | | done | by apply dict_wf_update].
  rewrite dict_keys_update_elem by done. tauto.
Qed.




(** Two collections read from instruments with different identities do not
    merge. *)
Example add_two_instruments :
  __add__ 0%nat 1%nat Bench.two_instruments = Raise (AttributeError "Incompatible addition").
Proof. reflexivity. Qed.

Lemma add_observed (h : heap) (a b ha hb : loc) :
  collection_wf h a ha -> collection_wf h b hb ->
  idn (objs h a) = idn (objs h b) ->
  exists h',
    __add__ a b h = Ok (a, h') /\
    objs h' a = merged (objs h a) (objs h b) /\
    (forall l, l <> a -> objs h' l = objs h l) /\
    dicts h' ha = dict_update (dicts h ha) (dicts h hb) /\
    (forall l, l <> ha -> dicts h' l = dicts h l) /\
    next_obj h' = next_obj h /\ next_dict h' = next_dict h.
Proof.
  intros (_ & _ & Hha & _) (Hdb & Hnb & Hhb & _) Hidn. by apply add_run.
Qed.










End MergeClaims.

(** ** The HTTP export *)

Section HttpClaims.

Import Oscilloscope.

Lemma split_cons (sep : ascii) (s : string) : exists w ws, split sep s = w :: ws.
Proof.
  induction s as [|c s (w & ws & IH)]; cbn; [by eexists _, _|].
  destruct (Ascii.eqb c sep); [by eexists _, _|]. rewrite IH. by eexists _, _.
Qed.

(** One turn of the loop, on a line that is not the sentinel. *)
Lemma preamble_step (n : nat) (s : string) (header : pydict hval) :
  is_sentinel (fst (readline s)) = false ->
  preamble (S n) s header = preamble n (snd (readline s)) (add_entry header (fst (readline s))).
Proof.
  unfold is_sentinel, add_entry, entry_of, fields. cbn [preamble].
  destruct (readline s) as [line rest]. cbn [fst snd].
  destruct (split_cons "," (strip line)) as (w0 & ws & ->). intros Hs.
  cbn. rewrite Hs.
  destruct ws as [|w1 [|w2 ws]]; cbn; try done.
  by destruct (String.eqb w0 "").
Qed.

(** One turn of the loop, on the sentinel. *)
Lemma preamble_stop (n : nat) (s : string) (header : pydict hval) :
  is_sentinel (fst (readline s)) = true ->
  preamble (S n) s header = Ok (header, snd (readline s)).
Proof.
  unfold is_sentinel, fields. cbn [preamble].
  destruct (readline s) as [line rest]. cbn [fst snd].
  destruct (split_cons "," (strip line)) as (w0 & ws & ->). intros Hs. cbn. by rewrite Hs.
Qed.

Lemma preamble_no_sentinel (n : nat) : forall (s : string) (header : pydict hval),
  Forall (fun line => is_sentinel line = false) (first_lines n s) ->
  preamble n s header = Ok (fold_left add_entry (first_lines n s) header, skip_lines n s).
Proof.
  induction n as [|n IH]; intros s header Hall; [done|].
  cbn [first_lines] in Hall. apply Forall_cons in Hall as [Hline Hall].
  rewrite preamble_step by done. by rewrite IH.
Qed.

Lemma preamble_sentinel (n k : nat) : forall (s : string) (header : pydict hval),
  (k < n)%nat ->
  Forall (fun line => is_sentinel line = false) (first_lines k s) ->
  is_sentinel (nth_line k s) = true ->
  preamble n s header = Ok (fold_left add_entry (first_lines k s) header, skip_lines (S k) s).
Proof.
  revert n. induction k as [|k IH]; intros n s header Hlt Hall Hstop.
  - destruct n as [|n]; [lia|]. by rewrite preamble_stop.
  - destruct n as [|n]; [lia|].
    cbn [first_lines] in Hall. apply Forall_cons in Hall as [Hline Hall].
    rewrite preamble_step by done. rewrite (IH n) by (done || lia). done.
Qed.

Lemma skip_lines_succ (n : nat) : forall s,
  skip_lines (S n) s = snd (readline (skip_lines n s)).
Proof.
  induction n as [|n IH]; intros s; [done|].
  change (skip_lines (S (S n)) s) with (skip_lines (S n) (snd (readline s))).
  by rewrite IH.
Qed.

(** C7, as stated, fails: the line [,5] has two comma-separated fields, and
    no entry is added for it. *)
Lemma C7_counterexample :
  fields (nth_line 0 (Bench.unlines [",5"; "Label"; "CH1"])) = [""; "5"] /\
  parse_response_header (Bench.unlines [",5"; "Label"; "CH1"])
    = Ok ([("label", HList ["CH1"])], "") /\
  dict_get "" [("label", HList ["CH1"])] = None.
Proof. split_and!; vm_compute; reflexivity. Qed.

(** C7, amended: the parser reads at most 21 preamble lines. A line of two
    comma-separated fields whose first field is not empty adds the entry
    first field, second field to the header; a blank line, a line with
    another number of fields and a line whose first field is empty add
    nothing. The first line among the 21 whose first field is "Label" ends
    the preamble and adds nothing. The next line, or line 22 when there is no
    such line, is the label row: its fields are stored under "label", and the
    stream continues after it. *)
Theorem C7_preamble_amended :
  (forall (header : pydict hval) (line : string),
     (forall k v, fields line = [k; v] -> k <> "" ->
                  add_entry header line = dict_set k (HStr v) header) /\
     (length (fields line) <> 2%nat -> add_entry header line = header) /\
     (strip line = "" -> add_entry header line = header) /\
     (forall v, fields line = [""; v] -> add_entry header line = header)) /\
  (forall (data_string : string) (k : nat),
     (k < 21)%nat ->
     Forall (fun line => is_sentinel line = false) (first_lines k data_string) ->
     is_sentinel (nth_line k data_string) = true ->
     parse_response_header data_string
     = Ok (dict_set "label" (HList (fields (nth_line (S k) data_string)))
                    (fold_left add_entry (first_lines k data_string) []),
           skip_lines (S (S k)) data_string)) /\
  (forall (data_string : string),
     Forall (fun line => is_sentinel line = false) (first_lines 21 data_string) ->
     parse_response_header data_string
     = Ok (dict_set "label" (HList (fields (nth_line 21 data_string)))
                    (fold_left add_entry (first_lines 21 data_string) []),
           skip_lines 22 data_string)).
Proof.
  split_and!.
  - intros header line. unfold add_entry, entry_of. split_and!.
    + intros k v -> Hk. by destruct (String.eqb_spec k "").
    + intros Hlen. by destruct (fields line) as [|? [|? [|? ?]]].
    + unfold fields. by intros ->.
    + by intros v ->.
  - intros s k Hk Hall Hstop. unfold parse_response_header.
    rewrite (preamble_sentinel 21 k) by done. cbn [mbind result_bind].
    unfold nth_line, fields. rewrite (skip_lines_succ (S k)).
    by destruct (readline (skip_lines (S k) s)).
  - intros s Hall. unfold parse_response_header.
    rewrite preamble_no_sentinel by done. cbn [mbind result_bind].
    unfold nth_line, fields. rewrite (skip_lines_succ 21).
    by destruct (readline (skip_lines 21 s)).
Qed.

Lemma C7_witness :
  parse_response_header Bench.export_body
  = Ok (dict_set "label" (HList (fields (nth_line 7 Bench.export_body)))
                 (fold_left add_entry (first_lines 6 Bench.export_body) []),
        skip_lines 8 Bench.export_body).
Proof.
  apply (proj1 (proj2 C7_preamble_amended) Bench.export_body 6%nat);
    [lia | repeat constructor | vm_compute; reflexivity].
Defined.

End HttpClaims.

(** ** The instrument-control path *)

Section VisaFacts.

Import Oscilloscope.

Context {Sc : Type} `{Instrument Sc}.

Lemma on_scope_ok {A} (m : M Sc A) (sc sc' : Sc) (h : heap) (a : A) :
  m sc = Ok (a, sc') -> on_scope m (sc, h) = Ok (a, (sc', h)).
Proof. intros Hm. cbn. by rewrite Hm. Qed.

Lemma lift_result_ok {St A} (r : result A) (a : A) (s : St) :
  r = Ok a -> lift_result r s = Ok (a, s).
Proof. by intros ->. Qed.

Lemma lift_result_raise {St A} (r : result A) (e : exn) (s : St) :
  r = Raise e -> @lift_result St A r s = Raise e.
Proof. by intros ->. Qed.

Lemma getitem_ok {V} (d : pydict V) (k : string) (v : V) :
  dict_get k d = Some v -> getitem d k = Ok v.
Proof. unfold getitem. by intros ->. Qed.

(** A channel that is on: the turn continues with the decoding. *)
Lemma body_on lb ub (source : string) (st st1 : Sc * heap) header answer c :
  select_source lb ub source st = Ok ((header, answer), st1) ->
  first_char answer = Ok c -> c <> "0"%char ->
  _get_data_visa_body lb ub source st = decode_source source header st1.
Proof.
  intros Hsel Hc Hne. unfold _get_data_visa_body.
  erewrite bind_ok by exact Hsel. cbn beta iota.
  erewrite bind_ok by (by apply lift_result_ok).
  destruct (Ascii.eqb_spec c "0"); [done | reflexivity].
Qed.

(** A channel that is off: the generator returns. *)
Lemma body_off lb ub (source : string) (st st1 : Sc * heap) header answer :
  select_source lb ub source st = Ok ((header, answer), st1) ->
  first_char answer = Ok "0"%char ->
  _get_data_visa_body lb ub source st = Ok (Return, st1).
Proof.
  intros Hsel Hc. unfold _get_data_visa_body.
  erewrite bind_ok by exact Hsel. cbn beta iota.
  erewrite bind_ok by (by apply lift_result_ok). reflexivity.
Qed.

Lemma ascii_samples_ok y_mult y_offset y_zero (read_string : string) (raws : list float) :
  Forall2 (fun entry raw => py_float entry = Ok raw) (split "," read_string) raws ->
  ascii_samples y_mult y_offset y_zero read_string
  = Ok (map (scale y_mult y_offset y_zero) raws).
Proof.
  unfold ascii_samples. generalize (split "," read_string). intros entries Hall.
  induction Hall as [|entry raw entries raws Hraw _ IH]; [done|].
  cbn. rewrite Hraw. cbn. by rewrite IH.
Qed.

Lemma decode_source_ascii (source : string) (header : loc) (sc sc' : Sc) (h : heap)
    y_mult y_offset y_zero (read_string : string) :
  calibration (dicts h header) = Ok (y_mult, y_offset, y_zero) ->
  dict_get "ENCDG" (dicts h header) = Some (HStr "ASCII") ->
  query "curve?" sc = Ok (read_string, sc') ->
  decode_source source header (sc, h)
  = match ascii_samples y_mult y_offset y_zero read_string with
    | Ok ret_val => Ok (Yield source ret_val header, (sc', h))
    | Raise e => Raise e
    end.
Proof.
  intros Hcal Henc Hq. unfold decode_source.
  erewrite bind_ok by reflexivity.
  erewrite bind_ok by (by apply lift_result_ok). cbn beta iota.
  erewrite bind_ok by (by apply lift_result_ok, getitem_ok).
  cbn [hval_is String.eqb Ascii.eqb Bool.eqb].
  unfold mbind at 1, M_bind. unfold mbind at 1, M_bind.
  rewrite (on_scope_ok _ _ _ _ _ Hq).
  by destruct (ascii_samples y_mult y_offset y_zero read_string).
Qed.

(** Reading least significant byte first is reading the reversed bytes most
    significant byte first. *)
Lemma lsb_first_is_reversed (bs : list byte) :
  lsb_first_value bs = msb_first_value (rev bs).
Proof.
  unfold lsb_first_value, msb_first_value. rewrite <- fold_left_rev_right, rev_involutive.
  induction bs as [|b bs IH]; [done|]. cbn [fold_right]. rewrite IH. lia.
Qed.

Lemma format_of_struct (width fmt datatype : string) :
  format_of width fmt = Some datatype ->
  exists size kind, struct_format datatype = Some (size, kind).
Proof.
  unfold format_of, FORMATTER_LOOKUP. cbn [dict_get mbind option_bind].
  repeat (match goal with
          | |- context [if String.eqb ?a ?b then _ else _] => destruct (String.eqb a b)
          end; cbn [dict_get mbind option_bind]);
    intros; simplify_eq; by eexists _, _.
Qed.

(** The lookups of the BINARY branch that come before the block is read. *)
Lemma format_string_ok (hd : pydict hval) (width fmt datatype : string) :
  dict_get "BYT_NR" hd = Some (HStr width) ->
  dict_get "BN_FMT" hd = Some (HStr fmt) ->
  format_of width fmt = Some datatype ->
  (w ← getitem hd "BYT_NR"; row ← getitem_hval FORMATTER_LOOKUP w;
   f ← getitem hd "BN_FMT"; getitem_hval row f) = Ok datatype.
Proof.
  intros Hw Hf. unfold format_of, getitem_hval, getitem. rewrite Hw. cbn [mbind result_bind].
  destruct (dict_get width FORMATTER_LOOKUP) as [row|]; [|done].
  cbn [mbind result_bind option_bind]. rewrite Hf. cbn [mbind result_bind]. by intros ->.
Qed.

Lemma format_string_raise (hd : pydict hval) (width fmt : string) :
  dict_get "BYT_NR" hd = Some (HStr width) ->
  dict_get "BN_FMT" hd = Some (HStr fmt) ->
  format_of width fmt = None ->
  exists key, (key = width \/ key = fmt) /\
    (w ← getitem hd "BYT_NR"; row ← getitem_hval FORMATTER_LOOKUP w;
     f ← getitem hd "BN_FMT"; getitem_hval row f) = @Raise string (KeyError key).
Proof.
  intros Hw Hf. unfold format_of, getitem_hval, getitem. rewrite Hw. cbn [mbind result_bind].
  destruct (dict_get width FORMATTER_LOOKUP) as [row|].
  - cbn [mbind result_bind option_bind]. rewrite Hf. cbn [mbind result_bind].
    intros ->. exists fmt. by split; [right|].
  - intros _. exists width. by split; [left|].
Qed.

Lemma decode_source_binary (source : string) (header : loc) (sc sc' : Sc) (h : heap)
    y_mult y_offset y_zero (width fmt datatype order : string) (payload : list byte) :
  calibration (dicts h header) = Ok (y_mult, y_offset, y_zero) ->
  dict_get "ENCDG" (dicts h header) = Some (HStr "BINARY") ->
  dict_get "BYT_NR" (dicts h header) = Some (HStr width) ->
  dict_get "BN_FMT" (dicts h header) = Some (HStr fmt) ->
  format_of width fmt = Some datatype ->
  dict_get "BYT_OR" (dicts h header) = Some (HStr order) ->
  query_block "curv?" sc = Ok (payload, sc') ->
  decode_source source header (sc, h)
  = match unpack_values datatype (String.eqb order "MSB") payload with
    | Ok ret_val =>
        Ok (Yield source (map (fun entry => scale y_mult y_offset y_zero (to_float entry)) ret_val)
                  header, (sc', h))
    | Raise e => Raise e
    end.
Proof.
  intros Hcal Henc Hw Hf Hfmt Hor Hq. unfold decode_source.
  erewrite bind_ok by reflexivity.
  erewrite bind_ok by (by apply lift_result_ok). cbn beta iota.
  erewrite bind_ok by (by apply lift_result_ok, getitem_ok).
  cbn [hval_is String.eqb Ascii.eqb Bool.eqb].
  unfold mbind at 1, M_bind. unfold binary_samples.
  erewrite bind_ok by (by eapply lift_result_ok, format_string_ok).
  erewrite bind_ok by (by apply lift_result_ok, getitem_ok).
  cbn [hval_is]. unfold mbind at 1, M_bind. unfold query_binary_values.
  cbn [on_scope]. unfold mbind at 1, M_bind. rewrite Hq.
  unfold lift_result. by destruct (unpack_values datatype _ payload).
Qed.

Lemma decode_source_unsupported (source : string) (header : loc) (sc : Sc) (h : heap)
    y_mult y_offset y_zero (width fmt : string) :
  calibration (dicts h header) = Ok (y_mult, y_offset, y_zero) ->
  dict_get "ENCDG" (dicts h header) = Some (HStr "BINARY") ->
  dict_get "BYT_NR" (dicts h header) = Some (HStr width) ->
  dict_get "BN_FMT" (dicts h header) = Some (HStr fmt) ->
  format_of width fmt = None ->
  exists key, (key = width \/ key = fmt) /\
    decode_source source header (sc, h) = Raise (KeyError key).
Proof.
  intros Hcal Henc Hw Hf Hfmt.
  destruct (format_string_raise _ _ _ Hw Hf Hfmt) as (key & Hkey & Hraise).
  exists key. split; [done|]. unfold decode_source.
  erewrite bind_ok by reflexivity.
  erewrite bind_ok by (by apply lift_result_ok). cbn beta iota.
  erewrite bind_ok by (by apply lift_result_ok, getitem_ok).
  cbn [hval_is String.eqb Ascii.eqb Bool.eqb].
  unfold mbind at 1, M_bind. unfold binary_samples.
  erewrite bind_raise; [reflexivity|]. by apply lift_result_raise.
Qed.

End VisaFacts.

(** ** Integers and their bytes *)

Section BlockFacts.

Lemma byte_of_value (z : Z) : Z.of_N (Byte.to_N (byte_of z)) = z mod 256.
Proof.
  unfold byte_of. pose proof (Z.mod_pos_bound z 256 eq_refl) as Hz.
  destruct (Byte.of_N (Z.to_N (z mod 256))) as [b|] eqn:E.
  - apply Byte.to_of_N in E. simpl. rewrite E. lia.
  - apply Byte.of_N_None_iff in E. lia.
Qed.

Lemma msb_first_snoc (bs : list byte) (b : byte) :
  msb_first_value (bs ++ [b]) = 256 * msb_first_value bs + Z.of_N (Byte.to_N b).
Proof. unfold msb_first_value. by rewrite fold_left_app. Qed.

Lemma length_msb_first_bytes (size : nat) : forall v, length (msb_first_bytes size v) = size.
Proof.
  induction size as [|n IH]; intros v; [done|].
  cbn [msb_first_bytes]. rewrite length_app, IH. cbn. lia.
Qed.

(** Reading the bytes of [v] most significant byte first gives [v] back,
    modulo the size of the element. *)
Lemma msb_first_bytes_value (size : nat) : forall v,
  msb_first_value (msb_first_bytes size v) = v mod 2 ^ (8 * Z.of_nat size).
Proof.
  induction size as [|n IH]; intros v.
  - cbn. by rewrite Z.mod_1_r.
  - cbn [msb_first_bytes]. rewrite msb_first_snoc, IH, byte_of_value.
    replace (8 * Z.of_nat (S n)) with (8 + 8 * Z.of_nat n) by lia.
    rewrite Z.pow_add_r by lia. change (2 ^ 8) with 256.
    rewrite Z.rem_mul_r by lia. lia.
Qed.

Lemma lsb_first_bytes_value (size : nat) (v : Z) :
  lsb_first_value (lsb_first_bytes size v) = v mod 2 ^ (8 * Z.of_nat size).
Proof.
  unfold lsb_first_bytes. rewrite lsb_first_is_reversed, rev_involutive.
  apply msb_first_bytes_value.
Qed.

(** An integer that fits the element is the value of its bytes. *)
Lemma element_value_fits (size : nat) (k : elem_kind) (v : Z) :
  (0 < size)%nat -> fits size k v ->
  element_value size k (v mod 2 ^ (8 * Z.of_nat size)) = PyInt v.
Proof.
  intros Hsize Hfits. unfold element_value, fits in *.
  set (bits := 8 * Z.of_nat size) in *.
  assert (Hpow : 2 ^ bits = 2 * 2 ^ (bits - 1)).
  { rewrite <- Z.pow_succ_r by lia. f_equal. lia. }
  assert (Hpos : 0 < 2 ^ (bits - 1)) by (apply Z.pow_pos_nonneg; lia).
  destruct k; [| |done].
  - f_equal. destruct (Z.ltb_spec (v mod 2 ^ bits) (2 ^ (bits - 1))) as [Hlt|Hge].
    + destruct (Z.le_gt_cases 0 v) as [Hv|Hv]; [apply Z.mod_small; lia|].
      rewrite <- (Z.mod_add v 1) in Hlt by lia.
      rewrite Z.mod_small in Hlt by lia. lia.
    + destruct (Z.le_gt_cases 0 v) as [Hv|Hv].
      * rewrite Z.mod_small in Hge by lia. lia.
      * rewrite <- (Z.mod_add v 1) by lia. rewrite Z.mod_small by lia. lia.
  - f_equal. apply Z.mod_small. lia.
Qed.

Lemma chunks_concat (size : nat) (bss : list (list byte)) : forall fuel,
  (0 < size)%nat -> Forall (fun bs => length bs = size) bss ->
  (length bss <= fuel)%nat ->
  chunks fuel size (concat bss) = bss.
Proof.
  induction bss as [|bs bss IH]; intros fuel Hsize Hall Hfuel.
  - destruct fuel; [done|]. cbn [chunks concat length].
    destruct (Nat.ltb_spec 0 size); [done | lia].
  - apply Forall_cons in Hall as [Hbs Hall].
    destruct fuel as [|fuel]; [cbn in Hfuel; lia|].
    cbn [chunks concat]. rewrite length_app.
    destruct (Nat.ltb_spec (length bs + length (concat bss)) size); [lia|].
    rewrite take_app_length' by done. rewrite drop_app_length' by done.
    rewrite IH; [done | done | done | cbn in Hfuel; lia].
Qed.

Lemma length_concat_same (size : nat) (bss : list (list byte)) :
  Forall (fun bs => length bs = size) bss ->
  length (concat bss) = (size * length bss)%nat.
Proof.
  induction 1 as [|bs bss Hbs _ IH]; cbn [concat length]; [lia|].
  rewrite length_app, IH, Hbs. lia.
Qed.

Lemma struct_format_size (datatype : string) (size : nat) (k : elem_kind) :
  struct_format datatype = Some (size, k) -> (0 < size)%nat.
Proof.
  unfold struct_format.
  repeat (match goal with
          | |- context [if String.eqb ?a ?b then _ else _] => destruct (String.eqb a b)
          end);
    intros; simplify_eq; lia.
Qed.

(** What the transport library unpacks from the block of the integers
    [vs]. *)
Lemma unpack_block_of (datatype order : string) (size : nat) (k : elem_kind) (vs : list Z) :
  struct_format datatype = Some (size, k) ->
  Forall (fits size k) vs ->
  unpack_values datatype (String.eqb order "MSB") (block_of size order vs)
  = Ok (map PyInt vs).
Proof.
  intros Hfmt Hfits. pose proof (struct_format_size _ _ _ Hfmt) as Hsize.
  unfold unpack_values, block_of. rewrite Hfmt. f_equal.
  set (enc := if String.eqb order "MSB" then msb_first_bytes size else lsb_first_bytes size).
  assert (Hlen : Forall (fun bs => length bs = size) (map enc vs)).
  { apply Forall_fmap, Forall_true. intros v. unfold enc, lsb_first_bytes.
    destruct (String.eqb order "MSB"); cbn;
      rewrite ?length_rev; apply length_msb_first_bytes. }
  rewrite chunks_concat; [|done|done|].
  - rewrite map_map. apply map_ext_Forall.
    eapply Forall_impl; [exact Hfits|]. intros v Hv. cbn beta.
    unfold decode_elem, unsigned_value, enc.
    destruct (String.eqb order "MSB").
    + rewrite msb_first_bytes_value. by apply element_value_fits.
    + rewrite lsb_first_bytes_value. by apply element_value_fits.
  - rewrite (length_concat_same size) by done. nia.
Qed.

End BlockFacts.

Section VisaClaims.

Import Oscilloscope.

(** C1: in a turn of the generator for a channel that is on and whose header
    says ENCDG ASCII, every comma-separated token of the answer to [curve?]
    is converted by [float] and the sample yielded for it is
    [(raw - YOFF) * YMULT + YZERO]. With the header YMULT 2.0, YOFF 10,
    YZERO 1.0, ENCDG ASCII and the curve [10,20,30] the samples are 1.0,
    21.0 and 41.0. The conversion and the arithmetic are those of Python:
    tokens with a fraction, an exponent, a sign, an underscore or white space
    around them, calibrations that are no integers, infinities and NaN give
    the values listed, and a token that [float] does not accept, such as one
    padded with a separator 28 to 31 that [str.strip] would remove, raises
    [ValueError] with that token. *)
Theorem C1_ascii_samples_are_scaled :
  (forall (Sc : Type) (I : Instrument Sc) lb ub (source : string) (st : Sc * heap)
          (header : loc) (answer : string) (sc1 sc2 : Sc) (h1 : heap) (c : ascii)
          (y_mult y_offset y_zero : float) (read_string : string) (raws : list float),
     select_source lb ub source st = Ok ((header, answer), (sc1, h1)) ->
     first_char answer = Ok c -> c <> "0"%char ->
     calibration (dicts h1 header) = Ok (y_mult, y_offset, y_zero) ->
     dict_get "ENCDG" (dicts h1 header) = Some (HStr "ASCII") ->
     query "curve?" sc1 = Ok (read_string, sc2) ->
     Forall2 (fun entry raw => py_float entry = Ok raw) (split "," read_string) raws ->
     _get_data_visa_body lb ub source st
     = Ok (Yield source
                 (map (fun raw => fadd (fmul (fsub raw y_offset) y_mult) y_zero) raws)
                 header,
           (sc2, h1))) /\
  yielded (_get_data_visa ["CH1"] None None (Bench.scope0, Bench.empty_heap))
    = Some [("CH1", map float_of_int [1; 21; 41], Bench.ascii_header)] /\
  map float_value (map float_of_int [1; 21; 41]) = [Some 1%Q; Some 21%Q; Some 41%Q] /\
  Cases.read_values (Cases.ascii "2.0" "10" "1.0" "10,20,30")
    = Ok [Some 1%Q; Some 21%Q; Some 41%Q] /\
  Cases.read_values
    (Cases.ascii "2.0" "10" "1.0"
                 ("1.5e1,-2.5E-1,+.5, 1_0 ,1e-2,12.," +:+ String "009" ("7" +:+ String LF "")))
    = Ok [Some 11%Q; Some (-39 # 2)%Q; Some (-18)%Q; Some 1%Q;
          Some (-5342395057968251 # 281474976710656)%Q; Some 5%Q; Some (-5)%Q] /\
  Cases.read_values
    (Cases.ascii "2.0" "10" "1.0"
                 (String "160" "10" +:+ String "133" "," +:+ String "011" "20"
                  +:+ String "012" "," +:+ String "013" "30 "))
    = Ok [Some 1%Q; Some 21%Q; Some 41%Q] /\
  Cases.read_values (Cases.ascii "0.3" "0.2" "0.7" "0.1,1e22,123456789.123456789")
    = Ok [Some (377176468792279 # 562949953421312)%Q; Some 3000000000000000000000%Q;
          Some (4971027008596991 # 134217728)%Q] /\
  Cases.read_values (Cases.ascii "1e-3" "-1.25e2" ".5" "3,-3")
    = Ok [Some (5656521131977343 # 9007199254740992)%Q;
          Some (5602477936448897 # 9007199254740992)%Q] /\
  Cases.read (Cases.ascii "2.0" "10" "1.0" "inf,-Infinity,nan,1e400")
    = Ok [S754_infinity false; S754_infinity true; S754_nan; S754_infinity false] /\
  Cases.read (Cases.ascii "2.0" "10" "1.0" ("10," +:+ String "028" "20"))
    = Raise (ValueError (String "028" "20")) /\
  Cases.read (Cases.ascii "2.0" "10" "1.0" ("10" +:+ String "031" ",20"))
    = Raise (ValueError ("10" +:+ String "031" "")) /\
  map (fun c => Cases.read (Cases.ascii "2.0" "10" "1.0" (String c "10")))
      ["028"; "029"; "030"; "031"]%char
    = map (fun c => Raise (ValueError (String c "10"))) ["028"; "029"; "030"; "031"]%char /\
  Cases.read (Cases.ascii "2.0" "10" "1.0" "10,2e,30") = Raise (ValueError "2e") /\
  Cases.read (Cases.ascii "2.0" "10" "1.0" "10,20,") = Raise (ValueError "").
Proof.
  split_and!; [|vm_compute; reflexivity..].
  intros Sc I lb ub source st header answer sc1 sc2 h1 c y_mult y_offset y_zero
         read_string raws Hsel Hc Hne Hcal Henc Hq Hraws.
  erewrite body_on by done.
  erewrite decode_source_ascii by done.
  by erewrite ascii_samples_ok by done.
Qed.

Lemma C1_witness :
  _get_data_visa_body None None "CH1" (Bench.scope0, Bench.empty_heap)
  = Ok (Yield "CH1"
              (map (fun raw => fadd (fmul (fsub raw (float_of_int 10)) (float_of_int 2))
                                    (float_of_int 1))
                   (map float_of_int [10; 20; 30]))
              0%nat,
        (Bench.selected_scope "CH1", Bench.heap_with_header Bench.ascii_header)).
Proof.
  apply (proj1 C1_ascii_samples_are_scaled Bench.bench _ None None "CH1"
               (Bench.scope0, Bench.empty_heap) 0%nat "1"
               (Bench.selected_scope "CH1") (Bench.selected_scope "CH1")
               (Bench.heap_with_header Bench.ascii_header) "1"%char
               (float_of_int 2) (float_of_int 10) (float_of_int 1) "10,20,30");
    first [ vm_compute; reflexivity | vm_compute; congruence | repeat constructor ].
Defined.

(** C2: in a turn for a channel that is on and whose header says ENCDG
    BINARY, the element type is the one [FORMATTER_LOOKUP] gives for the
    BYT_NR and BN_FMT of the header, and every element of the block is read
    most significant byte first when BYT_OR is "MSB" and least significant
    byte first otherwise, then scaled. So a block that holds integers that
    fit the element, each written in the byte order the header names, yields
    these integers, scaled. The table has the ten entries listed. With BYT_NR
    2, BN_FMT RI, BYT_OR MSB, YMULT 1, YOFF 0, YZERO 0 the bytes 00 01 00 02
    give the samples 1.0 and 2.0, and 256.0 and 512.0 when BYT_OR is LSB;
    signed, unsigned and IEEE elements of every width give the values
    listed. *)
Theorem C2_binary_samples_follow_table_and_byte_order :
  (forall (Sc : Type) (I : Instrument Sc) lb ub (source : string) (st : Sc * heap)
          (header : loc) (answer : string) (sc1 sc2 : Sc) (h1 : heap) (c : ascii)
          (y_mult y_offset y_zero : float) (width fmt datatype order : string)
          (payload : list byte),
     select_source lb ub source st = Ok ((header, answer), (sc1, h1)) ->
     first_char answer = Ok c -> c <> "0"%char ->
     calibration (dicts h1 header) = Ok (y_mult, y_offset, y_zero) ->
     dict_get "ENCDG" (dicts h1 header) = Some (HStr "BINARY") ->
     dict_get "BYT_NR" (dicts h1 header) = Some (HStr width) ->
     dict_get "BN_FMT" (dicts h1 header) = Some (HStr fmt) ->
     format_of width fmt = Some datatype ->
     dict_get "BYT_OR" (dicts h1 header) = Some (HStr order) ->
     query_block "curv?" sc1 = Ok (payload, sc2) ->
     exists size kind,
       struct_format datatype = Some (size, kind) /\
       _get_data_visa_body lb ub source st
       = Ok (Yield source
                   (map (fun bs =>
                           scale y_mult y_offset y_zero
                             (to_float (element_value size kind
                                          (if String.eqb order "MSB"
                                           then msb_first_value bs
                                           else lsb_first_value bs))))
                        (chunks (length payload) size payload))
                   header,
             (sc2, h1))) /\
  (forall (Sc : Type) (I : Instrument Sc) lb ub (source : string) (st : Sc * heap)
          (header : loc) (answer : string) (sc1 sc2 : Sc) (h1 : heap) (c : ascii)
          (y_mult y_offset y_zero : float) (width fmt datatype order : string)
          (size : nat) (kind : elem_kind) (vs : list Z),
     select_source lb ub source st = Ok ((header, answer), (sc1, h1)) ->
     first_char answer = Ok c -> c <> "0"%char ->
     calibration (dicts h1 header) = Ok (y_mult, y_offset, y_zero) ->
     dict_get "ENCDG" (dicts h1 header) = Some (HStr "BINARY") ->
     dict_get "BYT_NR" (dicts h1 header) = Some (HStr width) ->
     dict_get "BN_FMT" (dicts h1 header) = Some (HStr fmt) ->
     format_of width fmt = Some datatype ->
     struct_format datatype = Some (size, kind) ->
     dict_get "BYT_OR" (dicts h1 header) = Some (HStr order) ->
     Forall (fits size kind) vs ->
     query_block "curv?" sc1 = Ok (block_of size order vs, sc2) ->
     _get_data_visa_body lb ub source st
     = Ok (Yield source
                 (map (fun v => scale y_mult y_offset y_zero (float_of_int v)) vs)
                 header,
           (sc2, h1))) /\
  map (fun '(width, fmt) => format_of width fmt ≫= struct_format)
      [("1", "RI"); ("1", "RP"); ("2", "RI"); ("2", "RP"); ("4", "RI"); ("4", "RP");
       ("4", "FP"); ("8", "RI"); ("8", "RP"); ("8", "FP")]
    = [Some (1%nat, SignedInt); Some (1%nat, UnsignedInt);
       Some (2%nat, SignedInt); Some (2%nat, UnsignedInt);
       Some (4%nat, SignedInt); Some (4%nat, UnsignedInt); Some (4%nat, IeeeFloat);
       Some (8%nat, SignedInt); Some (8%nat, UnsignedInt); Some (8%nat, IeeeFloat)] /\
  yielded (_get_data_visa ["CH2"] None None (Bench.scope0, Bench.empty_heap))
    = Some [("CH2", map float_of_int [1; 2], Bench.binary_header)] /\
  map float_value (map float_of_int [1; 2]) = [Some 1%Q; Some 2%Q] /\
  block_of 2 "MSB" [1; -2] = [x00; x01; xff; xfe] /\
  block_of 2 "LSB" [1; -2] = [x01; x00; xfe; xff] /\
  Cases.read_values (Cases.binary "2" "RI" "MSB" [x00; x01; x00; x02])
    = Ok [Some 1%Q; Some 2%Q] /\
  Cases.read_values (Cases.binary "2" "RI" "LSB" [x00; x01; x00; x02])
    = Ok [Some 256%Q; Some 512%Q] /\
  Cases.read_values (Cases.binary "2" "RI" "MSB" [xff; xfe; x80; x00])
    = Ok [Some (-2)%Q; Some (-32768)%Q] /\
  Cases.read_values (Cases.binary "2" "RP" "MSB" [xff; xfe; x80; x00])
    = Ok [Some 65534%Q; Some 32768%Q] /\
  Cases.read_values (Cases.binary "2" "RP" "LSB" [xfe; xff; x01; x00])
    = Ok [Some 65534%Q; Some 1%Q] /\
  Cases.read_values (Cases.binary "2" "RI" "lsb" [xfe; xff]) = Ok [Some (-2)%Q] /\
  Cases.read_values (Cases.binary "1" "RI" "MSB" [xff; x7f; x80])
    = Ok [Some (-1)%Q; Some 127%Q; Some (-128)%Q] /\
  Cases.read_values (Cases.binary "1" "RP" "LSB" [xff; x7f; x80])
    = Ok [Some 255%Q; Some 127%Q; Some 128%Q] /\
  Cases.read_values (Cases.binary "4" "RI" "MSB" [xff; xff; xff; xfe]) = Ok [Some (-2)%Q] /\
  Cases.read_values (Cases.binary "4" "RP" "MSB" [xff; xff; xff; xfe])
    = Ok [Some 4294967294%Q] /\
  Cases.read_values (Cases.binary "4" "RI" "LSB" [xfe; xff; xff; xff]) = Ok [Some (-2)%Q] /\
  Cases.read_values (Cases.binary "8" "RI" "MSB" [x80; x00; x00; x00; x00; x00; x00; x01])
    = Ok [Some (-9223372036854775808)%Q] /\
  Cases.read_values (Cases.binary "8" "RP" "MSB" [xff; xff; xff; xff; xff; xff; xff; xff])
    = Ok [Some 18446744073709551616%Q] /\
  Cases.read_values (Cases.binary "8" "RP" "LSB" [x01; x00; x00; x00; x00; x00; x00; x80])
    = Ok [Some 9223372036854775808%Q] /\
  Cases.read_values (Cases.binary "4" "FP" "MSB" [x3f; x80; x00; x00]) = Ok [Some 1%Q] /\
  Cases.read_values (Cases.binary "4" "FP" "LSB" [x00; x00; x80; x3f]) = Ok [Some 1%Q] /\
  Cases.read_values (Cases.binary "4" "FP" "MSB" [x3d; xcc; xcc; xcd])
    = Ok [Some (13421773 # 134217728)%Q] /\
  Cases.read_values (Cases.binary "4" "FP" "LSB" [x01; x00; x00; x80])
    = Ok [Some (-1 # 713623846352979940529142984724747568191373312)%Q] /\
  Cases.read_values (Cases.binary "8" "FP" "MSB" [xc0; x04; x00; x00; x00; x00; x00; x00])
    = Ok [Some (-5 # 2)%Q] /\
  Cases.read_values (Cases.binary "8" "FP" "LSB" [x9a; x99; x99; x99; x99; x99; xb9; x3f])
    = Ok [Some (3602879701896397 # 36028797018963968)%Q] /\
  Cases.read (Cases.binary "8" "FP" "MSB" [x00; x00; x00; x00; x00; x00; x00; x01])
    = Ok [S754_finite false 1 (-1074)] /\
  Cases.read (Cases.binary "4" "FP" "MSB" [x7f; x80; x00; x00; x7f; xc0; x00; x00])
    = Ok [S754_infinity false; S754_nan] /\
  Cases.read (Cases.binary "8" "FP" "LSB" [x00; x00; x00; x00; x00; x00; xf0; xff])
    = Ok [S754_infinity true].
Proof.
  split_and!; [| |vm_compute; reflexivity..].
  - intros Sc I lb ub source st header answer sc1 sc2 h1 c y_mult y_offset y_zero
           width fmt datatype order payload Hsel Hc Hne Hcal Henc Hw Hf Hfmt Hor Hq.
    destruct (format_of_struct _ _ _ Hfmt) as (size & kind & Hstruct).
    exists size, kind. split; [done|].
    erewrite body_on by done.
    erewrite decode_source_binary by done.
    unfold unpack_values. rewrite Hstruct. rewrite map_map.
    unfold decode_elem, unsigned_value. done.
  - intros Sc I lb ub source st header answer sc1 sc2 h1 c y_mult y_offset y_zero
           width fmt datatype order size kind vs
           Hsel Hc Hne Hcal Henc Hw Hf Hfmt Hstruct Hor Hfits Hq.
    erewrite body_on by done.
    erewrite decode_source_binary by done.
    rewrite (unpack_block_of datatype order size kind vs) by done.
    by rewrite map_map.
Qed.

Lemma C2_witness :
  _get_data_visa_body None None "CH1"
    (Cases.binary "2" "RP" "LSB" [xfe; xff; x01; x00], Bench.empty_heap)
  = Ok (Yield "CH1"
              (map (fun v => scale (float_of_int 1) (float_of_int 0) (float_of_int 0)
                                   (float_of_int v))
                   [65534; 1])
              0%nat,
        (Bench.mkBench "TEKTRONIX,MDO3024" "CH1"
                       (Bench.channels (Cases.binary "2" "RP" "LSB" [xfe; xff; x01; x00])),
         Bench.heap_with_header
           [("BYT_NR", HStr "2"); ("BN_FMT", HStr "RP"); ("BYT_OR", HStr "LSB");
            ("YMULT", HStr "1"); ("YOFF", HStr "0"); ("YZERO", HStr "0");
            ("ENCDG", HStr "BINARY")])).
Proof.
  apply (proj1 (proj2 C2_binary_samples_follow_table_and_byte_order) Bench.bench _
               None None "CH1"
               (Cases.binary "2" "RP" "LSB" [xfe; xff; x01; x00], Bench.empty_heap) 0%nat "1"
               (Bench.mkBench "TEKTRONIX,MDO3024" "CH1"
                  (Bench.channels (Cases.binary "2" "RP" "LSB" [xfe; xff; x01; x00])))
               (Bench.mkBench "TEKTRONIX,MDO3024" "CH1"
                  (Bench.channels (Cases.binary "2" "RP" "LSB" [xfe; xff; x01; x00])))
               (Bench.heap_with_header
                  [("BYT_NR", HStr "2"); ("BN_FMT", HStr "RP"); ("BYT_OR", HStr "LSB");
                   ("YMULT", HStr "1"); ("YOFF", HStr "0"); ("YZERO", HStr "0");
                   ("ENCDG", HStr "BINARY")])
               "1"%char
               (float_of_int 1) (float_of_int 0) (float_of_int 0) "2" "RP" "H" "LSB"
               2%nat UnsignedInt [65534; 1]);
    first [ vm_compute; reflexivity | vm_compute; congruence
          | repeat constructor; cbn; lia ].
Defined.

(** C8: in a turn for a channel that is on and whose header says ENCDG
    BINARY, when the pair of BYT_NR and BN_FMT is not in [FORMATTER_LOOKUP]
    the turn raises [KeyError] for the width or the format that is missing,
    Python's error for a key absent from the table, and yields nothing.
    Width 1 with format FP is not in the table, and no width other than 1,
    2, 4 and 8 is. *)
Theorem C8_format_absent_from_table_raises :
  (forall (Sc : Type) (I : Instrument Sc) lb ub (source : string) (st : Sc * heap)
          (header : loc) (answer : string) (sc1 : Sc) (h1 : heap) (c : ascii)
          (y_mult y_offset y_zero : float) (width fmt : string),
     select_source lb ub source st = Ok ((header, answer), (sc1, h1)) ->
     first_char answer = Ok c -> c <> "0"%char ->
     calibration (dicts h1 header) = Ok (y_mult, y_offset, y_zero) ->
     dict_get "ENCDG" (dicts h1 header) = Some (HStr "BINARY") ->
     dict_get "BYT_NR" (dicts h1 header) = Some (HStr width) ->
     dict_get "BN_FMT" (dicts h1 header) = Some (HStr fmt) ->
     format_of width fmt = None ->
     exists key, (key = width \/ key = fmt) /\
       _get_data_visa_body lb ub source st = Raise (KeyError key)) /\
  format_of "1" "FP" = None /\
  (forall width fmt, width ∉ ["1"; "2"; "4"; "8"] -> format_of width fmt = None).
Proof.
  split_and!; [|vm_compute; reflexivity|].
  - intros Sc I lb ub source st header answer sc1 h1 c y_mult y_offset y_zero
           width fmt Hsel Hc Hne Hcal Henc Hw Hf Hfmt.
    erewrite body_on by done. by eapply decode_source_unsupported.
  - intros width fmt Hw. unfold format_of.
    assert (Hnone : dict_get width FORMATTER_LOOKUP = None); [|by rewrite Hnone].
    by apply dict_get_None.
Qed.

Lemma C8_witness :
  exists key, (key = "1" \/ key = "FP") /\
    _get_data_visa_body None None "CH4" (Bench.scope0, Bench.empty_heap)
    = Raise (KeyError key).
Proof.
  apply (proj1 C8_format_absent_from_table_raises Bench.bench _ None None "CH4"
               (Bench.scope0, Bench.empty_heap) 0%nat "1" (Bench.selected_scope "CH4")
               (Bench.heap_with_header Bench.unsupported_header) "1"%char
               (float_of_int 1) (float_of_int 0) (float_of_int 0) "1" "FP");
    first [ vm_compute; reflexivity | vm_compute; congruence ].
Defined.

End VisaClaims.

(** ** The generator does not touch the collection *)

Section Oblivious.

Import Oscilloscope.

Context {Sc : Type} `{Instrument Sc}.

Ltac solve_agree := unfold agree, keeps_objs, same_dicts in *; cbn; intuition congruence.

Lemma oblivious_ret {A} (a : A) : oblivious (mret a : M (Sc * heap) A).
Proof. intros sc h1 h2 Hd. cbn. solve_agree. Qed.

Lemma oblivious_bind {A B} (m : M (Sc * heap) A) (f : A -> M (Sc * heap) B) :
  oblivious m -> (forall a, oblivious (f a)) -> oblivious (m ≫= f).
Proof.
  intros Hm Hf sc h1 h2 Hd. specialize (Hm sc h1 h2 Hd).
  unfold mbind, M_bind, agree in *.
  destruct (m (sc, h1)) as [[a1 [s1 k1]]|e1], (m (sc, h2)) as [[a2 [s2 k2]]|e2]; try done.
  destruct Hm as (-> & -> & Hk & [Ho1 Hn1] & [Ho2 Hn2]).
  specialize (Hf a2 s2 k1 k2 Hk). unfold agree in Hf.
  destruct (f a2 (s2, k1)) as [[b1 [t1 l1]]|e1], (f a2 (s2, k2)) as [[b2 [t2 l2]]|e2]; try done.
  destruct Hf as (-> & -> & Hl & [Ho1' Hn1'] & [Ho2' Hn2']).
  solve_agree.
Qed.

Lemma oblivious_on_scope {A} (m : M Sc A) : oblivious (on_scope m).
Proof.
  intros sc h1 h2 Hd. cbn. destruct (m sc) as [[a s]|e]; [|done]. solve_agree.
Qed.

Lemma oblivious_lift_result {A} (r : result A) : oblivious (lift_result r : M (Sc * heap) A).
Proof. intros sc h1 h2 Hd. destruct r; [solve_agree | done]. Qed.

Lemma oblivious_new_dict (d : pydict hval) : oblivious (on_heap (new_dict d) : M (Sc * heap) loc).
Proof.
  intros sc h1 h2 [Hd Hn]. cbn. rewrite Hd, Hn. solve_agree.
Qed.

Lemma oblivious_read_dict (l : loc) :
  oblivious (on_heap (read_dict l) : M (Sc * heap) (pydict hval)).
Proof.
  intros sc h1 h2 [Hd Hn]. cbn. rewrite Hd. solve_agree.
Qed.

Lemma oblivious_get_header (source : string) : oblivious (_get_header source).
Proof.
  unfold _get_header.
  repeat first [ apply oblivious_bind; [|intros ?]
               | apply oblivious_on_scope
               | apply oblivious_lift_result
               | apply oblivious_new_dict ].
Qed.

Lemma oblivious_select_source lb ub (source : string) :
  oblivious (select_source lb ub source).
Proof.
  unfold select_source.
  repeat first [ apply oblivious_get_header
               | apply oblivious_bind; [|intros ?]
               | apply oblivious_on_scope
               | apply oblivious_ret ].
Qed.

Lemma oblivious_decode_source (source : string) (header : loc) :
  oblivious (decode_source source header).
Proof.
  unfold decode_source, binary_samples.
  apply oblivious_bind; [apply oblivious_read_dict | intros hd].
  apply oblivious_bind; [apply oblivious_lift_result | intros [[y_mult y_offset] y_zero]].
  apply oblivious_bind; [apply oblivious_lift_result | intros encdg].
  apply oblivious_bind; [|intros ?; apply oblivious_ret].
  destruct (hval_is encdg "ASCII"); [|destruct (hval_is encdg "BINARY")];
    repeat first [ apply oblivious_bind; [|intros ?]
                 | apply oblivious_on_scope
                 | apply oblivious_lift_result
                 | apply oblivious_ret ].
Qed.

Lemma oblivious_body lb ub (source : string) :
  oblivious (_get_data_visa_body lb ub source).
Proof.
  unfold _get_data_visa_body.
  apply oblivious_bind; [apply oblivious_select_source | intros [header answer]].
  apply oblivious_bind; [apply oblivious_lift_result | intros c].
  destruct (Ascii.eqb c "0"); [apply oblivious_ret | apply oblivious_decode_source].
Qed.

Lemma oblivious_generator (sources : list string) lb ub :
  oblivious (_get_data_visa sources lb ub).
Proof.
  induction sources as [|source rest IH]; cbn [_get_data_visa]; [apply oblivious_ret|].
  apply oblivious_bind; [apply oblivious_body | intros [name ret_val header|]].
  - apply oblivious_bind; [apply IH | intros ?; apply oblivious_ret].
  - apply oblivious_ret.
Qed.

End Oblivious.

(** ** The loop of [get_data_visa] *)

Section LoopFacts.

Import Oscilloscope.

Context {Sc : Type} `{Instrument Sc}.

(** The two assignments of the loop body. *)
Lemma store_run (wf : loc) (ch_name : string) (ch_data : list float) (ch_header : loc)
    (sc : Sc) (h : heap) :
  exists h1,
    (on_heap (WaveformCollection.__setitem__ wf ch_name (PyList ch_data)) ≫= fun _ =>
     on_heap (WaveformCollection.__setitem__ wf "header" (PyDictRef ch_header))) (sc, h)
      = Ok (tt, (sc, h1)) /\
    same_dicts h1 h /\ next_obj h1 = next_obj h /\
    objs h1 wf = store_triple (objs h wf) (ch_name, ch_data, ch_header) /\
    (forall l, l <> wf -> objs h1 l = objs h l).
Proof.
  unfold store_triple. destruct (String.eqb_spec ch_name "header") as [->|Hne].
  - eexists. split.
    + erewrite bind_ok; [|cbn [on_heap]; rewrite setitem_header_run; reflexivity].
      cbn [on_heap]. rewrite setitem_header_run. reflexivity.
    + cbn. split_and!; try done.
      * by rewrite !fn_lookup_insert.
      * intros l Hl. by rewrite !fn_lookup_insert_ne.
  - eexists. split.
    + erewrite bind_ok; [|cbn [on_heap]; rewrite setitem_channel_run by done; reflexivity].
      cbn [on_heap]. rewrite setitem_header_run. reflexivity.
    + cbn. split_and!; try done.
      * by rewrite !fn_lookup_insert.
      * intros l Hl. by rewrite !fn_lookup_insert_ne.
Qed.

(** The loop consumes the triples the generator yields: it leaves the
    session and the dictionaries as the generator alone does, and applies
    the two assignments to the collection for each triple in turn. *)
Lemma loop_consumes (wf : loc) (channels : list string) :
  forall (sc sc' : Sc) (h h' : heap) triples,
    _get_data_visa channels None None (sc, h) = Ok (triples, (sc', h')) ->
    exists h'',
      get_data_visa_loop wf channels (sc, h) = Ok (tt, (sc', h'')) /\
      same_dicts h'' h' /\ next_obj h'' = next_obj h /\
      objs h'' wf = fold_left store_triple triples (objs h wf) /\
      (forall l, l <> wf -> objs h'' l = objs h l).
Proof.
  induction channels as [|source rest IH]; intros sc sc' h h' triples Hgen.
  - cbn in Hgen. injection Hgen as <- <- <-. exists h. by repeat split.
  - cbn [_get_data_visa] in Hgen.
    apply bind_inv in Hgen as (r & [sc1 h1] & Hbody & Hrest).
    pose proof (oblivious_body None None source sc h h (conj eq_refl eq_refl)) as Hkeep.
    unfold agree in Hkeep. rewrite Hbody in Hkeep.
    destruct Hkeep as (_ & _ & _ & [Ho1 Hn1] & _).
    destruct r as [name ret_val header|].
    + apply bind_inv in Hrest as (more & [sc2 h2] & Hmore & Hret).
      cbn in Hret. injection Hret as <- <- <-.
      destruct (store_run wf name ret_val header sc1 h1)
        as (h1s & Hstore & Hd1 & Hn1s & Hwf1 & Hframe1).
      pose proof (oblivious_generator rest None None sc1 h1s h1 Hd1) as Hagree.
      unfold agree in Hagree. rewrite Hmore in Hagree.
      destruct (_get_data_visa rest None None (sc1, h1s)) as [[more' [sc2' h2s]]|] eqn:Hmore'; [|done].
      destruct Hagree as (-> & -> & Hd2 & _ & _).
      destruct (IH sc1 sc2 h1s h2s more Hmore')
        as (h'' & Hloop & Hd'' & Hn'' & Hwf'' & Hframe'').
      exists h''. split_and!.
      * cbn [get_data_visa_loop]. erewrite bind_ok by exact Hbody. cbn beta iota.
        unfold mbind in Hstore. unfold M_bind in Hstore.
        unfold mbind at 1, M_bind at 1.
        destruct (on_heap (WaveformCollection.__setitem__ wf name (PyList ret_val)) (sc1, h1))
          as [[[] st]|]; [|done].
        unfold mbind at 1, M_bind at 1. rewrite Hstore. exact Hloop.
      * unfold same_dicts in *. intuition congruence.
      * congruence.
      * rewrite Hwf'', Hwf1, Ho1. reflexivity.
      * intros l Hl. rewrite Hframe'', Hframe1, Ho1 by done. reflexivity.
    + cbn in Hrest. injection Hrest as <- <- <-. exists h1. split_and!.
      * cbn [get_data_visa_loop]. erewrite bind_ok by exact Hbody. reflexivity.
      * done.
      * done.
      * by rewrite Ho1.
      * intros l _. by rewrite Ho1.
Qed.

End LoopFacts.

(** ** What the collection holds after the loop *)

Section StoreFacts.

Implicit Types (w : WaveformCollection) (triples : list (string * list float * loc)).

Lemma store_fold_idn triples : forall w, idn (fold_left store_triple triples w) = idn w.
Proof.
  induction triples as [|[[n s] hd] rest IH]; intros w; [done|].
  cbn [fold_left]. rewrite IH. unfold store_triple. by destruct (String.eqb n "header").
Qed.

Lemma store_fold_header triples w n s hd :
  last triples = Some (n, s, hd) ->
  _header (fold_left store_triple triples w) = PyDictRef hd.
Proof.
  intros Hlast. apply last_Some in Hlast as [init ->].
  rewrite fold_left_app. reflexivity.
Qed.

Lemma store_fold_data (name : string) triples : forall w,
  name <> "header" ->
  dict_get name (_data (fold_left store_triple triples w))
  = match last_samples name triples with
    | Some samples => Some (PyList samples)
    | None => dict_get name (_data w)
    end.
Proof.
  induction triples as [|[[n s] hd] rest IH]; intros w Hname; [done|].
  cbn [fold_left last_samples]. rewrite IH by done.
  destruct (last_samples name rest); [done|].
  unfold store_triple. destruct (String.eqb_spec n "header") as [->|Hn]; cbn [_data].
  - destruct (String.eqb_spec "header" name); [congruence | done].
  - rewrite dict_get_set. by destruct (String.eqb n name).
Qed.

Lemma store_fold_no_header triples : forall w,
  dict_get "header" (_data (fold_left store_triple triples w)) = dict_get "header" (_data w).
Proof.
  induction triples as [|[[n s] hd] rest IH]; intros w; [done|].
  cbn [fold_left]. rewrite IH.
  unfold store_triple. destruct (String.eqb_spec n "header") as [->|Hn]; cbn [_data]; [done|].
  rewrite dict_get_set. by destruct (String.eqb_spec n "header").
Qed.

End StoreFacts.

Section OrchestratorClaims.

Import Oscilloscope.

Lemma started_obj (answer : string) (h : heap) :
  objs (started answer h) (next_obj h)
  = mkWaveformCollection answer [] (PyDictRef (next_dict h)).
Proof.
  unfold started, WaveformCollection.__init__, WaveformCollection.set_idn,
    new_dict, new_obj, read_obj, write_obj, mbind, M_bind.
  cbn [objs dicts next_obj next_dict]. by rewrite !fn_lookup_insert.
Qed.

(** [get_data_visa] in terms of the triples the generator yields from the
    state in which the loop starts. *)
Lemma get_data_visa_run {Sc : Type} `{Instrument Sc} (channels : list string)
    (sc sc1 sc' : Sc) (h h' : heap) (answer : string) triples :
  query "*IDN?" sc = Ok (answer, sc1) ->
  _get_data_visa channels None None (sc1, started answer h) = Ok (triples, (sc', h')) ->
  exists h'',
    get_data_visa channels (sc, h) = Ok (next_obj h, (sc', h'')) /\
    same_dicts h'' h' /\
    objs h'' (next_obj h)
    = fold_left store_triple triples
                (mkWaveformCollection answer [] (PyDictRef (next_dict h))).
Proof.
  intros Hq Hgen.
  destruct (loop_consumes (next_obj h) channels sc1 sc' (started answer h) h' triples Hgen)
    as (h'' & Hloop & Hd & _ & Hwf & _).
  assert (Hstart : objs (started answer h) (next_obj h)
                   = mkWaveformCollection answer [] (PyDictRef (next_dict h))).
  { apply started_obj. }
  destruct channels as [|source rest].
  - cbn in Hgen. injection Hgen as <- <- <-.
    exists (started answer h). split_and!; [|done|done].
    unfold get_data_visa. erewrite bind_ok by reflexivity.
    erewrite bind_ok by (by apply on_scope_ok).
    erewrite bind_ok by reflexivity. reflexivity.
  - exists h''. split_and!; [|done|by rewrite Hwf, Hstart].
    unfold get_data_visa. erewrite bind_ok by reflexivity.
    erewrite bind_ok by (by apply on_scope_ok).
    erewrite bind_ok by reflexivity.
    erewrite bind_ok by exact Hloop. reflexivity.
Qed.

(** C3: a turn for a channel that the instrument reports off ends the
    generator: nothing is yielded for that channel, neither an empty sample
    sequence nor its header, and the sources after it are not read. On the
    instrument [scope0], where CH3 is off, the generator run on CH3 then CH1
    yields nothing, although CH1 alone yields its three samples, and the
    collection that [get_data_visa] returns has no source and an empty
    header. *)
Theorem C3_disabled_channel_ends_the_generator :
  (forall (Sc : Type) (I : Instrument Sc) lb ub (source : string) (rest : list string)
          (st st1 : Sc * heap) (header : loc) (answer : string),
     select_source lb ub source st = Ok ((header, answer), st1) ->
     first_char answer = Ok "0"%char ->
     _get_data_visa (source :: rest) lb ub st = Ok ([], st1)) /\
  yielded (_get_data_visa ["CH3"; "CH1"] None None (Bench.scope0, Bench.empty_heap)) = Some [] /\
  returned (get_data_visa ["CH3"; "CH1"] (Bench.scope0, Bench.empty_heap))
    = Some ("TEKTRONIX,MDO3024", [], Some []) /\
  yielded (_get_data_visa ["CH1"] None None (Bench.scope0, Bench.empty_heap))
    = Some [("CH1", map float_of_int [1; 21; 41], Bench.ascii_header)] /\
  returned (get_data_visa ["CH1"; "CH3"] (Bench.scope0, Bench.empty_heap))
    = Some ("TEKTRONIX,MDO3024", [("CH1", PyList (map float_of_int [1; 21; 41]))],
            Some Bench.ascii_header).
Proof.
  split_and!; [|vm_compute; reflexivity..].
  intros Sc I lb ub source rest st st1 header answer Hsel Hc.
  cbn [_get_data_visa]. erewrite bind_ok by (by eapply body_off). reflexivity.
Qed.

(** C9, as stated, fails: for the channel list ["header"] the generator
    yields the triple of the channel, and the collection returned holds no
    entry for it, because [__setitem__] stores what is assigned under
    "header" in the header slot. *)
Lemma C9_counterexample :
  yielded (_get_data_visa ["header"] None None (Bench.scope0, Bench.empty_heap))
    = Some [("header", map float_of_int [1; 21; 41], Bench.ascii_header)] /\
  returned (get_data_visa ["header"] (Bench.scope0, Bench.empty_heap))
    = Some ("TEKTRONIX,MDO3024", [], Some Bench.ascii_header).
Proof. split_and!; vm_compute; reflexivity. Qed.

(** C9, amended: [get_data_visa] applies the two assignments of its loop to
    every triple the generator yields, in order. When at least one triple is
    yielded, the header of the collection returned is the header of the last
    triple; every yielded channel name other than "header" is in the channel
    map with the samples of its last triple, a name that was not yielded is
    not, and "header" never is. *)
Theorem C9_header_of_last_triple_amended (Sc : Type) (I : Instrument Sc)
    (channels : list string) (sc sc1 sc' : Sc) (h h' : heap) (answer : string)
    (triples : list (string * list float * loc))
    (name : string) (samples : list float) (header : loc) :
  query "*IDN?" sc = Ok (answer, sc1) ->
  _get_data_visa channels None None (sc1, started answer h) = Ok (triples, (sc', h')) ->
  last triples = Some (name, samples, header) ->
  exists data,
    returned (get_data_visa channels (sc, h)) = Some (answer, data, Some (dicts h' header)) /\
    (forall n, n <> "header" -> dict_get n data = PyList <$> last_samples n triples) /\
    dict_get "header" data = None.
Proof.
  intros Hq Hgen Hlast.
  destruct (get_data_visa_run channels sc sc1 sc' h h' answer triples Hq Hgen)
    as (h'' & Hrun & [Hd _] & Hwf).
  exists (_data (objs h'' (next_obj h))). split_and!.
  - rewrite Hrun. unfold returned. rewrite Hwf at 1 3.
    rewrite store_fold_idn, (store_fold_header _ _ _ _ _ Hlast). cbn [idn]. by rewrite Hd.
  - intros n Hn. rewrite Hwf, store_fold_data by done. cbn [_data dict_get].
    by destruct (last_samples n triples).
  - by rewrite Hwf, store_fold_no_header.
Qed.

Lemma C9_witness :
  exists data,
    returned (get_data_visa ["CH1"; "CH2"] (Bench.scope0, Bench.empty_heap))
    = Some ("TEKTRONIX,MDO3024", data,
            Some (dicts (final_heap (_get_data_visa ["CH1"; "CH2"] None None
                                       (Bench.scope0, started "TEKTRONIX,MDO3024" Bench.empty_heap))
                                    Bench.empty_heap) 2%nat)) /\
    (forall n, n <> "header" ->
       dict_get n data
       = PyList <$> last_samples n [("CH1", map float_of_int [1; 21; 41], 1%nat);
                                    ("CH2", map float_of_int [1; 2], 2%nat)]) /\
    dict_get "header" data = None.
Proof.
  apply (C9_header_of_last_triple_amended Bench.bench _ ["CH1"; "CH2"]
           Bench.scope0 Bench.scope0 (Bench.selected_scope "CH2") Bench.empty_heap
           (final_heap (_get_data_visa ["CH1"; "CH2"] None None
                          (Bench.scope0, started "TEKTRONIX,MDO3024" Bench.empty_heap))
                       Bench.empty_heap)
           "TEKTRONIX,MDO3024"
           [("CH1", map float_of_int [1; 21; 41], 1%nat);
            ("CH2", map float_of_int [1; 2], 2%nat)]
           "CH2" (map float_of_int [1; 2]) 2%nat);
    vm_compute; reflexivity.
Defined.

End OrchestratorClaims.

(** * Further properties of the code *)

(** ** class WaveformCollection *)

Section CollectionFacts.

Import WaveformCollection.

(** X1: assigning a channel and reading it back. For a key other than
    "header", [wf[key] = value] makes [wf[key]] return [value]; the other
    channels, the header slot, the [idn] and every other object are as
    before, and [key] keeps its place among the sources or is appended. *)
Theorem setitem_getitem_round_trip (self : loc) (key : string) (value : pyval) (h : heap) :
  key <> "header" ->
  exists h',
    __setitem__ self key value h = Ok (tt, h') /\
    __getitem__ self key h' = Ok (value, h') /\
    (forall k, k <> key -> __getitem__ self k h' = 
                           match __getitem__ self k h with
                           | Ok (v, _) => Ok (v, h')
                           | Raise e => Raise e
                           end) /\
    sources self h' = Ok ((if decide (key ∈ dict_keys (_data (objs h self)))
                           then dict_keys (_data (objs h self))
                           else dict_keys (_data (objs h self)) ++ [key]), h') /\
    _header (objs h' self) = _header (objs h self) /\
    idn (objs h' self) = idn (objs h self) /\
    (forall l, l <> self -> objs h' l = objs h l) /\
    dicts h' = dicts h.
Proof.
  intros Hkey. eexists. split; [by apply setitem_channel_run|].
  split_and!.
  - rewrite getitem_run. cbn [objs]. rewrite fn_lookup_insert. cbn [_data].
    by rewrite dict_get_set, String.eqb_refl.
  - intros k Hk. rewrite !getitem_run. cbn [objs]. rewrite fn_lookup_insert. cbn [_data].
    rewrite dict_get_set. destruct (String.eqb_spec key k); [congruence|].
    by destruct (dict_get k _).
  - unfold sources, read_obj, mbind, M_bind, mret, M_ret. cbn [objs].
    rewrite fn_lookup_insert. cbn [_data]. by rewrite dict_keys_set.
  - cbn [objs]. by rewrite fn_lookup_insert.
  - cbn [objs]. by rewrite fn_lookup_insert.
  - intros l Hl. cbn [objs]. by rewrite fn_lookup_insert_ne.
  - done.
Qed.

Lemma setitem_getitem_round_trip_witness :
  exists h',
    __setitem__ 0%nat "CH2" (PyList [float_of_int 7]) Bench.two_channels = Ok (tt, h') /\
    __getitem__ 0%nat "CH2" h' = Ok (PyList [float_of_int 7], h') /\
    (forall k, k <> "CH2" -> __getitem__ 0%nat k h' = 
                           match __getitem__ 0%nat k Bench.two_channels with
                           | Ok (v, _) => Ok (v, h')
                           | Raise e => Raise e
                           end) /\
    sources 0%nat h' = Ok ((if decide ("CH2" ∈ dict_keys (_data (objs Bench.two_channels 0%nat)))
                           then dict_keys (_data (objs Bench.two_channels 0%nat))
                           else dict_keys (_data (objs Bench.two_channels 0%nat)) ++ ["CH2"]), h') /\
    _header (objs h' 0%nat) = _header (objs Bench.two_channels 0%nat) /\
    idn (objs h' 0%nat) = idn (objs Bench.two_channels 0%nat) /\
    (forall l, l <> 0%nat -> objs h' l = objs Bench.two_channels l) /\
    dicts h' = dicts Bench.two_channels.
Proof.
  apply (setitem_getitem_round_trip 0%nat "CH2" (PyList [float_of_int 7]) Bench.two_channels).
  vm_compute; congruence.
Defined.

(** X2: the key "header" is not a channel. On a collection that the class
    built, [wf["header"] = value] makes [wf.header()] return [value] and
    leaves the sources as they are, and [wf["header"]] raises [KeyError]:
    what is assigned under "header" cannot be read back by subscript. *)
Theorem header_is_not_a_channel (self : loc) (value : pyval) (h : heap) :
  "header" ∉ dict_keys (_data (objs h self)) ->
  exists h',
    __setitem__ self "header" value h = Ok (tt, h') /\
    header self h' = Ok (value, h') /\
    __getitem__ self "header" h' = Raise (KeyError "header") /\
    sources self h' = Ok (dict_keys (_data (objs h self)), h') /\
    (forall l, l <> self -> objs h' l = objs h l) /\
    dicts h' = dicts h.
Proof.
  intros Hno. eexists. split; [apply setitem_header_run|]. split_and!.
  - unfold header, read_obj, mbind, M_bind, mret, M_ret. cbn [objs].
    by rewrite fn_lookup_insert.
  - rewrite getitem_run. cbn [objs]. rewrite fn_lookup_insert. cbn [_data].
    apply dict_get_None in Hno. by rewrite Hno.
  - unfold sources, read_obj, mbind, M_bind, mret, M_ret. cbn [objs].
    by rewrite fn_lookup_insert.
  - intros l Hl. cbn [objs]. by rewrite fn_lookup_insert_ne.
  - done.
Qed.

Lemma header_is_not_a_channel_witness :
  exists h',
    __setitem__ 0%nat "header" (PyList []) Bench.two_channels = Ok (tt, h') /\
    header 0%nat h' = Ok (PyList [], h') /\
    __getitem__ 0%nat "header" h' = Raise (KeyError "header") /\
    sources 0%nat h' = Ok (dict_keys (_data (objs Bench.two_channels 0%nat)), h') /\
    (forall l, l <> 0%nat -> objs h' l = objs Bench.two_channels l) /\
    dicts h' = dicts Bench.two_channels.
Proof.
  apply (header_is_not_a_channel 0%nat (PyList []) Bench.two_channels). compute_done.
Defined.


Lemma assign_all_run (self : loc) (items : list (string * pyval)) : forall h,
  exists h',
    assign_all self items h = Ok (tt, h') /\
    objs h' self = fold_left assign items (objs h self) /\
    (forall l, l <> self -> objs h' l = objs h l) /\
    dicts h' = dicts h /\ next_obj h' = next_obj h /\ next_dict h' = next_dict h.
Proof.
  induction items as [|[k v] items IH]; intros h.
  - exists h. by split_and!.
  - set (h1 := mkHeap (<[self := assign (objs h self) (k, v)]> (objs h))
                      (dicts h) (next_obj h) (next_dict h)).
    assert (Hstep : __setitem__ self k v h = Ok (tt, h1)).
    { unfold h1, assign. cbn [fst snd].
      destruct (String.eqb_spec k "header") as [->|Hk];
        [apply setitem_header_run | by apply setitem_channel_run]. }
    destruct (IH h1) as (h' & Hrun & Hself & Hframe & Hd & Hno & Hnd).
    exists h'. split_and!; try done.
    + unfold assign_all in *. cbn [for_each fst snd]. by erewrite bind_ok by exact Hstep.
    + rewrite Hself. unfold h1. cbn [objs fold_left]. by rewrite fn_lookup_insert.
    + intros l Hl. rewrite Hframe by done. unfold h1. cbn [objs].
      by rewrite fn_lookup_insert_ne.
Qed.

Lemma assign_fold_idn (items : list (string * pyval)) : forall w,
  idn (fold_left assign items w) = idn w.
Proof.
  induction items as [|[k v] items IH]; intros w; [done|].
  cbn [fold_left]. rewrite IH. unfold assign. cbn [fst snd]. by destruct (String.eqb k "header").
Qed.

Lemma assign_fold_wf (items : list (string * pyval)) : forall w,
  dict_wf (_data w) -> "header" ∉ dict_keys (_data w) ->
  dict_wf (_data (fold_left assign items w)) /\
  "header" ∉ dict_keys (_data (fold_left assign items w)).
Proof.
  induction items as [|[k v] items IH]; intros w Hwf Hno; [done|].
  cbn [fold_left]. apply IH; unfold assign; cbn [fst snd];
    destruct (String.eqb_spec k "header") as [->|Hk]; cbn [_data]; try done.
  - by apply dict_wf_set.
  - rewrite dict_keys_set. case_decide; [done|].
    rewrite not_elem_of_app, list_elem_of_singleton. split; [done | congruence].
Qed.

Lemma assign_fold_data (key : string) (items : list (string * pyval)) : forall w,
  key <> "header" ->
  dict_get key (_data (fold_left assign items w))
  = match last_assigned key items with
    | Some v => Some v
    | None => dict_get key (_data w)
    end.
Proof.
  induction items as [|[k v] items IH]; intros w Hkey; [done|].
  cbn [fold_left last_assigned]. rewrite IH by done.
  destruct (last_assigned key items); [done|].
  unfold assign. cbn [fst snd]. destruct (String.eqb_spec k "header") as [->|Hk]; cbn [_data].
  - destruct (String.eqb_spec "header" key); [congruence | done].
  - rewrite dict_get_set. by destruct (String.eqb k key).
Qed.

Lemma assign_fold_header (items : list (string * pyval)) : forall w,
  _header (fold_left assign items w)
  = match last_assigned "header" items with
    | Some v => v
    | None => _header w
    end.
Proof.
  induction items as [|[k v] items IH]; intros w; [done|].
  cbn [fold_left last_assigned]. rewrite IH.
  destruct (last_assigned "header" items); [done|].
  unfold assign. cbn [fst snd]. by destruct (String.eqb k "header").
Qed.

(** X4: the invariant of the class. A collection made by the constructor
    and any sequence of assignments [wf[key] = value] has an empty [idn],
    sources without repetition and without "header", under every other key
    the value assigned last, and in the header slot the value assigned last
    under "header" or else the dictionary the constructor made. *)
Theorem assignments_keep_the_invariant (items : list (string * pyval)) (h : heap) :
  exists h',
    (wf ← __init__; assign_all wf items;; mret wf) h = Ok (next_obj h, h') /\
    idn (objs h' (next_obj h)) = "" /\
    NoDup (dict_keys (_data (objs h' (next_obj h)))) /\
    ("header" ∉ dict_keys (_data (objs h' (next_obj h)))) /\
    (forall key, key <> "header" ->
       dict_get key (_data (objs h' (next_obj h))) = last_assigned key items) /\
    _header (objs h' (next_obj h))
      = default (PyDictRef (next_dict h)) (last_assigned "header" items) /\
    (forall l, l <> next_obj h -> objs h' l = objs h l).
Proof.
  set (h0 := mkHeap (<[next_obj h := mkWaveformCollection "" [] (PyDictRef (next_dict h))]> (objs h))
                    (<[next_dict h := []]> (dicts h)) (S (next_obj h)) (S (next_dict h))).
  destruct (assign_all_run (next_obj h) items h0) as (h' & Hrun & Hself & Hframe & _).
  assert (Hw0 : objs h0 (next_obj h) = mkWaveformCollection "" [] (PyDictRef (next_dict h))).
  { unfold h0. cbn [objs]. by rewrite fn_lookup_insert. }
  rewrite Hw0 in Hself.
  destruct (assign_fold_wf items (mkWaveformCollection "" [] (PyDictRef (next_dict h))))
    as [Hwf Hno]; [apply NoDup_nil_2 | apply not_elem_of_nil |].
  exists h'. split_and!.
  - erewrite (bind_ok _ _ h (next_obj h) h0) by reflexivity.
    by erewrite bind_ok by exact Hrun.
  - by rewrite Hself, assign_fold_idn.
  - by rewrite Hself.
  - by rewrite Hself.
  - intros key Hkey. rewrite Hself, assign_fold_data by done.
    by destruct (last_assigned key items).
  - rewrite Hself, assign_fold_header. by destruct (last_assigned "header" items).
  - intros l Hl. rewrite Hframe by done. unfold h0. cbn [objs]. by rewrite fn_lookup_insert_ne.
Qed.

(** X5: [len(wf)] counts the sources: an assignment under a new key other
    than "header" adds one, an assignment under a present key or under
    "header" adds nothing. *)
Theorem len_after_setitem (self : loc) (key : string) (value : pyval) (h : heap) :
  exists h' names,
    sources self h = Ok (names, h) /\
    __len__ self h = Ok (length names, h) /\
    __setitem__ self key value h = Ok (tt, h') /\
    __len__ self h'
    = Ok ((if decide (key = "header" \/ key ∈ names) then length names else S (length names)),
          h').
Proof.
  destruct (String.eqb_spec key "header") as [->|Hkey].
  - eexists _, _. split_and!; [done | done | apply setitem_header_run |].
    rewrite decide_True by (by left).
    unfold __len__, read_obj, mbind, M_bind, mret, M_ret. cbn [objs].
    by rewrite fn_lookup_insert.
  - eexists _, _. split_and!; [done | done | by apply setitem_channel_run |].
    unfold __len__, read_obj, mbind, M_bind, mret, M_ret. cbn [objs].
    rewrite fn_lookup_insert. cbn [_data]. rewrite dict_keys_set.
    destruct (decide (key ∈ dict_keys (_data (objs h self)))) as [Hin|Hin].
    + by rewrite decide_True by (by right).
    + rewrite decide_False by tauto. rewrite length_app.
      replace (length (dict_keys (_data (objs h self))) + length [key])%nat
        with (S (length (dict_keys (_data (objs h self))))) by (cbn; lia).
      done.
Qed.

End CollectionFacts.

(** ** Merging, continued *)

Section MergeMore.

Import WaveformCollection.

(** The whole effect of a merge on the store. *)
Lemma add_effect (h : heap) (a b ha hb : loc) :
  collection_wf h a ha -> collection_wf h b hb ->
  idn (objs h a) = idn (objs h b) ->
  exists h',
    __add__ a b h = Ok (a, h') /\
    objs h' a = merged (objs h a) (objs h b) /\
    dicts h' ha = dict_update (dicts h ha) (dicts h hb) /\
    objs h' b = objs h b /\ dicts h' hb = dicts h hb /\
    (forall l, l <> a -> objs h' l = objs h l) /\
    (forall l, l <> ha -> dicts h' l = dicts h l) /\
    next_obj h' = next_obj h /\ next_dict h' = next_dict h.
Proof.
  intros Ha Hb Hidn.
  destruct (add_observed h a b ha hb Ha Hb Hidn)
    as (h' & Hrun & Hobj & Hframe & Hdict & Hdframe & Hno & Hnd).
  exists h'. split_and!; try done.
  - destruct (decide (b = a)) as [->|Hne]; [|by apply Hframe].
    rewrite Hobj. apply merged_self. by destruct Ha.
  - destruct (decide (hb = ha)) as [->|Hne]; [|by apply Hdframe].
    rewrite Hdict. apply dict_update_self. by destruct Ha as (_ & _ & _ & ?).
Qed.

Lemma dict_update_twice {V} (d o : pydict V) :
  dict_wf o -> dict_update (dict_update d o) o = dict_update d o.
Proof.
  intros Hwf. apply dict_update_same. intros k v Hin.
  rewrite dict_get_update by done. by rewrite (dict_get_elem_of k v o).
Qed.




(** X6: merging a collection with itself changes nothing: [a + a] returns
    [a] and every object of the store is as before. *)
Theorem merge_with_itself_changes_nothing (h : heap) (a ha : loc) :
  collection_wf h a ha ->
  exists h',
    __add__ a a h = Ok (a, h') /\
    (forall l, objs h' l = objs h l) /\
    (forall l, dicts h' l = dicts h l) /\
    next_obj h' = next_obj h /\ next_dict h' = next_dict h.
Proof.
  intros Ha.
  destruct (add_effect h a a ha ha Ha Ha eq_refl)
    as (h' & Hrun & _ & _ & Hobj & Hdict & Hframe & Hdframe & Hno & Hnd).
  exists h'. split_and!; try done.
  - intros l. destruct (decide (l = a)) as [->|Hl]; [done | by apply Hframe].
  - intros l. destruct (decide (l = ha)) as [->|Hl]; [done | by apply Hdframe].
Qed.

Lemma merge_with_itself_changes_nothing_witness :
  exists h',
    __add__ 0%nat 0%nat Bench.two_channels = Ok (0%nat, h') /\
    (forall l, objs h' l = objs Bench.two_channels l) /\
    (forall l, dicts h' l = dicts Bench.two_channels l) /\
    next_obj h' = next_obj Bench.two_channels /\ next_dict h' = next_dict Bench.two_channels.
Proof.
  apply (merge_with_itself_changes_nothing Bench.two_channels 0%nat 1%nat).
  unfold collection_wf, dict_wf. repeat split; compute_done.
Defined.

(** X7: merging the same collection a second time changes nothing: after
    [a + b], another [a + b] leaves every object as the first merge left
    it. *)
Theorem merging_twice_is_merging_once (h : heap) (a b ha hb : loc) :
  collection_wf h a ha -> collection_wf h b hb ->
  idn (objs h a) = idn (objs h b) ->
  exists h1 h2,
    __add__ a b h = Ok (a, h1) /\ __add__ a b h1 = Ok (a, h2) /\
    (forall l, objs h2 l = objs h1 l) /\
    (forall l, dicts h2 l = dicts h1 l).
Proof.
  intros Ha Hb Hidn.
  destruct (add_effect h a b ha hb Ha Hb Hidn)
    as (h1 & Hrun1 & Hobj1 & Hdict1 & Hb1 & Hhb1 & _).
  assert (Ha1 : collection_wf h1 a ha) by (eapply merged_wf; [exact Ha | exact Hb | done | done]).
  assert (Hb1' : collection_wf h1 b hb).
  { unfold collection_wf. rewrite Hb1, Hhb1. exact Hb. }
  assert (Hidn1 : idn (objs h1 a) = idn (objs h1 b)).
  { rewrite Hobj1, Hb1. cbn. exact Hidn. }
  destruct (add_effect h1 a b ha hb Ha1 Hb1' Hidn1)
    as (h2 & Hrun2 & Hobj2 & Hdict2 & _ & _ & Hframe2 & Hdframe2 & _).
  destruct Hb as (Hdb & _ & _ & Hwb).
  exists h1, h2. split_and!; try done.
  - intros l. destruct (decide (l = a)) as [->|Hl]; [|by apply Hframe2].
    rewrite Hobj2, Hb1, Hobj1. unfold merged. cbn [idn _data _header].
    by rewrite dict_update_twice.
  - intros l. destruct (decide (l = ha)) as [->|Hl]; [|by apply Hdframe2].
    rewrite Hdict2, Hhb1, Hdict1. by apply dict_update_twice.
Qed.

Lemma merging_twice_is_merging_once_witness :
  exists h1 h2,
    __add__ 0%nat 1%nat Bench.same_channel = Ok (0%nat, h1) /\
    __add__ 0%nat 1%nat h1 = Ok (0%nat, h2) /\
    (forall l, objs h2 l = objs h1 l) /\
    (forall l, dicts h2 l = dicts h1 l).
Proof.
  apply (merging_twice_is_merging_once Bench.same_channel 0%nat 1%nat 1%nat 3%nat);
    unfold collection_wf, dict_wf; repeat split; compute_done.
Defined.

(** X8: the size of a merge. [len(a + b)] is [len(a)] plus the number of
    sources of [b] that [a] lacks; it is at least the larger and at most the
    sum of the two sizes. *)
Theorem len_of_a_merge (h : heap) (a b ha hb : loc) :
  collection_wf h a ha -> collection_wf h b hb ->
  idn (objs h a) = idn (objs h b) ->
  exists h' n na nb,
    __len__ a h = Ok (na, h) /\ __len__ b h = Ok (nb, h) /\
    __add__ a b h = Ok (a, h') /\ __len__ a h' = Ok (n, h') /\
    n = (na + length (filter (fun name => name ∉ dict_keys (_data (objs h a)))
                             (dict_keys (_data (objs h b)))))%nat /\
    (na <= n)%nat /\ (nb <= n)%nat /\ (n <= na + nb)%nat.
Proof.
  intros Ha Hb Hidn.
  destruct (add_effect h a b ha hb Ha Hb Hidn) as (h' & Hrun & Hobj & _).
  destruct Hb as (Hdb & _).
  assert (Hkeys : dict_keys (_data (objs h' a))
                  = dict_keys (_data (objs h a)) ++
                    filter (fun name => name ∉ dict_keys (_data (objs h a)))
                           (dict_keys (_data (objs h b)))).
  { rewrite Hobj. unfold merged. cbn [_data]. by apply dict_keys_update. }
  eexists h', _, _, _. split_and!; [done | done | done | done | | | |].
  - rewrite Hkeys. by rewrite length_app.
  - rewrite Hkeys, length_app. lia.
  - apply submseteq_length, NoDup_submseteq; [done|].
    intros k Hk. rewrite Hobj. unfold merged. cbn [_data].
    apply dict_keys_update_elem; [done | by right].
  - rewrite Hkeys, length_app.
    pose proof (length_filter (fun name => name ∉ dict_keys (_data (objs h a)))
                              (dict_keys (_data (objs h b)))). lia.
Qed.

Lemma len_of_a_merge_witness :
  exists h' n na nb,
    __len__ 0%nat Bench.three_collections = Ok (na, Bench.three_collections) /\
    __len__ 1%nat Bench.three_collections = Ok (nb, Bench.three_collections) /\
    __add__ 0%nat 1%nat Bench.three_collections = Ok (0%nat, h') /\
    __len__ 0%nat h' = Ok (n, h') /\
    n = (na + length (filter (fun name => name ∉ dict_keys (_data (objs Bench.three_collections 0%nat)))
                             (dict_keys (_data (objs Bench.three_collections 1%nat)))))%nat /\
    (na <= n)%nat /\ (nb <= n)%nat /\ (n <= na + nb)%nat.
Proof.
  apply (len_of_a_merge Bench.three_collections 0%nat 1%nat 1%nat 3%nat);
    unfold collection_wf, dict_wf; repeat split; compute_done.
Defined.

(** X9: a merge keeps both operands as the class builds them: unique
    sources, none of them "header", and a dictionary in the header slot. *)
Theorem merge_keeps_the_invariant (h : heap) (a b ha hb : loc) :
  collection_wf h a ha -> collection_wf h b hb ->
  idn (objs h a) = idn (objs h b) ->
  exists h',
    __add__ a b h = Ok (a, h') /\ collection_wf h' a ha /\ collection_wf h' b hb.
Proof.
  intros Ha Hb Hidn.
  destruct (add_effect h a b ha hb Ha Hb Hidn)
    as (h' & Hrun & Hobj & Hdict & Hb' & Hhb' & _).
  exists h'. split_and!; [done | |].
  - eapply merged_wf; [exact Ha | exact Hb | done | done].
  - unfold collection_wf. rewrite Hb', Hhb'. exact Hb.
Qed.

Lemma merge_keeps_the_invariant_witness :
  exists h',
    __add__ 0%nat 1%nat Bench.same_channel = Ok (0%nat, h') /\
    collection_wf h' 0%nat 1%nat /\ collection_wf h' 1%nat 3%nat.
Proof.
  apply (merge_keeps_the_invariant Bench.same_channel 0%nat 1%nat 1%nat 3%nat);
    unfold collection_wf, dict_wf; repeat split; compute_done.
Defined.





End MergeMore.

(** ** Splitting strings *)

Section SplitFacts.

Lemma length_split (sep : ascii) (s : string) :
  length (split sep s) = S (count_char sep s).
Proof.
  induction s as [|c s IH]; [done|]. cbn [split count_char].
  destruct (Ascii.eqb c sep).
  - cbn. by rewrite IH.
  - destruct (split sep s); cbn in *; [done | lia].
Qed.

Lemma split_no_sep (sep : ascii) (s : string) :
  Forall (fun w => count_char sep w = O) (split sep s).
Proof.
  induction s as [|c s IH]; cbn [split]; [by repeat constructor|].
  destruct (Ascii.eqb c sep) eqn:E; [by constructor|].
  destruct (split sep s) as [|w ws]; [by repeat constructor; cbn; rewrite E|].
  apply Forall_cons in IH as [Hw Hws]. constructor; [|done]. cbn. by rewrite E.
Qed.

(** A string without the separator, the separator, and the rest. *)
Lemma split_app (sep : ascii) (w rest : string) :
  count_char sep w = O -> split sep (w +:+ String sep rest) = w :: split sep rest.
Proof.
  induction w as [|c w IH]; cbn [count_char]; intros Hw.
  - change ("" +:+ String sep rest) with (String sep rest). cbn [split].
    by rewrite Ascii.eqb_refl.
  - destruct (Ascii.eqb c sep) eqn:E; [done|].
    change (String c w +:+ String sep rest) with (String c (w +:+ String sep rest)).
    cbn [split]. rewrite E, IH by done. done.
Qed.

Lemma has_char_two_fields (sep : ascii) (s : string) :
  has_char sep s = true <-> exists k v rest, split sep s = k :: v :: rest.
Proof.
  unfold has_char. pose proof (length_split sep s) as Hlen.
  destruct (split sep s) as [|k [|v rest]]; cbn in Hlen.
  - lia.
  - assert (count_char sep s = O) as -> by lia. cbn. split; [done | by intros (?&?&?&?)].
  - destruct (count_char sep s); [lia|]. cbn. split; [by eexists _, _, _ | done].
Qed.

End SplitFacts.

(** ** Reading the header from the instrument *)

Section HeaderFacts.

Import Oscilloscope.

(** An exception of [header_items] is an [IndexError]. *)
Lemma header_items_raise (segments : list string) : forall d e,
  header_items segments d = Raise e -> e = IndexError.
Proof.
  induction segments as [|x rest IH]; intros d e; [done|]. cbn [header_items].
  unfold list_index. destruct (split " " x) as [|k [|v ws]]; cbn; try congruence.
  apply IH.
Qed.

Lemma header_items_ok (segments : list string) : forall d,
  Forall (fun x => has_char " " x = true) segments ->
  exists d', header_items segments d = Ok d'.
Proof.
  induction segments as [|x rest IH]; intros d Hall; [by eexists|].
  apply Forall_cons in Hall as [Hx Hall]. cbn [header_items].
  apply has_char_two_fields in Hx as (k & v & ws & ->). cbn. by apply IH.
Qed.

Lemma header_items_no_space (segments : list string) : forall d,
  ~ Forall (fun x => has_char " " x = true) segments ->
  header_items segments d = Raise IndexError.
Proof.
  induction segments as [|x rest IH]; intros d Hnot; [by destruct Hnot|].
  cbn [header_items]. destruct (has_char " " x) eqn:Hx.
  - pose proof Hx as Hx'. apply has_char_two_fields in Hx' as (k & v & ws & ->). cbn.
    apply IH. intros Hall. apply Hnot. by constructor.
  - destruct (split " " x) as [|k [|v ws]] eqn:Hs; cbn; try done.
    assert (has_char " " x = true); [|congruence].
    apply has_char_two_fields. by eexists _, _, _.
Qed.

Lemma header_items_lookup (key : string) (segments : list string) : forall d d',
  header_items segments d = Ok d' ->
  dict_get key d'
  = match header_value key segments with
    | Some v => Some (HStr v)
    | None => dict_get key d
    end.
Proof.
  induction segments as [|x rest IH]; intros d d'; cbn [header_items header_value].
  - by intros [= ->].
  - unfold list_index. destruct (split " " x) as [|k [|v ws]]; cbn; try done.
    intros Hrest. rewrite (IH _ _ Hrest). destruct (header_value key rest); [done|].
    rewrite dict_get_set. by destruct (String.eqb k key).
Qed.

Lemma header_items_wf (segments : list string) : forall d d',
  dict_wf d -> header_items segments d = Ok d' -> dict_wf d'.
Proof.
  induction segments as [|x rest IH]; intros d d' Hwf; cbn [header_items].
  - by intros [= <-].
  - unfold list_index. destruct (split " " x) as [|k [|v ws]]; cbn; try done.
    apply IH. by apply dict_wf_set.
Qed.

Context {Sc : Type} `{Instrument Sc}.

(** [_get_header] in terms of its conversation with the instrument. *)
Lemma get_header_run (source : string) (sc : Sc) (h : heap) :
  _get_header source (sc, h)
  = match ask_header source sc with
    | Ok (answer, sc') =>
        match header_items (split ";" (replace_first ":WFMOUTPRE:" "" answer)) [] with
        | Ok d => Ok (next_dict h, (sc', with_new_dict h d))
        | Raise e => Raise e
        end
    | Raise e => Raise e
    end.
Proof.
  unfold _get_header, ask_header, mbind, M_bind, on_scope, lift_result, on_heap, new_dict,
    with_new_dict, mret, M_ret.
  destruct (write ("data:source " +:+ source) sc) as [[[] s1]|]; [|done].
  destruct (write "verbose ON;header ON" s1) as [[[] s2]|]; [|done].
  destruct (query "wfmoutpre?" s2) as [[answer s3]|]; [|done].
  destruct (write "verbose OFF;header OFF" s3) as [[[] s4]|]; [|done].
  by destruct (header_items _ []).
Qed.

End HeaderFacts.

Section HeaderClaims.

Import Oscilloscope.

(** X12: what [_get_header] makes of the answer to [wfmoutpre?]. The first
    [:WFMOUTPRE:] is removed and the answer is cut at its semicolons. When
    every segment holds a space, a new dictionary is created that maps the
    first space-separated field of each segment to its second field, the
    last segment winning for a repeated key and anything after a second
    space being dropped. When a segment holds no space, as the only segment
    of an empty answer does, [IndexError] is raised. *)
Theorem get_header_parses_key_value_segments (Sc : Type) (I : Instrument Sc)
    (source : string) (sc sc' : Sc) (h : heap) (answer : string) :
  ask_header source sc = Ok (answer, sc') ->
  (Forall (fun x => has_char " " x = true)
          (split ";" (replace_first ":WFMOUTPRE:" "" answer)) ->
   exists d,
     _get_header source (sc, h) = Ok (next_dict h, (sc', with_new_dict h d)) /\
     dict_wf d /\
     forall key, dict_get key d
                 = HStr <$> header_value key (split ";" (replace_first ":WFMOUTPRE:" "" answer))) /\
  (~ Forall (fun x => has_char " " x = true)
            (split ";" (replace_first ":WFMOUTPRE:" "" answer)) ->
   _get_header source (sc, h) = Raise IndexError) /\
  (answer = "" -> _get_header source (sc, h) = Raise IndexError).
Proof.
  intros Hask. rewrite get_header_run, Hask. split_and!.
  - intros Hall. destruct (header_items_ok _ [] Hall) as [d Hd]. exists d. rewrite Hd.
    split_and!; [done | by eapply (header_items_wf _ []); [apply NoDup_nil_2 | exact Hd] |].
    intros key. rewrite (header_items_lookup key _ _ _ Hd).
    by destruct (header_value key _).
  - intros Hnot. by rewrite header_items_no_space.
  - by intros ->.
Qed.

Lemma get_header_parses_key_value_segments_witness :
  (Forall (fun x => has_char " " x = true)
          (split ";" (replace_first ":WFMOUTPRE:" ""
             ":WFMOUTPRE:WFID Ch1, DC coupling;YMULT 2.0;YOFF 10;YZERO 1.0;ENCDG ASCII")) ->
   exists d,
     _get_header "CH4" (Lab.scope1, Bench.empty_heap)
       = Ok (next_dict Bench.empty_heap, (Lab.selected "CH4", with_new_dict Bench.empty_heap d)) /\
     dict_wf d /\
     forall key, dict_get key d
                 = HStr <$> header_value key (split ";" (replace_first ":WFMOUTPRE:" ""
                     ":WFMOUTPRE:WFID Ch1, DC coupling;YMULT 2.0;YOFF 10;YZERO 1.0;ENCDG ASCII"))) /\
  (~ Forall (fun x => has_char " " x = true)
            (split ";" (replace_first ":WFMOUTPRE:" ""
               ":WFMOUTPRE:WFID Ch1, DC coupling;YMULT 2.0;YOFF 10;YZERO 1.0;ENCDG ASCII")) ->
   _get_header "CH4" (Lab.scope1, Bench.empty_heap) = Raise IndexError) /\
  (":WFMOUTPRE:WFID Ch1, DC coupling;YMULT 2.0;YOFF 10;YZERO 1.0;ENCDG ASCII" = "" ->
   _get_header "CH4" (Lab.scope1, Bench.empty_heap) = Raise IndexError).
Proof.
  apply (get_header_parses_key_value_segments Bench.bench _ "CH4" Lab.scope1 (Lab.selected "CH4")).
  vm_compute. reflexivity.
Defined.

End HeaderClaims.

(** ** Turns of the generator that do not decode *)

Section TurnFacts.

Import Oscilloscope.

Context {Sc : Type} `{Instrument Sc}.

Lemma decode_source_other (source : string) (header : loc) (sc : Sc) (h : heap)
    y_mult y_offset y_zero (encdg : hval) :
  calibration (dicts h header) = Ok (y_mult, y_offset, y_zero) ->
  dict_get "ENCDG" (dicts h header) = Some encdg ->
  hval_is encdg "ASCII" = false -> hval_is encdg "BINARY" = false ->
  decode_source source header (sc, h) = Ok (Yield source [] header, (sc, h)).
Proof.
  intros Hcal Henc Ha Hb. unfold decode_source.
  erewrite bind_ok by reflexivity.
  erewrite bind_ok by (by apply lift_result_ok). cbn beta iota.
  erewrite bind_ok by (by apply lift_result_ok, getitem_ok).
  by rewrite Ha, Hb.
Qed.

Lemma decode_source_calibration_raise (source : string) (header : loc) (sc : Sc) (h : heap)
    (e : exn) :
  calibration (dicts h header) = Raise e ->
  decode_source source header (sc, h) = Raise e.
Proof.
  intros Hcal. unfold decode_source. erewrite bind_ok by reflexivity.
  erewrite bind_raise; [done|]. by apply lift_result_raise.
Qed.

Lemma decode_source_encdg_missing (source : string) (header : loc) (sc : Sc) (h : heap)
    y_mult y_offset y_zero :
  calibration (dicts h header) = Ok (y_mult, y_offset, y_zero) ->
  dict_get "ENCDG" (dicts h header) = None ->
  decode_source source header (sc, h) = Raise (KeyError "ENCDG").
Proof.
  intros Hcal Henc. unfold decode_source. erewrite bind_ok by reflexivity.
  erewrite bind_ok by (by apply lift_result_ok). cbn beta iota.
  erewrite bind_raise; [done|]. apply lift_result_raise. unfold getitem. by rewrite Henc.
Qed.

End TurnFacts.

Lemma py_float_raise (s : string) (e : exn) : py_float s = Raise e -> e = ValueError s.
Proof.
  unfold py_float.
  destruct (match float_rstrip (float_lstrip s) with
            | String "+" r => (false, r)
            | String "-" r => (true, r)
            | _ => (false, float_rstrip (float_lstrip s))
            end) as [neg u].
  destruct (String.eqb (lower u) "inf" || String.eqb (lower u) "infinity"); [done|].
  destruct (String.eqb (lower u) "nan"); [done|].
  destruct (parse_number u) as [[[m nfrac] r]|]; [|congruence].
  destruct (parse_exponent r); [done | congruence].
Qed.

Section TurnClaims.

Import Oscilloscope.

(** X13: an encoding that is neither "ASCII" nor "BINARY". In a turn for a
    channel that is on and whose header has its calibration, when ENCDG is
    any other value, such as the short form "ASC", the turn yields the
    source with an empty list of samples and its header; the curve is not
    queried and nothing is raised. *)
Theorem other_encoding_yields_no_samples (Sc : Type) (I : Instrument Sc) lb ub
    (source : string) (st : Sc * heap) (header : loc) (answer : string) (sc1 : Sc)
    (h1 : heap) (c : ascii) (y_mult y_offset y_zero : float) (encdg : string) :
  select_source lb ub source st = Ok ((header, answer), (sc1, h1)) ->
  first_char answer = Ok c -> c <> "0"%char ->
  calibration (dicts h1 header) = Ok (y_mult, y_offset, y_zero) ->
  dict_get "ENCDG" (dicts h1 header) = Some (HStr encdg) ->
  encdg <> "ASCII" -> encdg <> "BINARY" ->
  _get_data_visa_body lb ub source st = Ok (Yield source [] header, (sc1, h1)).
Proof.
  intros Hsel Hc Hne Hcal Henc Ha Hb.
  erewrite body_on by done. eapply decode_source_other; [done | done | |]; cbn.
  - by destruct (String.eqb_spec encdg "ASCII").
  - by destruct (String.eqb_spec encdg "BINARY").
Qed.

Lemma other_encoding_yields_no_samples_witness :
  _get_data_visa_body None None "CH1" (Lab.scope1, Bench.empty_heap)
  = Ok (Yield "CH1" [] 0%nat,
        (Lab.selected "CH1",
         with_new_dict Bench.empty_heap
           [("YMULT", HStr "2.0"); ("YOFF", HStr "10"); ("YZERO", HStr "1.0");
            ("ENCDG", HStr "ASC")])).
Proof.
  apply (other_encoding_yields_no_samples Bench.bench _ None None "CH1"
           (Lab.scope1, Bench.empty_heap) 0%nat "1" (Lab.selected "CH1")
           (with_new_dict Bench.empty_heap
              [("YMULT", HStr "2.0"); ("YOFF", HStr "10"); ("YZERO", HStr "1.0");
               ("ENCDG", HStr "ASC")])
           "1"%char (float_of_int 2) (float_of_int 10) (float_of_int 1) "ASC");
    first [ vm_compute; reflexivity | vm_compute; congruence ].
Defined.

(** X14: a header that lacks a field the decoding needs. In a turn for a
    channel that is on, the fields YMULT, YOFF, YZERO and ENCDG are read in
    this order; when the fields before one of them are numbers and that one
    is absent, the turn raises [KeyError] with its name, and when it is one
    of the three calibration fields and its text is not a number, the turn
    raises [ValueError] with that text. The curve is not queried. A text
    padded with one of the separators 28 to 31, which [float] does not take
    for white space, is not a number: as YMULT it raises [ValueError], and as
    YOFF it raises [ValueError] before the absence of YZERO is noticed. *)
Theorem missing_header_field_raises (Sc : Type) (I : Instrument Sc) lb ub
    (source : string) (st : Sc * heap) (header : loc) (answer : string) (sc1 : Sc)
    (h1 : heap) (c : ascii) (before after : list string) (key : string) :
  select_source lb ub source st = Ok ((header, answer), (sc1, h1)) ->
  first_char answer = Ok c -> c <> "0"%char ->
  ["YMULT"; "YOFF"; "YZERO"; "ENCDG"] = before ++ key :: after ->
  Forall (fun k => exists s f, dict_get k (dicts h1 header) = Some (HStr s) /\ py_float s = Ok f)
         before ->
  ((dict_get key (dicts h1 header) = None ->
    _get_data_visa_body lb ub source st = Raise (KeyError key)) /\
   (forall s e, key <> "ENCDG" ->
      dict_get key (dicts h1 header) = Some (HStr s) -> py_float s = Raise e ->
      _get_data_visa_body lb ub source st = Raise (ValueError s))) /\
  Cases.read (Cases.ascii (String "028" "2.0") "10" "1.0" "10")
    = Raise (ValueError (String "028" "2.0")) /\
  Cases.read (Cases.scope (":WFMOUTPRE:YMULT 2.0;YOFF " +:+ String "031" "10;ENCDG ASCII")
                          "10" [])
    = Raise (ValueError (String "031" "10")) /\
  Cases.read (Cases.scope ":WFMOUTPRE:YMULT 2.0;YOFF 10;ENCDG ASCII" "10" [])
    = Raise (KeyError "YZERO").
Proof.
  intros Hsel Hc Hne Hlist Hbefore.
  split; [|split_and!; vm_compute; reflexivity].
  erewrite body_on by done.
  assert (Hget : forall k s f, dict_get k (dicts h1 header) = Some (HStr s) -> py_float s = Ok f ->
                 getitem (dicts h1 header) k ≫= float_of_hval = Ok f).
  { intros k s f Hk Hs. unfold getitem. rewrite Hk. cbn. exact Hs. }
  assert (Hnone : forall k, dict_get k (dicts h1 header) = None ->
                  getitem (dicts h1 header) k ≫= float_of_hval = Raise (KeyError k)).
  { intros k Hk. unfold getitem. by rewrite Hk. }
  assert (Hbad : forall k s e, dict_get k (dicts h1 header) = Some (HStr s) ->
                 py_float s = Raise e ->
                 getitem (dicts h1 header) k ≫= float_of_hval = Raise (ValueError s)).
  { intros k s e Hk Hs. unfold getitem. rewrite Hk. cbn. rewrite Hs.
    by rewrite (py_float_raise s e Hs). }
  destruct before as [|k1 [|k2 [|k3 [|k4 before]]]]; simplify_eq/=.
  - split.
    + intros Hk. apply decode_source_calibration_raise. unfold calibration.
      by rewrite (Hnone _ Hk).
    + intros s e _ Hk Hs. apply decode_source_calibration_raise. unfold calibration.
      by rewrite (Hbad _ _ _ Hk Hs).
  - apply Forall_cons in Hbefore as [(s1 & f1 & Hk1 & Hs1) _]. split.
    + intros Hk. apply decode_source_calibration_raise. unfold calibration.
      rewrite (Hget _ _ _ Hk1 Hs1). cbn. by rewrite (Hnone _ Hk).
    + intros s e _ Hk Hs. apply decode_source_calibration_raise. unfold calibration.
      rewrite (Hget _ _ _ Hk1 Hs1). cbn. by rewrite (Hbad _ _ _ Hk Hs).
  - apply Forall_cons in Hbefore as [(s1 & f1 & Hk1 & Hs1) Hbefore].
    apply Forall_cons in Hbefore as [(s2 & f2 & Hk2 & Hs2) _]. split.
    + intros Hk. apply decode_source_calibration_raise. unfold calibration.
      rewrite (Hget _ _ _ Hk1 Hs1). cbn. rewrite (Hget _ _ _ Hk2 Hs2). cbn.
      by rewrite (Hnone _ Hk).
    + intros s e _ Hk Hs. apply decode_source_calibration_raise. unfold calibration.
      rewrite (Hget _ _ _ Hk1 Hs1). cbn. rewrite (Hget _ _ _ Hk2 Hs2). cbn.
      by rewrite (Hbad _ _ _ Hk Hs).
  - apply Forall_cons in Hbefore as [(s1 & f1 & Hk1 & Hs1) Hbefore].
    apply Forall_cons in Hbefore as [(s2 & f2 & Hk2 & Hs2) Hbefore].
    apply Forall_cons in Hbefore as [(s3 & f3 & Hk3 & Hs3) _]. split.
    + intros Hk. eapply decode_source_encdg_missing; [|done]. unfold calibration.
      rewrite (Hget _ _ _ Hk1 Hs1). cbn. rewrite (Hget _ _ _ Hk2 Hs2). cbn.
      rewrite (Hget _ _ _ Hk3 Hs3). reflexivity.
    + intros s e Hkey. done.
  - destruct before; discriminate.
Qed.

Lemma missing_header_field_raises_witness :
  ((dict_get "YOFF" [("YMULT", HStr "2.0"); ("YZERO", HStr "1.0"); ("ENCDG", HStr "ASCII")] = None ->
    _get_data_visa_body None None "CH3" (Lab.scope1, Bench.empty_heap) = Raise (KeyError "YOFF")) /\
   (forall s e, "YOFF" <> "ENCDG" ->
      dict_get "YOFF" [("YMULT", HStr "2.0"); ("YZERO", HStr "1.0"); ("ENCDG", HStr "ASCII")]
        = Some (HStr s) ->
      py_float s = Raise e ->
      _get_data_visa_body None None "CH3" (Lab.scope1, Bench.empty_heap) = Raise (ValueError s))) /\
  Cases.read (Cases.ascii (String "028" "2.0") "10" "1.0" "10")
    = Raise (ValueError (String "028" "2.0")) /\
  Cases.read (Cases.scope (":WFMOUTPRE:YMULT 2.0;YOFF " +:+ String "031" "10;ENCDG ASCII")
                          "10" [])
    = Raise (ValueError (String "031" "10")) /\
  Cases.read (Cases.scope ":WFMOUTPRE:YMULT 2.0;YOFF 10;ENCDG ASCII" "10" [])
    = Raise (KeyError "YZERO").
Proof.
  apply (missing_header_field_raises Bench.bench _ None None "CH3"
           (Lab.scope1, Bench.empty_heap) 0%nat "1" (Lab.selected "CH3")
           (with_new_dict Bench.empty_heap
              [("YMULT", HStr "2.0"); ("YZERO", HStr "1.0"); ("ENCDG", HStr "ASCII")])
           "1"%char ["YMULT"] ["YZERO"; "ENCDG"] "YOFF").
  - vm_compute; reflexivity.
  - vm_compute; reflexivity.
  - vm_compute; congruence.
  - reflexivity.
  - constructor; [|constructor]. exists "2.0", (float_of_int 2). split; vm_compute; reflexivity.
Defined.

End TurnClaims.

(** ** Curves in ASCII *)

Section AsciiClaims.

Import Oscilloscope.

Lemma map_result_length {A B} (f : A -> result B) (xs : list A) : forall ys,
  map_result f xs = Ok ys -> length ys = length xs.
Proof.
  induction xs as [|x xs IH]; intros ys; cbn [map_result].
  - by intros [= <-].
  - destruct (f x) as [y|]; [|done]. cbn.
    destruct (map_result f xs) as [ys'|]; [|done]. cbn. intros [= <-]. cbn. by rewrite (IH ys').
Qed.

Lemma map_result_first_error {A B} (f : A -> result B) (good : list A) (bad : A)
    (rest : list A) (e : exn) :
  Forall (fun x => exists y, f x = Ok y) good -> f bad = Raise e ->
  map_result f (good ++ bad :: rest) = Raise e.
Proof.
  intros Hgood Hbad. induction Hgood as [|x good [y Hy] _ IH]; cbn [map_result app].
  - by rewrite Hbad.
  - rewrite Hy. cbn. by rewrite IH.
Qed.

(** X15: the number of samples of an ASCII curve. When the list
    comprehension over [read_string.split(",")] returns, it returns one
    sample more than the string has commas, so never an empty list. *)
Theorem ascii_curve_has_one_sample_per_field (y_mult y_offset y_zero : float)
    (read_string : string) (ret_val : list float) :
  ascii_samples y_mult y_offset y_zero read_string = Ok ret_val ->
  length ret_val = S (count_char "," read_string) /\ ret_val <> [].
Proof.
  unfold ascii_samples. intros Hok. apply map_result_length in Hok.
  rewrite length_split in Hok. split; [done|]. by destruct ret_val.
Qed.

Lemma ascii_curve_has_one_sample_per_field_witness :
  length (map (scale (float_of_int 2) (float_of_int 10) (float_of_int 1))
              (map float_of_int [10; 20; 30]))
  = S (count_char "," "10,20,30") /\
  map (scale (float_of_int 2) (float_of_int 10) (float_of_int 1))
      (map float_of_int [10; 20; 30]) <> [].
Proof.
  apply (ascii_curve_has_one_sample_per_field (float_of_int 2) (float_of_int 10) (float_of_int 1)
           "10,20,30").
  vm_compute. reflexivity.
Defined.

(** X16: a curve with a field that is not a number. In a turn for a channel
    that is on and in ASCII mode, when the fields before some field of the
    curve are numbers and that field is not, the turn raises [ValueError]
    with the text of that field and yields nothing; an empty field, so also
    an empty curve, is such a field, and so is a number padded with one of
    the separators 28 to 31, which [float] does not take for white space. *)
Theorem ascii_curve_with_a_bad_field_raises (Sc : Type) (I : Instrument Sc) lb ub
    (source : string) (st : Sc * heap) (header : loc) (answer : string) (sc1 sc2 : Sc)
    (h1 : heap) (c : ascii) (y_mult y_offset y_zero : float) (read_string : string)
    (good rest : list string) (bad : string) (e : exn) :
  select_source lb ub source st = Ok ((header, answer), (sc1, h1)) ->
  first_char answer = Ok c -> c <> "0"%char ->
  calibration (dicts h1 header) = Ok (y_mult, y_offset, y_zero) ->
  dict_get "ENCDG" (dicts h1 header) = Some (HStr "ASCII") ->
  query "curve?" sc1 = Ok (read_string, sc2) ->
  split "," read_string = good ++ bad :: rest ->
  Forall (fun entry => exists raw, py_float entry = Ok raw) good ->
  py_float bad = Raise e ->
  _get_data_visa_body lb ub source st = Raise (ValueError bad) /\
  py_float "" = Raise (ValueError "") /\
  py_float (String "028" "20") = Raise (ValueError (String "028" "20")) /\
  py_float ("20" +:+ String "031" "") = Raise (ValueError ("20" +:+ String "031" "")) /\
  Cases.read (Cases.ascii "2.0" "10" "1.0" ("10," +:+ String "028" "20,x"))
    = Raise (ValueError (String "028" "20")).
Proof.
  intros Hsel Hc Hne Hcal Henc Hq Hsplit Hgood Hbad.
  split_and!; [|vm_compute; reflexivity..].
  erewrite body_on by done. erewrite decode_source_ascii by done.
  unfold ascii_samples. rewrite Hsplit.
  rewrite (map_result_first_error _ good bad rest (ValueError bad)); [done | |].
  - eapply Forall_impl; [exact Hgood|]. intros entry [raw Hraw]. rewrite Hraw. by eexists.
  - rewrite Hbad. by rewrite (py_float_raise bad e Hbad).
Qed.

Lemma ascii_curve_with_a_bad_field_raises_witness :
  _get_data_visa_body None None "CH1"
    (Cases.ascii "2.0" "10" "1.0" ("10," +:+ String "028" "20,x"), Bench.empty_heap)
    = Raise (ValueError (String "028" "20")) /\
  py_float "" = Raise (ValueError "") /\
  py_float (String "028" "20") = Raise (ValueError (String "028" "20")) /\
  py_float ("20" +:+ String "031" "") = Raise (ValueError ("20" +:+ String "031" "")) /\
  Cases.read (Cases.ascii "2.0" "10" "1.0" ("10," +:+ String "028" "20,x"))
    = Raise (ValueError (String "028" "20")).
Proof.
  apply (ascii_curve_with_a_bad_field_raises Bench.bench _ None None "CH1"
           (Cases.ascii "2.0" "10" "1.0" ("10," +:+ String "028" "20,x"), Bench.empty_heap)
           0%nat "1"
           (Bench.mkBench "TEKTRONIX,MDO3024" "CH1"
              (Bench.channels (Cases.ascii "2.0" "10" "1.0" ("10," +:+ String "028" "20,x"))))
           (Bench.mkBench "TEKTRONIX,MDO3024" "CH1"
              (Bench.channels (Cases.ascii "2.0" "10" "1.0" ("10," +:+ String "028" "20,x"))))
           (with_new_dict Bench.empty_heap Bench.ascii_header)
           "1"%char (float_of_int 2) (float_of_int 10) (float_of_int 1)
           ("10," +:+ String "028" "20,x")
           ["10"] ["x"] (String "028" "20") (ValueError (String "028" "20")));
    first [ vm_compute; reflexivity | vm_compute; congruence | idtac ].
  constructor; [|constructor]. exists (float_of_int 10). vm_compute; reflexivity.
Defined.

End AsciiClaims.

(** ** What a turn does to the store *)

(** Inversion of one bind of a computation that is known to return. *)
Tactic Notation "inv_bind" hyp(H) "as" ident(a) ident(s) ident(k) ident(Hm) :=
  apply bind_inv in H as (a & [s k] & Hm & H).

Section TurnStore.

Import Oscilloscope.

Context {Sc : Type} `{Instrument Sc}.

Lemma on_scope_inv {A} (m : M Sc A) (sc sc' : Sc) (h h' : heap) (a : A) :
  on_scope m (sc, h) = Ok (a, (sc', h')) -> m sc = Ok (a, sc') /\ h' = h.
Proof. cbn. destruct (m sc) as [[a' s]|]; [|done]. by intros [= -> -> ->]. Qed.

Lemma lift_result_inv {St A} (r : result A) (a : A) (s s' : St) :
  lift_result r s = Ok (a, s') -> r = Ok a /\ s' = s.
Proof. destruct r; cbn; [|done]. by intros [= -> ->]. Qed.

Lemma get_header_inv (source : string) (sc sc' : Sc) (h h' : heap) (l : loc) :
  _get_header source (sc, h) = Ok (l, (sc', h')) ->
  exists d, l = next_dict h /\ h' = with_new_dict h d /\ dict_wf d.
Proof.
  rewrite get_header_run. destruct (ask_header source sc) as [[answer s]|]; [|done].
  destruct (header_items _ []) as [d|] eqn:Hd; [|done]. intros [= <- <- <-]. exists d.
  split_and!; [done | done |]. eapply (header_items_wf _ []); [apply NoDup_nil_2 | exact Hd].
Qed.

Lemma select_source_inv lb ub (source : string) (sc sc' : Sc) (h h' : heap)
    (header : loc) (answer : string) :
  select_source lb ub source (sc, h) = Ok ((header, answer), (sc', h')) ->
  exists d, header = next_dict h /\ h' = with_new_dict h d /\ dict_wf d.
Proof.
  unfold select_source. intros Hrun.
  inv_bind Hrun as x1 s1 k1 H1. apply on_scope_inv in H1 as [_ ->].
  inv_bind Hrun as x2 s2 k2 H2. apply on_scope_inv in H2 as [_ ->].
  inv_bind Hrun as x3 s3 k3 H3. apply on_scope_inv in H3 as [_ ->].
  inv_bind Hrun as x4 s4 k4 H4. apply on_scope_inv in H4 as [_ ->].
  inv_bind Hrun as x5 s5 k5 H5. apply get_header_inv in H5 as (d & -> & -> & Hd).
  inv_bind Hrun as x6 s6 k6 H6. apply on_scope_inv in H6 as [_ ->].
  cbn in Hrun. injection Hrun as <- <- <- <-. by exists d.
Qed.

Lemma decode_source_inv (source : string) (header : loc) (sc sc' : Sc) (h h' : heap)
    (r : step) :
  decode_source source header (sc, h) = Ok (r, (sc', h')) ->
  h' = h /\ exists ret_val, r = Yield source ret_val header.
Proof.
  unfold decode_source. intros Hrun.
  inv_bind Hrun as hd s1 k1 H1. cbn in H1. injection H1 as <- <- <-.
  inv_bind Hrun as cal s2 k2 H2. apply lift_result_inv in H2 as [_ [= -> ->]].
  destruct cal as [[y_mult y_offset] y_zero].
  inv_bind Hrun as encdg s3 k3 H3. apply lift_result_inv in H3 as [_ [= -> ->]].
  inv_bind Hrun as ret_val s4 k4 H4. cbn in Hrun. injection Hrun as <- <- <-.
  split; [|by eexists].
  destruct (hval_is encdg "ASCII"); [|destruct (hval_is encdg "BINARY")].
  - inv_bind H4 as read_string s5 k5 H5. apply on_scope_inv in H5 as [_ ->].
    by apply lift_result_inv in H4 as [_ [= -> ->]].
  - unfold binary_samples in H4.
    inv_bind H4 as fmt s5 k5 H5. apply lift_result_inv in H5 as [_ [= -> ->]].
    inv_bind H4 as byt_or s6 k6 H6. apply lift_result_inv in H6 as [_ [= -> ->]].
    inv_bind H4 as vals s7 k7 H7. apply on_scope_inv in H7 as [_ ->].
    cbn in H4. by injection H4 as <- <- <-.
  - cbn in H4. by injection H4 as <- <- <-.
Qed.

(** A turn creates one dictionary and changes nothing else in the store;
    what it yields is the source and that dictionary. *)
Lemma body_inv lb ub (source : string) (sc sc' : Sc) (h h' : heap) (r : step) :
  _get_data_visa_body lb ub source (sc, h) = Ok (r, (sc', h')) ->
  exists d,
    h' = with_new_dict h d /\ dict_wf d /\
    match r with
    | Yield name _ header => name = source /\ header = next_dict h
    | Return => True
    end.
Proof.
  unfold _get_data_visa_body. intros Hrun.
  inv_bind Hrun as ha s1 k1 H1. destruct ha as [header answer].
  apply select_source_inv in H1 as (d & -> & -> & Hd).
  inv_bind Hrun as c s2 k2 H2. apply lift_result_inv in H2 as [_ [= -> ->]].
  exists d. destruct (Ascii.eqb c "0").
  - cbn in Hrun. by injection Hrun as <- <- <-.
  - apply decode_source_inv in Hrun as [-> [ret_val ->]]. done.
Qed.

Lemma with_new_dict_old (h : heap) (d : pydict hval) (l : loc) :
  (l < next_dict h)%nat -> dicts (with_new_dict h d) l = dicts h l.
Proof. intros Hl. cbn. apply fn_lookup_insert_ne. lia. Qed.

(** The generator run to its end: see X17. *)
Lemma generator_inv (sources : list string) lb ub :
  forall (sc sc' : Sc) (h h' : heap) triples,
    _get_data_visa sources lb ub (sc, h) = Ok (triples, (sc', h')) ->
    map triple_name triples `prefix_of` sources /\
    map triple_header triples = seq (next_dict h) (length triples) /\
    objs h' = objs h /\ next_obj h' = next_obj h /\
    (next_dict h + length triples <= next_dict h')%nat /\
    (next_dict h' <= next_dict h + length sources)%nat /\
    (forall l, (l < next_dict h)%nat -> dicts h' l = dicts h l).
Proof.
  induction sources as [|source rest IH]; intros sc sc' h h' triples Hgen.
  - cbn in Hgen. injection Hgen as <- <- <-. cbn. split_and!; try done; try lia.
  - cbn [_get_data_visa] in Hgen.
    inv_bind Hgen as r s1 h1 Hbody. apply body_inv in Hbody as (d & -> & _ & Hr).
    destruct r as [name ret_val header|].
    + destruct Hr as [-> ->].
      inv_bind Hgen as more s2 h2 Hmore. cbn in Hgen. injection Hgen as <- <- <-.
      apply IH in Hmore as (Hpre & Hhdr & Hobj & Hno & Hlo & Hhi & Hold).
      change (next_dict (with_new_dict h d)) with (S (next_dict h)) in *.
      change (objs (with_new_dict h d)) with (objs h) in *.
      change (next_obj (with_new_dict h d)) with (next_obj h) in *.
      cbn [map length seq triple_name triple_header fst snd] in *.
      split_and!.
      * by apply prefix_cons.
      * by rewrite Hhdr.
      * done.
      * done.
      * lia.
      * lia.
      * intros l Hl. rewrite Hold by lia. by apply with_new_dict_old.
    + cbn in Hgen. injection Hgen as <- <- <-. cbn [map length seq].
      change (next_dict (with_new_dict h d)) with (S (next_dict h)).
      split_and!; try done; cbn [length]; try lia.
      * apply prefix_nil.
      * intros l Hl. by apply with_new_dict_old.
Qed.

End TurnStore.

(** ** The loop of the orchestrator *)

Section LoopStore.

Import Oscilloscope.

Context {Sc : Type} `{Instrument Sc}.

Lemma store_triple_idn (w : WaveformCollection) t : idn (store_triple w t) = idn w.
Proof. destruct t as [[n d] hd]. unfold store_triple. by destruct (String.eqb n "header"). Qed.

Lemma store_triple_header (w : WaveformCollection) n d hd :
  _header (store_triple w (n, d, hd)) = PyDictRef hd.
Proof. reflexivity. Qed.

Lemma store_triple_wf (w : WaveformCollection) t :
  dict_wf (_data w) -> "header" ∉ dict_keys (_data w) ->
  dict_wf (_data (store_triple w t)) /\ "header" ∉ dict_keys (_data (store_triple w t)).
Proof.
  destruct t as [[n d] hd]. intros Hwf Hno. unfold store_triple.
  destruct (String.eqb_spec n "header") as [->|Hn]; cbn [_data]; [done|].
  split; [by apply dict_wf_set|]. rewrite dict_keys_set. case_decide; [done|].
  rewrite not_elem_of_app, list_elem_of_singleton. split; [done | congruence].
Qed.

(** What the loop of [get_data_visa] does to the store when it ends
    normally. *)
Lemma loop_inv (wf : loc) (channels : list string) :
  forall (sc sc' : Sc) (h h' : heap) (hd : loc),
    get_data_visa_loop wf channels (sc, h) = Ok (tt, (sc', h')) ->
    (hd < next_dict h)%nat -> collection_wf h wf hd ->
    next_obj h' = next_obj h /\
    (forall l, l <> wf -> objs h' l = objs h l) /\
    idn (objs h' wf) = idn (objs h wf) /\
    (next_dict h <= next_dict h')%nat /\
    (forall l, (l < next_dict h)%nat -> dicts h' l = dicts h l) /\
    exists hd', (hd <= hd' < next_dict h')%nat /\ collection_wf h' wf hd'.
Proof.
  induction channels as [|source rest IH]; intros sc sc' h h' hd Hloop Hhd Hwf.
  - cbn in Hloop. injection Hloop as <- <-. split_and!; try done. by exists hd.
  - cbn [get_data_visa_loop] in Hloop.
    inv_bind Hloop as r s1 h1 Hbody. apply body_inv in Hbody as (d & -> & Hd & Hr).
    destruct r as [name ret_val header|].
    + destruct Hr as [-> ->].
      destruct (store_run wf source ret_val (next_dict h) s1 (with_new_dict h d))
        as (h1s & Hstore & [Hsd Hsn] & Hso & Hswf & Hsframe).
      unfold mbind at 1, M_bind at 1 in Hloop.
      unfold mbind at 1, M_bind at 1 in Hstore.
      destruct (on_heap (WaveformCollection.__setitem__ wf source (PyList ret_val))
                        (s1, with_new_dict h d)) as [[[] st]|]; [|done].
      unfold mbind at 1, M_bind at 1 in Hloop. rewrite Hstore in Hloop.
      change (next_dict (with_new_dict h d)) with (S (next_dict h)) in *.
      change (objs (with_new_dict h d)) with (objs h) in *.
      change (next_obj (with_new_dict h d)) with (next_obj h) in *.
      destruct Hwf as (Hdata & Hno & Hhdr & Hhwf).
      destruct (store_triple_wf (objs h wf) (source, ret_val, next_dict h) Hdata Hno)
        as [Hdata' Hno'].
      assert (Hwf1 : collection_wf h1s wf (next_dict h)).
      { unfold collection_wf. rewrite Hswf, Hsd. split_and!; try done.
        cbn. by rewrite fn_lookup_insert. }
      apply (IH _ _ _ _ (next_dict h)) in Hloop
        as (Hno1 & Hframe1 & Hidn1 & Hle1 & Hold1 & hd' & Hhd' & Hwf'); [|lia|done].
      split_and!.
      * congruence.
      * intros l Hl. rewrite Hframe1, Hsframe by done. done.
      * by rewrite Hidn1, Hswf, store_triple_idn.
      * lia.
      * intros l Hl. rewrite Hold1 by lia. rewrite Hsd. by apply with_new_dict_old.
      * exists hd'. split; [lia | done].
    + cbn in Hloop. injection Hloop as <- <-.
      change (next_dict (with_new_dict h d)) with (S (next_dict h)).
      split_and!; try done; try lia.
      * intros l Hl. by apply with_new_dict_old.
      * exists hd. split; [lia|]. destruct Hwf as (? & ? & ? & ?).
        unfold collection_wf. rewrite with_new_dict_old by done. done.
Qed.

(** An exception of the generator is an exception of the loop. *)
Lemma started_heap (answer : string) (h : heap) :
  next_obj (started answer h) = S (next_obj h) /\
  next_dict (started answer h) = S (next_dict h) /\
  (forall l, l <> next_obj h -> objs (started answer h) l = objs h l) /\
  (forall l, l <> next_dict h -> dicts (started answer h) l = dicts h l) /\
  collection_wf (started answer h) (next_obj h) (next_dict h).
Proof.
  unfold collection_wf. rewrite started_obj.
  unfold started, WaveformCollection.__init__, WaveformCollection.set_idn,
    new_dict, new_obj, read_obj, write_obj, mbind, M_bind.
  cbn [objs dicts next_obj next_dict _data _header]. split_and!; try done.
  - intros l Hl. by rewrite !fn_lookup_insert_ne.
  - intros l Hl. by rewrite fn_lookup_insert_ne.
  - apply NoDup_nil_2.
  - apply not_elem_of_nil.
  - rewrite fn_lookup_insert. apply NoDup_nil_2.
Qed.

(** The steps of [get_data_visa] when it returns. *)
Lemma get_data_visa_inv (channels : list string) (sc sc' : Sc) (h h' : heap) (wf : loc) :
  get_data_visa channels (sc, h) = Ok (wf, (sc', h')) ->
  exists answer sc1,
    query "*IDN?" sc = Ok (answer, sc1) /\ wf = next_obj h /\
    get_data_visa_loop wf channels (sc1, started answer h) = Ok (tt, (sc', h')).
Proof.
  unfold get_data_visa. intros Hrun.
  erewrite bind_ok in Hrun by reflexivity.
  inv_bind Hrun as answer s1 h1 Hq. apply on_scope_inv in Hq as (Hq & ->).
  erewrite bind_ok in Hrun by reflexivity.
  inv_bind Hrun as u s2 h2 Hloop. cbn in Hrun. injection Hrun as <- <- <-.
  exists answer, s1. split_and!; [done | done |]. destruct u.
  destruct channels as [|source rest]; exact Hloop.
Qed.

Lemma loop_raises (wf : loc) (channels : list string) :
  forall (sc : Sc) (h : heap) (e : exn),
    _get_data_visa channels None None (sc, h) = Raise e ->
    get_data_visa_loop wf channels (sc, h) = Raise e.
Proof.
  induction channels as [|source rest IH]; intros sc h e Hgen; [done|].
  cbn [_get_data_visa get_data_visa_loop] in *.
  unfold mbind at 1, M_bind at 1 in Hgen. unfold mbind at 1, M_bind at 1.
  destruct (_get_data_visa_body None None source (sc, h)) as [[r [s1 h1]]|];
    [|by injection Hgen as ->].
  destruct r as [name ret_val header|]; [|done].
  destruct (store_run wf name ret_val header s1 h1) as (h1s & Hstore & Hd1 & _).
  unfold mbind at 1, M_bind at 1 in Hstore.
  unfold mbind at 1, M_bind at 1.
  destruct (on_heap (WaveformCollection.__setitem__ wf name (PyList ret_val)) (s1, h1))
    as [[[] st]|]; [|done].
  unfold mbind at 1, M_bind at 1. rewrite Hstore. apply IH.
  pose proof (oblivious_generator rest None None s1 h1s h1 Hd1) as Hagree.
  unfold agree in Hagree.
  unfold mbind at 1, M_bind at 1 in Hgen.
  destruct (_get_data_visa rest None None (s1, h1)) as [[more [s2 h2]]|]; [done|].
  injection Hgen as ->.
  destruct (_get_data_visa rest None None (s1, h1s)) as [[more' [s2' h2']]|]; [done|].
  by rewrite Hagree.
Qed.

End LoopStore.

(** ** The generator and the orchestrator, continued *)

Section OrchestratorMore.

Import Oscilloscope.

(** X17: what the generator yields. The names of the triples are the
    requested sources in their order, up to the first channel that is off;
    each triple carries a header dictionary of its own, created in that
    turn; the instances and the dictionaries that existed before are as they
    were. *)
Theorem generator_yields_sources_in_order (Sc : Type) (I : Instrument Sc)
    (sources : list string) lb ub (sc sc' : Sc) (h h' : heap)
    (triples : list (string * list float * loc)) :
  _get_data_visa sources lb ub (sc, h) = Ok (triples, (sc', h')) ->
  map triple_name triples `prefix_of` sources /\
  map triple_header triples = seq (next_dict h) (length triples) /\
  NoDup (map triple_header triples) /\
  objs h' = objs h /\ next_obj h' = next_obj h /\
  (forall l, (l < next_dict h)%nat -> dicts h' l = dicts h l).
Proof.
  intros Hgen. apply generator_inv in Hgen as (Hpre & Hhdr & Hobj & Hno & _ & _ & Hold).
  split_and!; try done. rewrite Hhdr. apply NoDup_seq.
Qed.

Lemma generator_yields_sources_in_order_witness :
  map triple_name [("CH1", map float_of_int [1; 21; 41], 0%nat)] `prefix_of` ["CH1"; "CH3"; "CH2"] /\
  map triple_header [("CH1", map float_of_int [1; 21; 41], 0%nat)]
    = seq (next_dict Bench.empty_heap) (length [("CH1", map float_of_int [1; 21; 41], 0%nat)]) /\
  NoDup (map triple_header [("CH1", map float_of_int [1; 21; 41], 0%nat)]) /\
  objs (final_heap (_get_data_visa ["CH1"; "CH3"; "CH2"] None None
                      (Bench.scope0, Bench.empty_heap)) Bench.empty_heap)
    = objs Bench.empty_heap /\
  next_obj (final_heap (_get_data_visa ["CH1"; "CH3"; "CH2"] None None
                          (Bench.scope0, Bench.empty_heap)) Bench.empty_heap)
    = next_obj Bench.empty_heap /\
  (forall l, (l < next_dict Bench.empty_heap)%nat ->
     dicts (final_heap (_get_data_visa ["CH1"; "CH3"; "CH2"] None None
                          (Bench.scope0, Bench.empty_heap)) Bench.empty_heap) l
     = dicts Bench.empty_heap l).
Proof.
  apply (generator_yields_sources_in_order Bench.bench _ ["CH1"; "CH3"; "CH2"] None None
           Bench.scope0 (Bench.selected_scope "CH3")).
  vm_compute. reflexivity.
Defined.

(** X18: no partial result. When a turn of the generator raises, whatever
    the turns before it yielded, [get_data_visa] raises the same exception
    and returns no collection. *)
Theorem exception_of_a_turn_leaves_get_data_visa (Sc : Type) (I : Instrument Sc)
    (channels : list string) (sc sc1 : Sc) (h : heap) (answer : string) (e : exn) :
  query "*IDN?" sc = Ok (answer, sc1) ->
  _get_data_visa channels None None (sc1, started answer h) = Raise e ->
  get_data_visa channels (sc, h) = Raise e.
Proof.
  intros Hq Hgen. unfold get_data_visa.
  erewrite bind_ok by reflexivity.
  erewrite bind_ok by (by apply on_scope_ok).
  erewrite bind_ok by reflexivity.
  destruct channels as [|source rest]; [done|].
  erewrite bind_raise; [done|]. by apply loop_raises.
Qed.

Lemma exception_of_a_turn_leaves_get_data_visa_witness :
  get_data_visa ["CH6"; "CH5"] (Lab.scope1, Bench.empty_heap) = Raise (ValueError "").
Proof.
  apply (exception_of_a_turn_leaves_get_data_visa Bench.bench _ ["CH6"; "CH5"]
           Lab.scope1 Lab.scope1 Bench.empty_heap "TEKTRONIX,MDO3024");
    vm_compute; reflexivity.
Defined.

(** X19: [get_data_visa] returns a new instance, whose [idn] is the answer
    of the instrument to [*IDN?]; the instances and the dictionaries that
    existed before the call are as they were. *)
Theorem get_data_visa_returns_a_new_collection (Sc : Type) (I : Instrument Sc)
    (channels : list string) (sc sc' : Sc) (h h' : heap) (wf : loc) :
  get_data_visa channels (sc, h) = Ok (wf, (sc', h')) ->
  wf = next_obj h /\ next_obj h' = S (next_obj h) /\
  (exists sc1, query "*IDN?" sc = Ok (idn (objs h' wf), sc1)) /\
  (forall l, l <> wf -> objs h' l = objs h l) /\
  (forall l, (l < next_dict h)%nat -> dicts h' l = dicts h l).
Proof.
  intros Hrun. apply get_data_visa_inv in Hrun as (answer & sc1 & Hq & -> & Hloop).
  destruct (started_heap answer h) as (Hno & Hnd & Hobjs & Hdicts & Hwf).
  apply (loop_inv _ _ _ _ _ _ (next_dict h)) in Hloop
    as (Hno' & Hframe & Hidn & Hle & Hold & _); [|lia|done].
  split_and!.
  - done.
  - congruence.
  - exists sc1. by rewrite Hidn, started_obj.
  - intros l Hl. by rewrite Hframe, Hobjs.
  - intros l Hl. rewrite Hold by lia. apply Hdicts. lia.
Qed.

Lemma get_data_visa_returns_a_new_collection_witness :
  0%nat = next_obj Bench.empty_heap /\
  next_obj Lab.two_channels_read = S (next_obj Bench.empty_heap) /\
  (exists sc1,
     query "*IDN?" Bench.scope0 = Ok (idn (objs Lab.two_channels_read 0%nat), sc1)) /\
  (forall l, l <> 0%nat -> objs Lab.two_channels_read l = objs Bench.empty_heap l) /\
  (forall l, (l < next_dict Bench.empty_heap)%nat ->
     dicts Lab.two_channels_read l = dicts Bench.empty_heap l).
Proof.
  apply (get_data_visa_returns_a_new_collection Bench.bench _ ["CH1"; "CH2"]
           Bench.scope0 (Bench.selected_scope "CH2")).
  vm_compute. reflexivity.
Defined.

(** X20: the collection that [get_data_visa] returns is well formed: its
    sources are pairwise distinct, none of them is ["header"], and its header
    is a dictionary with pairwise distinct keys that did not exist before the
    call, even when a requested channel is named ["header"]. *)
Theorem get_data_visa_returns_a_well_formed_collection (Sc : Type) (I : Instrument Sc)
    (channels : list string) (sc sc' : Sc) (h h' : heap) (wf : loc) :
  get_data_visa channels (sc, h) = Ok (wf, (sc', h')) ->
  exists hd, (next_dict h <= hd < next_dict h')%nat /\ collection_wf h' wf hd.
Proof.
  intros Hrun. apply get_data_visa_inv in Hrun as (answer & sc1 & Hq & -> & Hloop).
  destruct (started_heap answer h) as (Hno & Hnd & Hobjs & Hdicts & Hwf).
  apply (loop_inv _ _ _ _ _ _ (next_dict h)) in Hloop
    as (_ & _ & _ & _ & _ & hd & Hhd & Hwf'); [|lia|done].
  by exists hd.
Qed.

Lemma get_data_visa_returns_a_well_formed_collection_witness :
  exists hd, (next_dict Bench.empty_heap <= hd < next_dict Lab.two_channels_read)%nat /\
             collection_wf Lab.two_channels_read 0%nat hd.
Proof.
  apply (get_data_visa_returns_a_well_formed_collection Bench.bench _ ["CH1"; "CH2"]
           Bench.scope0 (Bench.selected_scope "CH2")).
  vm_compute. reflexivity.
Defined.

End OrchestratorMore.

(** ** The HTTP export, continued *)

Section HttpMore.

Import Oscilloscope.

Lemma Forall_dict_set {V} (P : string * V -> Prop) k v (d : pydict V) :
  Forall P d -> P (k, v) -> Forall P (dict_set k v d).
Proof.
  intros Hd Hkv. induction Hd as [|[k1 v1] d Hx Hd IH]; cbn [dict_set].
  - by repeat constructor.
  - destruct (String.eqb_spec k1 k) as [->|Hne]; by constructor.
Qed.

Lemma Forall_dict_get {V} (P : string * V -> Prop) k v (d : pydict V) :
  Forall P d -> dict_get k d = Some v -> P (k, v).
Proof.
  intros Hd. induction Hd as [|[k1 v1] d Hx Hd IH]; cbn [dict_get]; [done|].
  destruct (String.eqb_spec k1 k) as [->|Hne]; [by intros [= ->] | done].
Qed.

Lemma has_char_false (c : ascii) (s : string) : count_char c s = O -> has_char c s = false.
Proof. unfold has_char. by intros ->. Qed.

(** The loop over the preamble returns for every stream: [words[0]] exists
    on every line. It consumes at most [n] lines, and at least one when
    [n] is not 0. *)
Lemma preamble_total (n : nat) : forall (s : string) (header : pydict hval),
  dict_wf header -> Forall preamble_entry header ->
  exists header' k,
    preamble n s header = Ok (header', skip_lines k s) /\
    (k <= n)%nat /\ (n <> O -> k <> O) /\
    dict_wf header' /\ Forall preamble_entry header'.
Proof.
  induction n as [|n IH]; intros s header Hwf Hall.
  - exists header, O. by split_and!.
  - cbn [preamble]. destruct (readline s) as [line rest] eqn:Hline.
    pose proof (split_no_sep "," (strip line)) as Hsep.
    destruct (split "," (strip line)) as [|w0 ws] eqn:Hwords.
    { destruct (split_cons "," (strip line)) as (? & ? & ?). congruence. }
    cbn [list_index lookup list_lookup mbind result_bind].
    assert (Hrest : forall k, skip_lines k rest = skip_lines (S k) s).
    { intros k. cbn [skip_lines]. by rewrite Hline. }
    destruct (String.eqb_spec w0 "Label") as [->|Hlabel].
    { exists header, 1%nat. rewrite <- (Hrest O). split_and!; try done. lia. }
    destruct ((length (w0 :: ws) =? 2)%nat && negb (String.eqb w0 "")) eqn:Htwo.
    + apply andb_prop in Htwo as [Hlen Hne]. apply Nat.eqb_eq in Hlen.
      destruct ws as [|w1 [|? ?]]; try done.
      apply Forall_cons in Hsep as [Hw0 Hsep]. apply Forall_cons in Hsep as [Hw1 _].
      cbn [list_index lookup list_lookup mbind result_bind].
      destruct (IH rest (dict_set w0 (HStr w1) header)) as (header' & k & Hrun & Hk & _ & Hwf' & Hall').
      * by apply dict_wf_set.
      * apply Forall_dict_set; [done|]. unfold preamble_entry. cbn [fst snd].
        split_and!; [|done|by apply has_char_false|].
        -- intros ->. by rewrite String.eqb_refl in Hne.
        -- exists w1. split; [done | by apply has_char_false].
      * exists header', (S k). rewrite Hrun, Hrest. split_and!; try done. lia.
    + destruct (IH rest header Hwf Hall) as (header' & k & Hrun & Hk & _ & Hwf' & Hall').
      exists header', (S k). rewrite Hrun, Hrest. split_and!; try done. lia.
Qed.

Lemma parse_response_header_inv (data_string : string) :
  exists header k,
    (1 <= k <= 21)%nat /\ dict_wf header /\ Forall preamble_entry header /\
    parse_response_header data_string
    = Ok (dict_set "label" (HList (fields (nth_line k data_string))) header,
          skip_lines (S k) data_string).
Proof.
  destruct (preamble_total 21 data_string []) as (header & k & Hrun & Hk & Hk' & Hwf & Hall).
  { apply NoDup_nil_2. }
  { constructor. }
  exists header, k. split_and!; [lia | lia | done | done |].
  unfold parse_response_header. rewrite Hrun. cbn [mbind result_bind].
  unfold nth_line, fields. rewrite skip_lines_succ.
  by destruct (readline (skip_lines k data_string)).
Qed.

(** X21: the header part of [parse_response] raises on no response body,
    not even on an empty one, since [words[0]] exists on every line. It
    consumes between 2 and 22 lines of the body; the header it builds has
    pairwise distinct keys and holds under "label" a list of at least one
    label. *)
Theorem parse_response_header_never_raises (data_string : string) :
  exists header k labels,
    parse_response_header data_string = Ok (header, skip_lines k data_string) /\
    (2 <= k <= 22)%nat /\ dict_wf header /\
    dict_get "label" header = Some (HList labels) /\ labels <> [].
Proof.
  destruct (parse_response_header_inv data_string) as (header & k & Hk & Hwf & _ & Hrun).
  exists (dict_set "label" (HList (fields (nth_line k data_string))) header), (S k),
         (fields (nth_line k data_string)).
  split_and!; [done | lia | lia | by apply dict_wf_set | | ].
  - by rewrite dict_get_set, String.eqb_refl.
  - unfold fields. by destruct (split_cons "," (strip (nth_line k data_string))) as (? & ? & ->).
Qed.

(** X22: the entries of the parsed header other than "label". The key is
    neither empty nor "Label" and the value is a string; neither holds a
    comma. *)
Theorem parsed_header_entries (data_string rest key : string) (header : pydict hval)
    (v : hval) :
  parse_response_header data_string = Ok (header, rest) ->
  dict_get key header = Some v ->
  key <> "label" ->
  key <> "" /\ key <> "Label" /\ has_char "," key = false /\
  exists w, v = HStr w /\ has_char "," w = false.
Proof.
  intros Hrun Hget Hkey.
  destruct (parse_response_header_inv data_string) as (header0 & k & _ & _ & Hall & Hrun0).
  rewrite Hrun0 in Hrun. injection Hrun as <- <-.
  rewrite dict_get_set in Hget.
  destruct (String.eqb_spec "label" key) as [<-|_]; [done|].
  exact (Forall_dict_get preamble_entry key v header0 Hall Hget).
Qed.

Lemma parsed_header_entries_witness :
  "Firmware Version" <> "" /\ "Firmware Version" <> "Label" /\
  has_char "," "Firmware Version" = false /\
  exists w, HStr "1.26" = HStr w /\ has_char "," w = false.
Proof.
  apply (parsed_header_entries Bench.export_body (skip_lines 8 Bench.export_body)
           "Firmware Version"
           [("Model", HStr "MDO3024"); ("Firmware Version", HStr "1.26");
            ("Waveform Type", HStr "ANALOG"); ("label", HList ["TIME"; "CH1"])]
           (HStr "1.26"));
    [vm_compute; reflexivity | reflexivity | done].
Defined.

End HttpMore.
